(** * Workflow discovery: signal flattening and confidence scoring

    A shallow embedding of [workflow_matcher.py] (class [WorkflowMatcher])
    together with the [DependencyInfo] record of [dependency_analyzer.py]
    and the [patterns] dictionary built by [structure_analyzer.py].

    Conventions of the embedding:
    - a Python [str] is a [string]; [str.lower] maps the ASCII capitals to
      their small letters and leaves every other character alone;
    - a Python [float] is a binary64 [float] of the kernel, so [0.9], [0.7],
      [0.5], [0.3] and [1.0] are the very doubles CPython reads, and [+], [*],
      [<] and [<=] are the IEEE operations;
    - a Python [list] is a [list], a Python [set] of strings is a
      [gset string], and a [dict] read in insertion order is an association
      list;
    - the matcher object [self] is a record holding the two attributes that
      [__init__] sets. *)

From Stdlib Require Import String Ascii ZArith Zpower Floats Lia Permutation Sorted.
From stdpp Require Import base gmap sets list strings.

Local Open Scope string_scope.

(* Decimal literals such as [0.9] denote the nearest double, as in Python. *)
Set Warnings "-inexact-float".

(** ** Python builtins used by the matcher *)

Module Py.

Definition is_upper (c : ascii) : bool :=
  let n := N_of_ascii c in (65 <=? n)%N && (n <=? 90)%N.

Definition ascii_lower (c : ascii) : ascii :=
  if is_upper c then ascii_of_N (N_of_ascii c + 32) else c.

(** [s.lower()] *)
Fixpoint lower (s : string) : string :=
  match s with
  | EmptyString => EmptyString
  | String c r => String (ascii_lower c) (lower r)
  end.

(** [sep.join(parts)] *)
Definition join (sep : string) (parts : list string) : string :=
  String.concat sep parts.

(** [x in items] for a list of strings *)
Definition contains (items : list string) (x : string) : bool :=
  bool_decide (x ∈ items).

(** [len(set(xs) & set(ys))] *)
Definition len_set_inter (xs ys : list string) : nat :=
  size ((list_to_set xs : gset string) ∩ list_to_set ys).

(** [float(z)] for an [int]: the double nearest to [z], ties to even.  (Past
    the range of doubles CPython raises [OverflowError] where this gives an
    infinity; a [len] never gets there.) *)
Definition float_of_int (z : Z) : float :=
  SF2Prim (binary_normalize prec emax z 0 false).

(** The [float] a [len(...)] becomes when it meets a [float] in [*]. *)
Definition float_of_len (n : nat) : float := float_of_int (Z.of_nat n).

(** [min(a, b)] of two arguments: [b] when [b < a], else [a]. *)
Definition min (a b : float) : float :=
  if (b <? a)%float then b else a.

(** [a >= b] on floats *)
Definition ge (a b : float) : bool := (b <=? a)%float.

(** [needle in haystack] for two strings *)
Definition has_substring (needle haystack : string) : bool :=
  match String.index 0 needle haystack with
  | Some _ => true
  | None => false
  end.

(** [d.get(key)] on a dictionary kept as the list of its items *)
Fixpoint dict_get {V : Type} (d : list (string * V)) (key : string)
    : option V :=
  match d with
  | [] => None
  | (k, v) :: d' => if String.eqb k key then Some v else dict_get d' key
  end.

(** [bool(s)] of a string: non-empty *)
Definition truthy (s : string) : bool :=
  match s with EmptyString => false | _ => true end.

End Py.

(** ** Data model *)

(** [DependencyInfo] of [dependency_analyzer.py].  The matcher takes a
    [List[Any]] and asks [hasattr(dep, 'category')]: [dep_category] is [None]
    for an object without that attribute.  The dataclass always carries one
    (its default is ["unknown"]), see [DependencyInfo_new]. *)
Record DependencyInfo := {
  dep_name : string;
  dep_version : option string;
  dep_type : string;
  dep_category : option string
}.

(** The dataclass constructor [DependencyInfo(name, version, type, category)]. *)
Definition DependencyInfo_new (name : string) (version : option string)
    (type category : string) : DependencyInfo :=
  {| dep_name := name; dep_version := version; dep_type := type;
     dep_category := Some category |}.

(** [structure["patterns"]], each field read with the default of its
    [patterns.get(key, default)]. *)
Record Patterns := {
  architecture : string;
  frameworks : list string;
  project_types : list string;
  key_patterns : list string
}.

Definition no_patterns : Patterns :=
  {| architecture := ""; frameworks := []; project_types := [];
     key_patterns := [] |}.

Record AnalysisResults := {
  dependencies : list DependencyInfo;
  patterns : Patterns
}.

(** [template["triggers"]] *)
Record Triggers := {
  strong : list string;
  medium : list string;
  weak : list string
}.

Record WorkflowTemplate := {
  tpl_category : string;
  tpl_estimated_time : string;
  tpl_prerequisites : list string;
  tpl_triggers : Triggers;
  tpl_description : string
}.

Record WorkflowSuggestion := {
  name : string;
  confidence : float;
  reasoning : string;
  category : string;
  estimated_time : string;
  prerequisites : list string;
  triggers : list string
}.

Record ConfidenceWeights := {
  strong_signal : float;
  medium_signal : float;
  weak_signal : float;
  suggestion : float
}.

(** The object state: the two attributes set by [__init__]. *)
Record WorkflowMatcher := {
  workflow_templates : list (string * WorkflowTemplate);
  confidence_weights : ConfidenceWeights
}.

(** ** The workflow catalog: [_load_workflow_templates] *)


Definition template (cat time : string) (prereq s m w : list string)
    (descr : string) : WorkflowTemplate :=
  {| tpl_category := cat; tpl_estimated_time := time;
     tpl_prerequisites := prereq;
     tpl_triggers := {| strong := s; medium := m; weak := w |};
     tpl_description := descr |}.

Definition _load_workflow_templates : list (string * WorkflowTemplate) :=
  [ ("component-library",
     template "frontend" "15-30 minutes"
       ["React/Vue/Angular"; "components folder"]
       ["react"; "vue"; "angular"; "components/"]
       ["jsx"; "tsx"; "vue"; "svelte"]
       ["src/"; "lib/"]
       "Create comprehensive component library with documentation and testing");
    ("storybook-setup",
     template "frontend" "10-20 minutes"
       ["Component library"; "React/Vue/Angular"]
       ["components/"; "storybook"]
       ["react"; "vue"; "angular"]
       ["ui components"; "design system"]
       "Set up Storybook for component development and documentation");
    ("frontend-testing",
     template "testing" "20-40 minutes"
       ["Frontend framework"; "Test files"]
       ["jest"; "vitest"; "cypress"; "playwright"]
       ["tests/"; "__tests__"; "spec/"]
       ["test"; "spec"]
       "Set up comprehensive frontend testing suite");
    ("api-documentation",
     template "backend" "20-45 minutes"
       ["API framework"; "Route definitions"]
       ["express"; "fastapi"; "django"; "api/"; "routes/"]
       ["rest"; "graphql"; "api"]
       ["server"; "backend"]
       "Generate comprehensive API documentation with OpenAPI/Swagger");
    ("database-schema",
     template "database" "30-60 minutes"
       ["Database ORM"; "Model definitions"]
       ["prisma"; "typeorm"; "sqlalchemy"; "models/"; "schemas/"]
       ["database"; "orm"; "models"]
       ["data"; "storage"]
       "Analyze and document database schema with relationships");
    ("database-migration",
     template "database" "15-30 minutes"
       ["Database setup"; "Migration files"]
       ["migrations/"; "seeds/"; "prisma"]
       ["database"; "sql"; "schema"]
       ["data"; "storage"]
       "Set up database migration and seeding workflow");
    ("full-stack-documentation",
     template "documentation" "45-90 minutes"
       ["Frontend + Backend"; "API endpoints"]
       ["react"; "express"; "api/"; "components/"]
       ["frontend"; "backend"; "full-stack"]
       ["web"; "application"]
       "Create comprehensive documentation for full-stack application");
    ("test-coverage",
     template "testing" "25-45 minutes"
       ["Test framework"; "Source code"]
       ["jest"; "vitest"; "pytest"; "coverage"]
       ["tests/"; "__tests__"; "testing"]
       ["test"; "spec"]
       "Set up test coverage reporting and improve test coverage");
    ("api-testing",
     template "testing" "20-35 minutes"
       ["API endpoints"; "Testing framework"]
       ["express"; "fastapi"; "cypress"; "playwright"]
       ["api/"; "routes/"; "testing"]
       ["api"; "test"]
       "Set up comprehensive API testing suite");
    ("documentation-generation",
     template "documentation" "30-60 minutes"
       ["Source code"; "README files"]
       ["readme.md"; "docs/"; "documentation"]
       [".md files"; "comments"; "docstrings"]
       ["docs"; "documentation"]
       "Generate comprehensive documentation from source code and existing docs");
    ("knowledge-base",
     template "documentation" "45-75 minutes"
       ["Documentation files"; "Project structure"]
       ["docs/"; "documentation"; "readme.md"]
       [".md files"; "wiki"; "knowledge"]
       ["docs"; "information"]
       "Create searchable knowledge base from project documentation");
    ("deployment-pipeline",
     template "deployment" "30-60 minutes"
       ["Project structure"; "CI/CD setup"]
       [".github/"; "dockerfile"; "ci-cd"]
       ["deploy"; "pipeline"; "automation"]
       ["production"; "release"]
       "Set up automated deployment pipeline with CI/CD");
    ("docker-setup",
     template "deployment" "15-30 minutes"
       ["Application code"; "Configuration"]
       ["dockerfile"; "docker-compose"]
       ["container"; "deployment"]
       ["docker"; "containerization"]
       "Set up Docker containerization for application");
    ("code-quality",
     template "development" "20-40 minutes"
       ["Source code"; "Linting tools"]
       ["eslint"; "prettier"; "linting"]
       ["code quality"; "formatting"]
       ["code"; "quality"]
       "Set up code quality tools and formatting standards");
    ("performance-optimization",
     template "development" "30-60 minutes"
       ["Application code"; "Performance issues"]
       ["performance"; "optimization"; "speed"]
       ["slow"; "lag"; "optimization"]
       ["performance"; "improvement"]
       "Analyze and optimize application performance") ].

(** [WorkflowMatcher.__init__] *)
Definition __init__ : WorkflowMatcher :=
  {| workflow_templates := _load_workflow_templates;
     confidence_weights :=
       {| strong_signal := 0.9; medium_signal := 0.7; weak_signal := 0.5;
          suggestion := 0.3 |} |}.

(** ** The signal flattener: [_extract_detected_items] *)

(** What the loop body appends for one dependency. *)
Definition dep_items (dep : DependencyInfo) : list string :=
  Py.lower (dep_name dep) ::
  match dep_category dep with
  | Some c => [Py.lower c]
  | None => []
  end.

Definition architecture_items (p : Patterns) : list string :=
  if Py.truthy (architecture p) && negb (String.eqb (architecture p) "unknown")
  then [architecture p] else [].

Definition _extract_detected_items (deps : list DependencyInfo)
    (p : Patterns) : list string :=
  let detected_items :=
    (flat_map dep_items deps ++ frameworks p ++ project_types p
       ++ key_patterns p ++ architecture_items p)%list in
  map Py.lower detected_items.

(** ** The confidence scorer *)

(** The list comprehension [[item for item in tier if item.lower() in
    detected_items]]. *)
Definition matched_items (tier detected_items : list string) : list string :=
  filter (λ item, Py.contains detected_items (Py.lower item) = true) tier.

Definition clause (label : string) (n : nat) (tier detected_items : list string)
    : list string :=
  if (0 <? n)%nat
  then [label +:+ Py.join ", " (matched_items tier detected_items)]
  else [].

Definition _generate_reasoning (strong_matches medium_matches weak_matches : nat)
    (trg : Triggers) (detected_items : list string) : string :=
  let reasoning_parts :=
    (clause "Strong indicators: " strong_matches (strong trg) detected_items
     ++ clause "Supporting indicators: " medium_matches (medium trg)
          detected_items
     ++ clause "Additional indicators: " weak_matches (weak trg)
          detected_items)%list in
  match reasoning_parts with
  | [] => "General recommendation based on project structure"
  | _ => Py.join " | " reasoning_parts
  end.

(** The weighted sum before the cap. *)
Definition raw_confidence (w : ConfidenceWeights)
    (strong_matches medium_matches weak_matches : nat) : float :=
  (Py.float_of_len strong_matches * strong_signal w
   + Py.float_of_len medium_matches * medium_signal w
   + Py.float_of_len weak_matches * weak_signal w)%float.

Definition _calculate_workflow_confidence (self : WorkflowMatcher)
    (workflow_name : string) (tpl : WorkflowTemplate)
    (detected_items : list string) : WorkflowSuggestion :=
  let trg := tpl_triggers tpl in
  let strong_matches := Py.len_set_inter (strong trg) detected_items in
  let medium_matches := Py.len_set_inter (medium trg) detected_items in
  let weak_matches := Py.len_set_inter (weak trg) detected_items in
  let conf :=
    Py.min (raw_confidence (confidence_weights self)
              strong_matches medium_matches weak_matches) 1.0 in
  let reason :=
    _generate_reasoning strong_matches medium_matches weak_matches trg
      detected_items in
  let matching_triggers :=
    flat_map (λ tier, matched_items tier detected_items)
      [strong trg; medium trg; weak trg] in
  {| name := workflow_name;
     confidence := conf;
     reasoning := reason;
     category := tpl_category tpl;
     estimated_time := tpl_estimated_time tpl;
     prerequisites := tpl_prerequisites tpl;
     triggers := matching_triggers |}.

(** ** Ranking: [match_workflows] *)

(** [suggestions.sort(key=lambda x: x.confidence, reverse=True)].  Python's
    sort is stable, also under [reverse=True], and compares keys with [<]
    only; on keys that [<] orders totally it returns the list computed by
    this insertion sort, where an element goes in front of the first later
    element that is not strictly greater. *)
Fixpoint insert_desc (x : WorkflowSuggestion) (l : list WorkflowSuggestion)
    : list WorkflowSuggestion :=
  match l with
  | [] => [x]
  | y :: l' =>
      if (confidence x <? confidence y)%float
      then y :: insert_desc x l'
      else x :: y :: l'
  end.

Definition sort_by_confidence_desc (l : list WorkflowSuggestion)
    : list WorkflowSuggestion :=
  foldr insert_desc [] l.

(** One turn of the loop over [self.workflow_templates.items()]. *)
Definition match_step (self : WorkflowMatcher) (detected_items : list string)
    (suggestions : list WorkflowSuggestion)
    (entry : string * WorkflowTemplate) : list WorkflowSuggestion :=
  let s := _calculate_workflow_confidence self entry.1 entry.2 detected_items in
  if Py.ge (confidence s) 0.3 then (suggestions ++ [s])%list else suggestions.

(** The suggestions the loop has collected, before the sort. *)
Definition emitted (self : WorkflowMatcher) (detected_items : list string)
    : list WorkflowSuggestion :=
  foldl (match_step self detected_items) [] (workflow_templates self).

Definition match_workflows (self : WorkflowMatcher)
    (analysis_results : AnalysisResults) : list WorkflowSuggestion :=
  let detected_items :=
    _extract_detected_items (dependencies analysis_results)
      (patterns analysis_results) in
  sort_by_confidence_desc (emitted self detected_items).

(** [self.workflow_templates.get(workflow_name)] *)
Definition get_workflow_details (self : WorkflowMatcher)
    (workflow_name : string) : option WorkflowTemplate :=
  Py.dict_get (workflow_templates self) workflow_name.

(** The flattened signals of the module's own example run. *)
Definition example_signals : list string :=
  ["react"; "express"; "jest"; "component-based"; "api-driven"; "test-driven";
   "full-stack"].

(** The analysis of the module's own example run. *)
Definition example_analysis : AnalysisResults :=
  {| dependencies :=
       [DependencyInfo_new "react" None "unknown" "frontend";
        DependencyInfo_new "express" None "unknown" "backend";
        DependencyInfo_new "jest" None "unknown" "testing"];
     patterns :=
       {| architecture := "full-stack";
          frameworks := ["component-based"; "api-driven"; "test-driven"];
          project_types := ["ci-cd-enabled"];
          key_patterns := [] |} |}.

(** ** Vocabulary of the statements *)

(** The weights set by [__init__]. *)
Definition default_weights : ConfidenceWeights := confidence_weights __init__.

(** The capped sum, ranked: [4] from two matches on, else the one matching
    tier (strong [3], medium [2], weak [1]) or [0] for none. *)
Definition score_rank (s m w : nat) : nat :=
  if (2 <=? s + m + w)%nat then 4 else 3 * s + 2 * m + w.

(** The five values of a confidence, by rank. *)
Definition value_of_rank (r : nat) : float :=
  match r with
  | 0 => 0
  | 1 => 0.5
  | 2 => 0.7
  | 3 => 0.9
  | _ => 1
  end%float.

(** [is_lower s]: [s.lower() == s]. *)
Definition is_lower (s : string) : bool := String.eqb (Py.lower s) s.

(** The tokens [_extract_detected_items] produces: a dependency gives its
    name and, when it has a [category] attribute, that category, whatever the
    label; the patterns give every label of the three lists, and the
    architecture when it is neither empty nor ["unknown"]. *)
Definition flattened_token (deps : list DependencyInfo) (p : Patterns)
    (token : string) : Prop :=
  (exists dep, dep ∈ deps /\
     (token = Py.lower (dep_name dep) \/
      exists c, dep_category dep = Some c /\ token = Py.lower c))
  \/ (exists l, (l ∈ frameworks p \/ l ∈ project_types p \/ l ∈ key_patterns p)
        /\ token = Py.lower l)
  \/ (architecture p <> "" /\ architecture p <> "unknown"
      /\ token = Py.lower (architecture p)).

(** The tokens as the specification words them: the category only when it is
    known, the architecture when it is not ["unknown"]. *)
Definition described_token (deps : list DependencyInfo) (p : Patterns)
    (token : string) : Prop :=
  (exists dep, dep ∈ deps /\
     (token = Py.lower (dep_name dep) \/
      exists c, dep_category dep = Some c /\ c <> "unknown"
                /\ token = Py.lower c))
  \/ (exists l, (l ∈ frameworks p \/ l ∈ project_types p \/ l ∈ key_patterns p)
        /\ token = Py.lower l)
  \/ (architecture p <> "unknown" /\ token = Py.lower (architecture p)).

(** The three match counts of a template against the detected items. *)
Definition strong_count (tpl : WorkflowTemplate) (items : list string) : nat :=
  Py.len_set_inter (strong (tpl_triggers tpl)) items.

Definition medium_count (tpl : WorkflowTemplate) (items : list string) : nat :=
  Py.len_set_inter (medium (tpl_triggers tpl)) items.

Definition weak_count (tpl : WorkflowTemplate) (items : list string) : nat :=
  Py.len_set_inter (weak (tpl_triggers tpl)) items.

(** Every trigger of the template is declared in lower case. *)
Definition lowercase_triggers (tpl : WorkflowTemplate) : bool :=
  forallb is_lower (strong (tpl_triggers tpl))
  && forallb is_lower (medium (tpl_triggers tpl))
  && forallb is_lower (weak (tpl_triggers tpl)).

(** The size of the intersection of a tier with the signals under
    case-insensitive equality: both sides are compared in lower case. *)
Definition ci_matches (tier signals : list string) : nat :=
  size ((list_to_set (map Py.lower tier) : gset string)
          ∩ list_to_set (map Py.lower signals)).

(** The reasoning of a suggestion no trigger of which matched. *)
Definition generic_reasoning : string :=
  "General recommendation based on project structure".

(** The clause of one tier: present when the tier has a matched trigger, and
    then the label followed by the matched triggers as declared. *)
Definition tier_clause (label : string) (matched : list string) : list string :=
  match matched with
  | [] => []
  | _ => [label +:+ Py.join ", " matched]
  end.

Definition reasoning_clauses (trg : Triggers) (items : list string)
    : list string :=
  (tier_clause "Strong indicators: " (matched_items (strong trg) items)
   ++ tier_clause "Supporting indicators: " (matched_items (medium trg) items)
   ++ tier_clause "Additional indicators: " (matched_items (weak trg) items))%list.

(** The suggestion of every template, in catalog order. *)
Definition scored (self : WorkflowMatcher) (items : list string)
    : list WorkflowSuggestion :=
  map (fun entry => _calculate_workflow_confidence self entry.1 entry.2 items)
    (workflow_templates self).

(** [s.confidence >= 0.3], the test of the loop. *)
Definition above_floor (s : WorkflowSuggestion) : Prop :=
  Py.ge (confidence s) 0.3 = true.

(** [a] may stand before [b] in a list sorted by descending confidence. *)
Definition conf_ge (a b : WorkflowSuggestion) : Prop :=
  (confidence b <=? confidence a)%float = true.

(** [s] has the confidence [c], as [==] on floats tells. *)
Definition has_confidence (c : float) (s : WorkflowSuggestion) : Prop :=
  (confidence s =? c)%float = true.

#[global] Instance above_floor_dec s : Decision (above_floor s).
Proof. unfold above_floor. apply _. Defined.

#[global] Instance has_confidence_dec c s : Decision (has_confidence c s).
Proof. unfold has_confidence. apply _. Defined.

(** The confidence is one of the five values. *)
Definition ranked (s : WorkflowSuggestion) : Prop :=
  exists r, r <= 4 /\ confidence s = value_of_rank r.

(** Some trigger of the template is among the detected items. *)
Definition some_trigger_matches (tpl : WorkflowTemplate) (items : list string)
    : Prop :=
  exists t,
    (t ∈ strong (tpl_triggers tpl) \/ t ∈ medium (tpl_triggers tpl)
     \/ t ∈ weak (tpl_triggers tpl))
    /\ t ∈ items.

(** ** Vocabulary for binary64

    Doubles are read through their specification ([SpecFloat]): a finite
    double is a sign, a mantissa [m] and an exponent [e], and stands for
    [m * 2^e]. *)

Module Binary64.
Local Open Scope Z_scope.

(** The number of binary digits of a mantissa. *)
Definition dig (p : positive) : Z := Zpos (digits2_pos p).

(** [x] is the infinity of sign [s], or a normal number of sign [s] that
    is at least [2^(t-1)] in magnitude. *)
Definition normal_ge (s : bool) (t : Z) (x : spec_float) : Prop :=
  x = S754_infinity s \/
  exists m e, x = S754_finite s m e /\ dig m = 53 /\ t <= 53 + e /\ e <= 971.

(** The last step of [binary_round_aux]: the rounded mantissa and its
    exponent become a zero, a finite number or, past [emax], an infinity. *)
Definition finish (s : bool) (r : shr_record * Z) : spec_float :=
  match shr_m r.1 with
  | Z0 => S754_zero s
  | Zpos m => if r.2 <=? emax - prec then S754_finite s m r.2 else S754_infinity s
  | Zneg _ => S754_nan
  end.

(** A non-negative summand: [+0], or a positive normal number, or [+inf]. *)
Definition zero_or_normal (x : spec_float) : Prop :=
  x = S754_zero false \/ exists b, -1021 <= b /\ normal_ge false b x.

(** [x] is [+inf] or a positive normal double that is at least [2^(t-1)]. *)
Definition big (t : Z) (x : float) : Prop := normal_ge false t (Prim2SF x).

(** [x] is [+0], a positive normal double or [+inf]. *)
Definition nonneg (x : float) : Prop := zero_or_normal (Prim2SF x).

(** [c] is a double in the binade [[0.5, 1)]. *)
Definition half_to_one (c : float) : Prop :=
  exists m, Prim2SF c = S754_finite false m (-53) /\ dig m = 53.

End Binary64.


(** ** Dictionaries built in a loop

    A [dict] is kept as the list of its items in insertion order; the keys
    of a dictionary are distinct. *)

Module Dict.

(** [key in d] *)
Definition contains {V : Type} (d : list (string * V)) (key : string) : bool :=
  existsb (fun item => String.eqb item.1 key) d.

(** [d[key] = f(d[key])] for a key of [d]: the value changes in place. *)
Fixpoint alter {V : Type} (f : V -> V) (key : string) (d : list (string * V))
    : list (string * V) :=
  match d with
  | [] => []
  | (k, v) :: d' =>
      if String.eqb k key then (k, f v) :: d' else (k, v) :: alter f key d'
  end.

(** [if key not in d: d[key] = init], then [d[key] = f(d[key])]: the idiom
    of every grouping and counting loop of the analyzers. *)
Definition upsert {V : Type} (init : V) (f : V -> V)
    (d : list (string * V)) (key : string) : list (string * V) :=
  alter f key (if contains d key then d else (d ++ [(key, init)])%list).

(** [d.get(key, default)] *)
Definition get_default {V : Type} (d : list (string * V)) (key : string)
    (default : V) : V :=
  match Py.dict_get d key with
  | Some v => v
  | None => default
  end.

End Dict.

(** ** The query helpers of the matcher *)

(** [get_workflow_categories]: the workflow names under their category, the
    categories in the order of their first template. *)
Definition get_workflow_categories (self : WorkflowMatcher)
    : list (string * list string) :=
  foldl (fun categories entry =>
           Dict.upsert [] (fun names => (names ++ [entry.1])%list)
             categories (tpl_category entry.2))
    [] (workflow_templates self).

(** [filter_suggestions(suggestions, category, min_confidence)]; [category]
    is [None] by default and [min_confidence] is [0.0]. *)
Definition filter_suggestions (suggestions : list WorkflowSuggestion)
    (category_filter : option string) (min_confidence : float)
    : list WorkflowSuggestion :=
  let filtered := suggestions in
  let filtered :=
    match category_filter with
    | Some c =>
        if Py.truthy c then filter (fun s => category s = c) filtered
        else filtered
    | None => filtered
    end in
  if (0 <? min_confidence)%float
  then filter (fun s => Py.ge (confidence s) min_confidence = true) filtered
  else filtered.

(** The analysis of a project in which nothing was detected. *)
Definition empty_analysis : AnalysisResults :=
  {| dependencies := []; patterns := no_patterns |}.

(** The values filed under [key] by a grouping loop over [items]. *)
Definition grouped_under (key : string) (items : list (string * string))
    : list string :=
  map snd (filter (fun item => item.1 = key) items).


(** ** The dependency analyzer: [dependency_analyzer.py] *)

(** A value of [framework_mappings]: every entry of the table has both
    keys. *)
Record FrameworkMapping := {
  map_category : string;
  map_type : string
}.

(** The state of a [DependencyAnalyzer]. *)
Record DependencyAnalyzer := {
  framework_mappings : list (string * FrameworkMapping)
}.

Definition mapping (cat type : string) : FrameworkMapping :=
  {| map_category := cat; map_type := type |}.

(** [DependencyAnalyzer.__init__] *)
Definition DependencyAnalyzer__init__ : DependencyAnalyzer :=
  {| framework_mappings :=
       [ ("react", mapping "frontend" "framework");
         ("vue", mapping "frontend" "framework");
         ("angular", mapping "frontend" "framework");
         ("svelte", mapping "frontend" "framework");
         ("next", mapping "frontend" "framework");
         ("nuxt", mapping "frontend" "framework");
         ("express", mapping "backend" "framework");
         ("fastapi", mapping "backend" "framework");
         ("django", mapping "backend" "framework");
         ("flask", mapping "backend" "framework");
         ("spring", mapping "backend" "framework");
         ("rails", mapping "backend" "framework");
         ("jest", mapping "testing" "framework");
         ("vitest", mapping "testing" "framework");
         ("pytest", mapping "testing" "framework");
         ("mocha", mapping "testing" "framework");
         ("cypress", mapping "testing" "framework");
         ("playwright", mapping "testing" "framework");
         ("vite", mapping "build" "tool");
         ("webpack", mapping "build" "tool");
         ("rollup", mapping "build" "tool");
         ("parcel", mapping "build" "tool");
         ("esbuild", mapping "build" "tool");
         ("prisma", mapping "database" "tool");
         ("typeorm", mapping "database" "tool");
         ("sqlalchemy", mapping "database" "tool");
         ("mongoose", mapping "database" "tool");
         ("sequelize", mapping "database" "tool");
         ("storybook", mapping "documentation" "tool");
         ("docusaurus", mapping "documentation" "tool");
         ("vuepress", mapping "documentation" "tool");
         ("gitbook", mapping "documentation" "tool") ] |}.

(** [mapping.get("category", "unknown")] for
    [mapping = self.framework_mappings.get(name.lower(), {})] *)
Definition mapped_category (self : DependencyAnalyzer) (name : string)
    : string :=
  match Py.dict_get (framework_mappings self) (Py.lower name) with
  | Some m => map_category m
  | None => "unknown"
  end.

(** [mapping.get("type", "library")] for the same [mapping] *)
Definition mapped_type (self : DependencyAnalyzer) (name : string) : string :=
  match Py.dict_get (framework_mappings self) (Py.lower name) with
  | Some m => map_type m
  | None => "library"
  end.

Definition _create_dependency_info (self : DependencyAnalyzer)
    (name version dep_type : string) : DependencyInfo :=
  DependencyInfo_new name (Some version) dep_type (mapped_category self name).

(** [list.sort()] on strings.  Python compares strings by code point, which
    is the order of their bytes, and its sort returns the one ascending
    arrangement of the list; so does this insertion sort. *)
Fixpoint insert_string (x : string) (l : list string) : list string :=
  match l with
  | [] => [x]
  | y :: l' =>
      if String.ltb x y then x :: y :: l' else y :: insert_string x l'
  end.

Definition sort_strings (l : list string) : list string :=
  foldr insert_string [] l.

(** A value of [summary["categories"]]. *)
Record CategorySummary := {
  cs_dependencies : list string;
  cs_frameworks : list string;
  cs_tools : list string
}.

(** The dictionary returned by [get_framework_summary]. *)
Record FrameworkSummary := {
  fs_frameworks : list string;
  fs_categories : list (string * CategorySummary);
  fs_total_dependencies : nat;
  fs_key_technologies : list string
}.

Definition empty_category : CategorySummary :=
  {| cs_dependencies := []; cs_frameworks := []; cs_tools := [] |}.

(** The appends of the first loop to the entry of the dependency's
    category. *)
Definition file_dependency (name dep_type : string) (cs : CategorySummary)
    : CategorySummary :=
  {| cs_dependencies := (cs_dependencies cs ++ [name])%list;
     cs_frameworks :=
       if String.eqb dep_type "framework"
       then (cs_frameworks cs ++ [name])%list else cs_frameworks cs;
     cs_tools :=
       if String.eqb dep_type "framework" then cs_tools cs
       else if String.eqb dep_type "tool"
            then (cs_tools cs ++ [name])%list else cs_tools cs |}.

(** One turn of the first loop, on the pair of [summary["frameworks"]] and
    [summary["categories"]]. *)
Definition summary_step (self : DependencyAnalyzer)
    (acc : list string * list (string * CategorySummary))
    (dep : DependencyInfo) : list string * list (string * CategorySummary) :=
  let category := mapped_category self (dep_name dep) in
  let dep_type := mapped_type self (dep_name dep) in
  let categories :=
    Dict.upsert empty_category (file_dependency (dep_name dep) dep_type)
      acc.2 category in
  let frameworks :=
    if String.eqb dep_type "framework"
       && negb (Py.contains acc.1 (dep_name dep))
    then (acc.1 ++ [dep_name dep])%list else acc.1 in
  (frameworks, categories).

(** The second loop sorts the two lists of every category in place. *)
Definition sort_category (cs : CategorySummary) : CategorySummary :=
  {| cs_dependencies := cs_dependencies cs;
     cs_frameworks := sort_strings (cs_frameworks cs);
     cs_tools := sort_strings (cs_tools cs) |}.

Definition get_framework_summary (self : DependencyAnalyzer)
    (dependencies : list DependencyInfo) : FrameworkSummary :=
  let acc := foldl (summary_step self) ([], []) dependencies in
  let categories := map (fun item => (item.1, sort_category item.2)) acc.2 in
  {| fs_frameworks := acc.1;
     fs_categories := categories;
     fs_total_dependencies := length dependencies;
     fs_key_technologies :=
       flat_map (fun item => (cs_frameworks item.2 ++ cs_tools item.2)%list)
         categories |}.

(** The names of the dependencies that the table files under [category],
    in their order. *)
Definition names_in_category (self : DependencyAnalyzer) (category : string)
    (deps : list DependencyInfo) : list string :=
  map dep_name
    (filter (fun dep => mapped_category self (dep_name dep) = category) deps).

(** The dependency is a framework or a tool for the table. *)
Definition is_technology (self : DependencyAnalyzer) (dep : DependencyInfo)
    : Prop :=
  mapped_type self (dep_name dep) = "framework"
  \/ mapped_type self (dep_name dep) = "tool".

#[global] Instance is_technology_dec self dep : Decision (is_technology self dep).
Proof. unfold is_technology. apply _. Defined.

(** [a <= b] on strings *)
Definition string_le (a b : string) : Prop := String.leb a b = true.

(** The entry of a category after the dependencies [deps] of that category
    were filed, starting from [cs]. *)
Definition filed (self : DependencyAnalyzer) (deps : list DependencyInfo)
    (cs : CategorySummary) : CategorySummary :=
  foldl (fun cs dep =>
           file_dependency (dep_name dep) (mapped_type self (dep_name dep)) cs)
    cs deps.

(** What a dependency adds to the technologies of its category. *)
Definition technology_name (self : DependencyAnalyzer) (dep : DependencyInfo)
    : list string :=
  if decide (is_technology self dep) then [dep_name dep] else [].

(** The dependencies of [deps] that the table files under [category] with
    the type [dep_type]. *)
Definition names_of_type (self : DependencyAnalyzer) (category dep_type : string)
    (deps : list DependencyInfo) : list string :=
  map dep_name
    (filter (fun dep => mapped_type self (dep_name dep) = dep_type)
       (filter (fun dep => mapped_category self (dep_name dep) = category)
          deps)).

(** ** The structure analyzer: [structure_analyzer.py] *)

Record FileInfo := {
  file_name : string;
  file_path : string;
  file_size : nat;
  file_extension : string;
  file_category : string
}.

Record FolderInfo := {
  folder_name : string;
  folder_path : string;
  folder_file_count : nat;
  folder_subfolder_count : nat;
  folder_category : string
}.

(** A value of the three tables: every entry has both keys. *)
Record KeyEntry := {
  key_category : string;
  key_type : string
}.

Definition key_entry (cat type : string) : KeyEntry :=
  {| key_category := cat; key_type := type |}.

(** The state of a [StructureAnalyzer]. *)
Record StructureAnalyzer := {
  key_folders : list (string * KeyEntry);
  key_files : list (string * KeyEntry);
  file_extensions : list (string * KeyEntry)
}.

(** [StructureAnalyzer.__init__] *)
Definition StructureAnalyzer__init__ : StructureAnalyzer :=
  {| key_folders :=
       [ ("components", key_entry "frontend" "ui");
         ("src", key_entry "source" "main");
         ("pages", key_entry "frontend" "routing");
         ("views", key_entry "frontend" "routing");
         ("hooks", key_entry "frontend" "logic");
         ("store", key_entry "state" "management");
         ("redux", key_entry "state" "management");
         ("assets", key_entry "frontend" "static");
         ("public", key_entry "frontend" "static");
         ("styles", key_entry "frontend" "styling");
         ("api", key_entry "backend" "routes");
         ("routes", key_entry "backend" "routes");
         ("controllers", key_entry "backend" "logic");
         ("services", key_entry "backend" "logic");
         ("models", key_entry "backend" "data");
         ("schemas", key_entry "backend" "validation");
         ("middleware", key_entry "backend" "processing");
         ("utils", key_entry "backend" "helpers");
         ("lib", key_entry "backend" "library");
         ("tests", key_entry "testing" "unit");
         ("__tests__", key_entry "testing" "unit");
         ("test", key_entry "testing" "unit");
         ("spec", key_entry "testing" "unit");
         ("cypress", key_entry "testing" "e2e");
         ("playwright", key_entry "testing" "e2e");
         ("docs", key_entry "documentation" "content");
         ("documentation", key_entry "documentation" "content");
         ("md", key_entry "documentation" "content");
         ("migrations", key_entry "database" "schema");
         ("seeds", key_entry "database" "data");
         ("sql", key_entry "database" "queries");
         ("config", key_entry "configuration" "settings");
         ("configs", key_entry "configuration" "settings");
         ("settings", key_entry "configuration" "settings");
         ("docker", key_entry "deployment" "container");
         ("deploy", key_entry "deployment" "deployment");
         (".github", key_entry "deployment" "ci-cd");
         ("scripts", key_entry "deployment" "automation") ];
     key_files :=
       [ ("package.json", key_entry "configuration" "dependencies");
         ("requirements.txt", key_entry "configuration" "dependencies");
         ("Cargo.toml", key_entry "configuration" "dependencies");
         ("go.mod", key_entry "configuration" "dependencies");
         ("tsconfig.json", key_entry "configuration" "typescript");
         ("jsconfig.json", key_entry "configuration" "javascript");
         ("vite.config.ts", key_entry "configuration" "build");
         ("vite.config.js", key_entry "configuration" "build");
         ("webpack.config.js", key_entry "configuration" "build");
         ("rollup.config.js", key_entry "configuration" "build");
         ("eslint.config.js", key_entry "configuration" "linting");
         (".eslintrc.json", key_entry "configuration" "linting");
         ("prettier.config.js", key_entry "configuration" "formatting");
         (".prettierrc", key_entry "configuration" "formatting");
         ("README.md", key_entry "documentation" "readme");
         ("CHANGELOG.md", key_entry "documentation" "changelog");
         ("CONTRIBUTING.md", key_entry "documentation" "contributing");
         ("LICENSE", key_entry "documentation" "license");
         ("LICENSE.md", key_entry "documentation" "license");
         ("schema.sql", key_entry "database" "schema");
         ("database.sql", key_entry "database" "schema");
         ("prisma.schema", key_entry "database" "orm");
         ("Dockerfile", key_entry "deployment" "container");
         ("docker-compose.yml", key_entry "deployment" "container");
         ("docker-compose.yaml", key_entry "deployment" "container");
         ("jest.config.js", key_entry "testing" "config");
         ("vitest.config.ts", key_entry "testing" "config");
         ("pytest.ini", key_entry "testing" "config");
         ("cypress.config.ts", key_entry "testing" "config");
         ("playwright.config.ts", key_entry "testing" "config") ];
     file_extensions :=
       [ (".jsx", key_entry "frontend" "component");
         (".tsx", key_entry "frontend" "component");
         (".svelte", key_entry "frontend" "component");
         (".py", key_entry "backend" "source");
         (".js", key_entry "backend" "source");
         (".ts", key_entry "backend" "source");
         (".go", key_entry "backend" "source");
         (".rs", key_entry "backend" "source");
         (".java", key_entry "backend" "source");
         (".php", key_entry "backend" "source");
         (".rb", key_entry "backend" "source");
         (".cs", key_entry "backend" "source");
         (".sql", key_entry "database" "query");
         (".prisma", key_entry "database" "orm");
         (".md", key_entry "documentation" "content");
         (".rst", key_entry "documentation" "content");
         (".txt", key_entry "documentation" "content");
         (".json", key_entry "configuration" "config");
         (".yaml", key_entry "configuration" "config");
         (".yml", key_entry "configuration" "config");
         (".toml", key_entry "configuration" "config");
         (".ini", key_entry "configuration" "config");
         (".env", key_entry "configuration" "environment");
         (".css", key_entry "frontend" "style");
         (".scss", key_entry "frontend" "style");
         (".sass", key_entry "frontend" "style");
         (".less", key_entry "frontend" "style");
         (".styl", key_entry "frontend" "style") ] |}.

(** The category [_analyze_folders] gives a directory:
    [self.key_folders.get(dir_name.lower(), {}).get("category", "unknown")]. *)
Definition categorize_folder (self : StructureAnalyzer) (dir_name : string)
    : string :=
  match Py.dict_get (key_folders self) (Py.lower dir_name) with
  | Some entry => key_category entry
  | None => "unknown"
  end.

(** The category [_analyze_files] gives a file of the name [file_name] and
    the lower-cased suffix [extension]: the key files first, then the
    extensions. *)
Definition categorize_file (self : StructureAnalyzer)
    (file_name extension : string) : string :=
  match Py.dict_get (key_files self) file_name with
  | Some entry => key_category entry
  | None =>
      match Py.dict_get (file_extensions self) extension with
      | Some entry => key_category entry
      | None => "unknown"
      end
  end.

(** The grouping loop of [_detect_patterns]: names under their category. *)
Definition group_by_category (items : list (string * string))
    : list (string * list string) :=
  foldl (fun d item =>
           Dict.upsert [] (fun names => (names ++ [item.2])%list) d item.1)
    [] items.

(** [if condition: labels.append(label)] *)
Definition label_if (condition : bool) (label : string) : list string :=
  if condition then [label] else [].

Definition _detect_patterns (folders : list FolderInfo) (files : list FileInfo)
    : Patterns :=
  let folder_categories :=
    group_by_category
      (map (fun folder => (folder_category folder, folder_name folder))
         folders) in
  let file_categories :=
    group_by_category
      (map (fun file => (file_category file, file_name file)) files) in
  let has := Dict.contains folder_categories in
  let configuration := Dict.get_default file_categories "configuration" [] in
  {| architecture :=
       if has "frontend" && has "backend" then "full-stack"
       else if has "frontend" then "frontend"
       else if has "backend" then "backend"
       else "unknown";
     frameworks :=
       (label_if
          (Py.contains (Dict.get_default folder_categories "frontend" [])
             "components") "component-based"
        ++ label_if
             (Py.contains (Dict.get_default folder_categories "backend" [])
                "api") "api-driven"
        ++ label_if (has "tests" || has "__tests__") "test-driven")%list;
     project_types :=
       (label_if (has "docs") "documentation-heavy"
        ++ label_if (has "migrations") "database-driven"
        ++ label_if (has ".github") "ci-cd-enabled")%list;
     key_patterns :=
       (label_if (Py.contains configuration "package.json") "nodejs-project"
        ++ label_if (Py.contains configuration "requirements.txt")
             "python-project"
        ++ label_if (Py.contains configuration "Cargo.toml") "rust-project"
        ++ label_if (Py.contains configuration "go.mod") "go-project")%list |}.

(** [_generate_recommendations]: the list collected by the function.  The
    function returns [list(set(recommendations))], the same names without
    repetition in an order that Python does not fix. *)
Definition collected_recommendations (p : Patterns) : list string :=
  ((if String.eqb (architecture p) "full-stack"
    then ["full-stack-documentation"; "api-documentation"; "component-library"]
    else if String.eqb (architecture p) "frontend"
    then ["component-library"; "frontend-testing"]
    else if String.eqb (architecture p) "backend"
    then ["api-documentation"; "database-schema"]
    else [])
   ++ (if Py.contains (frameworks p) "component-based"
       then ["storybook-setup"; "component-testing"] else [])
   ++ (if Py.contains (frameworks p) "api-driven"
       then ["openapi-spec"; "api-testing"] else [])
   ++ (if Py.contains (frameworks p) "test-driven"
       then ["test-coverage"; "ci-testing"] else [])
   ++ (if Py.contains (project_types p) "documentation-heavy"
       then ["documentation-generation"; "knowledge-base"] else [])
   ++ (if Py.contains (project_types p) "database-driven"
       then ["database-migration"; "data-validation"] else [])
   ++ (if Py.contains (project_types p) "ci-cd-enabled"
       then ["deployment-pipeline"; "automation-workflow"] else []))%list.

(** The set of which [_generate_recommendations] returns a listing. *)
Definition _generate_recommendations (p : Patterns) : gset string :=
  list_to_set (collected_recommendations p).

(** The counting loop of [_create_summary]. *)
Definition count_by_category (categories : list string)
    : list (string * nat) :=
  foldl (fun d category => Dict.upsert 0 S d category) [] categories.

Record StructureSummary := {
  total_folders : nat;
  total_files : nat;
  folder_categories : list (string * nat);
  file_categories : list (string * nat);
  detected_architecture : string;
  detected_frameworks : list string;
  detected_project_types : list string
}.

Definition _create_summary (folders : list FolderInfo) (files : list FileInfo)
    (p : Patterns) : StructureSummary :=
  {| total_folders := length folders;
     total_files := length files;
     folder_categories := count_by_category (map folder_category folders);
     file_categories := count_by_category (map file_category files);
     detected_architecture := architecture p;
     detected_frameworks := frameworks p;
     detected_project_types := project_types p |}.

(** The folders carry the category that [_analyze_folders] computes. *)
Definition folders_categorized (self : StructureAnalyzer)
    (folders : list FolderInfo) : Prop :=
  Forall (fun folder =>
            folder_category folder = categorize_folder self (folder_name folder))
    folders.

(** The files carry the category that [_analyze_files] computes. *)
Definition files_categorized (self : StructureAnalyzer)
    (files : list FileInfo) : Prop :=
  Forall (fun file =>
            file_category file
            = categorize_file self (file_name file) (file_extension file))
    files.

(** The labels that [_detect_patterns] can put into [frameworks],
    [project_types] and [key_patterns]. *)
Definition pattern_labels : list string :=
  ["component-based"; "api-driven"; "test-driven";
   "documentation-heavy"; "database-driven"; "ci-cd-enabled";
   "nodejs-project"; "python-project"; "rust-project"; "go-project"].

(** The triggers of a template, the three tiers together. *)
Definition all_triggers (tpl : WorkflowTemplate) : list string :=
  (strong (tpl_triggers tpl) ++ medium (tpl_triggers tpl)
   ++ weak (tpl_triggers tpl))%list.

(** The patterns with the architecture alone. *)
Definition architecture_only (p : Patterns) : Patterns :=
  {| architecture := architecture p; frameworks := []; project_types := [];
     key_patterns := [] |}.

(** * Verification *)

(** ** Binary64 arithmetic on the scorer's operands

    The confidence is computed in doubles.  What the proofs below need of
    IEEE arithmetic is that a product or a sum of large enough positive
    operands is again large enough: rounding never takes a value that is at
    least [1.0] below [1.0].  This is proved from the specification of the
    kernel's floats ([SpecFloat]), to which [FloatAxioms] ties the primitive
    operations. *)

Section Binary64Facts.
Import Binary64.
Local Open Scope Z_scope.

(** On the range of a [len] the conversion is the machine's. *)
Lemma float_of_int_uint63 z :
  (0 <= z < 2 ^ 63)%Z ->
  Py.float_of_int z = PrimFloat.of_uint63 (Uint63.of_Z z).
Proof.
  intros H. unfold Py.float_of_int.
  rewrite <- (SF2Prim_Prim2SF (PrimFloat.of_uint63 _)), of_uint63_spec.
  do 2 f_equal. rewrite Uint63.of_Z_spec. symmetry. by apply Z.mod_small.
Qed.

Lemma dig_bounds p : 2 ^ (dig p - 1) <= Zpos p < 2 ^ dig p.
Proof.
  unfold dig. induction p as [p IH|p IH|]; cbn [digits2_pos].
  - rewrite Pos2Z.inj_succ. change (Z.pos p~1) with (2 * Z.pos p + 1).
    replace (Z.succ (Z.pos (digits2_pos p)) - 1) with (Z.succ (Z.pos (digits2_pos p) - 1)) by lia.
    rewrite !Z.pow_succ_r by lia.
    generalize dependent (2 ^ (Z.pos (digits2_pos p) - 1)).
    generalize dependent (2 ^ Z.pos (digits2_pos p)). intros; lia.
  - rewrite Pos2Z.inj_succ. change (Z.pos p~0) with (2 * Z.pos p).
    replace (Z.succ (Z.pos (digits2_pos p)) - 1) with (Z.succ (Z.pos (digits2_pos p) - 1)) by lia.
    rewrite !Z.pow_succ_r by lia.
    generalize dependent (2 ^ (Z.pos (digits2_pos p) - 1)).
    generalize dependent (2 ^ Z.pos (digits2_pos p)). intros; lia.
  - cbn. lia.
Qed.

Lemma dig_pos p : 1 <= dig p.
Proof. unfold dig. lia. Qed.

Lemma dig_lower p k : 2 ^ k <= Zpos p -> k + 1 <= dig p.
Proof.
  intros H. destruct (Z.le_gt_cases (k + 1) (dig p)) as [|Hlt]; [done|].
  pose proof (dig_bounds p) as [_ Hu]. pose proof (dig_pos p).
  assert (2 ^ dig p <= 2 ^ k) by (apply Z.pow_le_mono_r; lia). lia.
Qed.

Lemma dig_upper p k : 0 <= k -> Zpos p < 2 ^ k -> dig p <= k.
Proof.
  intros Hk H. destruct (Z.le_gt_cases (dig p) k) as [|Hlt]; [done|].
  pose proof (dig_bounds p) as [Hl _].
  assert (2 ^ k <= 2 ^ (dig p - 1)) by (apply Z.pow_le_mono_r; lia). lia.
Qed.

Lemma dig_mul p q : dig p + dig q - 1 <= dig (p * q).
Proof.
  pose proof (dig_bounds p) as [Hp _]. pose proof (dig_bounds q) as [Hq _].
  pose proof (dig_pos p). pose proof (dig_pos q).
  replace (dig p + dig q - 1) with ((dig p - 1) + (dig q - 1) + 1) by lia.
  apply dig_lower. rewrite Z.pow_add_r by lia. rewrite Pos2Z.inj_mul.
  apply Z.mul_le_mono_nonneg; lia.
Qed.

(** *** Right shifts of the mantissa *)

Lemma shr_1_m mrs : 0 <= shr_m mrs -> shr_m (shr_1 mrs) = shr_m mrs / 2.
Proof.
  destruct mrs as [m r s]; cbn [shr_m]. intros Hm.
  rewrite <- Z.div2_div.
  destruct m as [|[p|p|]|p]; try reflexivity; lia.
Qed.

Lemma iter_shr_m p : forall mrs, 0 <= shr_m mrs ->
  shr_m (SpecFloat.iter_pos shr_1 p mrs) = shr_m mrs / 2 ^ Zpos p.
Proof.
  induction p as [p IH|p IH|]; intros mrs Hm; cbn [SpecFloat.iter_pos].
  - assert (H1 : 0 <= shr_m (shr_1 mrs))
      by (rewrite shr_1_m by done; apply Z.div_pos; lia).
    assert (H2 : 0 <= shr_m (SpecFloat.iter_pos shr_1 p (shr_1 mrs)))
      by (rewrite IH by done; apply Z.div_pos; lia).
    rewrite IH, IH, shr_1_m by done.
    rewrite !Zdiv_Zdiv by lia. f_equal.
    change (Z.pos p~1) with (2 * Z.pos p + 1).
    rewrite Z.pow_add_r, Z.pow_mul_r by lia.
    change (2 ^ 2) with 4. change (2 ^ 1) with 2.
    replace 4 with (2 * 2) by done. rewrite Z.pow_mul_l. lia.
  - assert (H2 : 0 <= shr_m (SpecFloat.iter_pos shr_1 p mrs))
      by (rewrite IH by done; apply Z.div_pos; lia).
    rewrite IH, IH by done.
    rewrite !Zdiv_Zdiv by lia. f_equal.
    change (Z.pos p~0) with (2 * Z.pos p).
    rewrite Z.pow_mul_r by lia.
    change (2 ^ 2) with 4.
    replace 4 with (2 * 2) by done. rewrite Z.pow_mul_l. lia.
  - rewrite shr_1_m by done. reflexivity.
Qed.

Lemma round_nearest_even_bounds m l :
  m <= round_nearest_even m l <= m + 1.
Proof.
  destruct l as [|[]]; cbn [round_nearest_even]; try lia.
  destruct (Z.even m); lia.
Qed.

(** *** Rounding a large enough mantissa gives a normal number *)

Lemma binary_round_aux_unfold s mx ex lx :
  binary_round_aux prec emax s mx ex lx =
  let r1 := shr_fexp prec emax mx ex lx in
  finish s (shr_fexp prec emax
              (round_nearest_even (shr_m r1.1) (loc_of_shr_record r1.1))
              r1.2 loc_Exact).
Proof.
  unfold binary_round_aux, finish.
  destruct (shr_fexp prec emax mx ex lx) as [mrs1 e1]; cbn [fst snd].
  destruct (shr_fexp prec emax _ e1 loc_Exact) as [mrs2 e2]; reflexivity.
Qed.

Lemma shr_fexp_normal (m : positive) e l :
  -1074 <= dig m + e - 53 ->
  shr_fexp prec emax (Zpos m) e l =
  shr (shr_record_of_loc (Zpos m) l) e (dig m - 53).
Proof.
  intros H. unfold shr_fexp, fexp, emin. cbn [Zdigits2]. fold (dig m).
  change prec with 53. change emax with 1024. f_equal. lia.
Qed.

Lemma shr_record_of_loc_m m l : shr_m (shr_record_of_loc m l) = m.
Proof. destruct l as [|[]]; reflexivity. Qed.

Lemma pow2_52 : 2 ^ 52 = 4503599627370496.
Proof. reflexivity. Qed.

Lemma pow2_53 : 2 ^ 53 = 9007199254740992.
Proof. reflexivity. Qed.

Lemma second_rounding s (m2 : Z) e t :
  2 ^ 52 <= m2 <= 2 ^ 53 -> -1021 <= t -> t <= 53 + e ->
  normal_ge s t (finish s (shr_fexp prec emax m2 e loc_Exact)).
Proof.
  intros Hm Ht He.
  destruct m2 as [|p|p]; [rewrite pow2_52 in Hm; lia| |rewrite pow2_52 in Hm; lia].
  assert (Hd : 53 <= dig p <= 54).
  { split.
    - change 53 with (52 + 1). apply dig_lower. lia.
    - apply dig_upper; [lia|].
      assert (2 ^ 53 < 2 ^ 54) by (apply Z.pow_lt_mono_r; lia). lia. }
  rewrite shr_fexp_normal by lia. cbn [shr_record_of_loc].
  destruct (Z.eq_dec (dig p) 53) as [E|E].
  - rewrite E. cbn [Z.sub Z.add Z.opp Z.pos_sub shr Pos.pred_double].
    change (53 - 53) with 0. cbn [shr]. unfold finish. cbn [fst snd shr_m].
    change (emax - prec) with 971.
    destruct (Z.leb_spec e 971); [right|left; reflexivity].
    exists p, e. repeat split; lia.
  - assert (E' : dig p = 54) by lia. rewrite E'.
    change (54 - 53) with 1. cbn [shr SpecFloat.iter_pos].
    assert (Hp : Zpos p = 2 ^ 53).
    { apply Z.le_antisymm; [lia|].
      pose proof (dig_bounds p) as [Hl _]. rewrite E' in Hl.
      change (54 - 1) with 53 in Hl. done. }
    rewrite pow2_53 in Hp. injection Hp as ->.
    unfold finish. cbn [fst snd shr_1 shr_m].
    change (emax - prec) with 971.
    destruct (Z.leb_spec (e + 1) 971); [right|left; reflexivity].
    eexists _, (e + 1). repeat split; lia.
Qed.

Lemma binary_round_aux_normal s m e t :
  53 <= dig m -> -1021 <= t -> t <= dig m + e ->
  normal_ge s t (binary_round_aux prec emax s (Zpos m) e loc_Exact).
Proof.
  intros Hd Ht He. rewrite binary_round_aux_unfold. cbv zeta.
  rewrite shr_fexp_normal by lia. cbn [shr_record_of_loc].
  pose proof (dig_bounds m) as [Hl Hu].
  destruct (dig m - 53) as [|k|k] eqn:Hk; [| |lia]; cbn [shr fst snd].
  - cbn [shr_m loc_of_shr_record round_nearest_even].
    assert (dig m = 53) as Hd53 by lia. rewrite Hd53 in Hl, Hu.
    apply second_rounding; [|lia|lia].
    change (53 - 1) with 52 in Hl. lia.
  - set (r := SpecFloat.iter_pos shr_1 k _).
    assert (Hr : shr_m r = Zpos m / 2 ^ Zpos k)
      by (unfold r; rewrite iter_shr_m; [reflexivity|cbn; lia]).
    assert (H2k : 0 < 2 ^ Zpos k) by (apply Z.pow_pos_nonneg; lia).
    assert (Hb : 2 ^ 52 <= shr_m r < 2 ^ 53).
    { rewrite Hr. split.
      - apply Z.div_le_lower_bound; [done|].
        rewrite <- Z.pow_add_r by lia.
        replace (Z.pos k + 52) with (dig m - 1) by lia. done.
      - apply Z.div_lt_upper_bound; [done|].
        rewrite <- Z.pow_add_r by lia.
        replace (Z.pos k + 53) with (dig m) by lia. done. }
    pose proof (round_nearest_even_bounds (shr_m r) (loc_of_shr_record r)).
    apply second_rounding; lia.
Qed.

(** *** Left shifts, and rounding after alignment *)

Lemma iter_xO_Z m d : Zpos (Pos.iter xO m d) = Zpos m * 2 ^ Zpos d.
Proof.
  change (Pos.iter xO m d) with (shift_pos d m).
  rewrite shift_pos_correct, Z.pow_pos_fold. lia.
Qed.

Lemma dig_shift m d : dig (Pos.iter xO m d) = dig m + Zpos d.
Proof.
  pose proof (dig_bounds m) as [Hl Hu]. pose proof (dig_pos m).
  assert (H2 : 0 < 2 ^ Zpos d) by (apply Z.pow_pos_nonneg; lia).
  apply Z.le_antisymm.
  - apply dig_upper; [lia|]. rewrite iter_xO_Z, Z.pow_add_r by lia.
    apply Z.mul_lt_mono_pos_r; done.
  - replace (dig m + Z.pos d) with (dig m - 1 + Z.pos d + 1) by lia.
    apply dig_lower. rewrite iter_xO_Z, Z.pow_add_r by lia.
    apply Z.mul_le_mono_nonneg_r; lia.
Qed.

Lemma binary_round_normal s m e t :
  -1021 <= t -> t <= dig m + e ->
  normal_ge s t (binary_round prec emax s m e).
Proof.
  intros Ht He. unfold binary_round, fexp, emin, shl_align. fold (dig m).
  change prec with 53. change emax with 1024.
  replace (Z.max (dig m + e - 53) (3 - 1024 - 53) - e) with (dig m - 53) by lia.
  replace (Z.max (dig m + e - 53) (3 - 1024 - 53)) with (dig m + e - 53) by lia.
  destruct (dig m - 53) as [|k|k] eqn:Hk.
  - apply (binary_round_aux_normal s m e t); lia.
  - apply (binary_round_aux_normal s m e t); lia.
  - apply (binary_round_aux_normal s _ _ t); rewrite ?dig_shift; lia.
Qed.

Lemma shl_align_fst m e ez :
  ez <= e -> Zpos (shl_align m e ez).1 = Zpos m * 2 ^ (e - ez).
Proof.
  intros H. unfold shl_align.
  destruct (ez - e) as [|k|k] eqn:Hk; cbn [fst]; [| lia |].
  - replace (e - ez) with 0 by lia. cbn. lia.
  - rewrite iter_xO_Z. do 2 f_equal. lia.
Qed.

(** *** The operations on normal numbers *)

Lemma normal_ge_valid s t x :
  -1021 <= t -> normal_ge s t x -> valid_binary x = true.
Proof.
  intros Ht [->|(m & e & -> & Hd & He & Hu)]; [reflexivity|].
  cbn [SpecFloat.valid_binary]. unfold bounded, canonical_mantissa, fexp, emin.
  fold (dig m). rewrite Hd. change prec with 53. change emax with 1024.
  apply andb_true_intro. split; [apply Z.eqb_eq|apply Z.leb_le]; lia.
Qed.

Lemma normal_ge_weaken s t t' x : t' <= t -> normal_ge s t x -> normal_ge s t' x.
Proof.
  intros Ht [->|(m & e & -> & Hd & He & Hu)]; [by left|right].
  exists m, e. repeat split; lia.
Qed.

Lemma SFmul_normal x y a b :
  -1021 <= a + b - 1 -> normal_ge false a x -> normal_ge false b y ->
  normal_ge false (a + b - 1) (SF64mul x y).
Proof.
  intros Hab [->|(mx & ex & -> & Hdx & Hex & _)] [->|(my & ey & -> & Hdy & Hey & _)];
    try (left; reflexivity).
  unfold SF64mul, SFmul. cbn [xorb].
  pose proof (dig_mul mx my).
  apply binary_round_aux_normal; lia.
Qed.

Lemma SFadd_finite mx ex my ey a :
  -1021 <= a -> (a <= 53 + ex \/ a <= 53 + ey) -> dig mx = 53 -> dig my = 53 ->
  normal_ge false a
    (SF64add (S754_finite false mx ex) (S754_finite false my ey)).
Proof.
  intros Ha Hor Hdx Hdy. unfold SF64add, SFadd. cbv zeta. cbn [cond_Zopp].
  pose proof (shl_align_fst mx ex (Z.min ex ey) ltac:(lia)) as Hx.
  pose proof (shl_align_fst my ey (Z.min ex ey) ltac:(lia)) as Hy.
  set (fx := (shl_align mx ex (Z.min ex ey)).1) in *.
  set (fy := (shl_align my ey (Z.min ex ey)).1) in *.
  change (Z.pos fx + Z.pos fy) with (Z.pos (fx + fy)).
  cbn [binary_normalize]. apply binary_round_normal; [done|].
  pose proof (dig_bounds mx) as [Hlx _]. pose proof (dig_bounds my) as [Hly _].
  rewrite Hdx in Hlx. rewrite Hdy in Hly.
  assert (0 < 2 ^ (ex - Z.min ex ey)) by (apply Z.pow_pos_nonneg; lia).
  assert (0 < 2 ^ (ey - Z.min ex ey)) by (apply Z.pow_pos_nonneg; lia).
  destruct Hor as [Hor|Hor].
  - assert (52 + (ex - Z.min ex ey) + 1 <= dig (fx + fy)); [|lia].
    apply dig_lower. rewrite Pos2Z.inj_add, Hx, Z.pow_add_r by lia.
    assert (2 ^ 52 * 2 ^ (ex - Z.min ex ey) <= Z.pos mx * 2 ^ (ex - Z.min ex ey))
      by (apply Z.mul_le_mono_nonneg_r; lia).
    lia.
  - assert (52 + (ey - Z.min ex ey) + 1 <= dig (fx + fy)); [|lia].
    apply dig_lower. rewrite Pos2Z.inj_add, Hy, Z.pow_add_r by lia.
    assert (2 ^ 52 * 2 ^ (ey - Z.min ex ey) <= Z.pos my * 2 ^ (ey - Z.min ex ey))
      by (apply Z.mul_le_mono_nonneg_r; lia).
    lia.
Qed.

Lemma SFadd_normal_l x y a :
  -1021 <= a -> normal_ge false a x -> zero_or_normal y ->
  normal_ge false a (SF64add x y).
Proof.
  intros Ha Hx [->|(b & Hb & Hy)].
  - destruct Hx as [->|(mx & ex & -> & Hx)]; [by left|right].
    exists mx, ex. done.
  - destruct Hx as [->|(mx & ex & -> & Hdx & Hex & _)];
      destruct Hy as [->|(my & ey & -> & Hdy & Hey & _)];
      try (left; reflexivity).
    apply SFadd_finite; auto.
Qed.

Lemma SFadd_normal_r x y a :
  -1021 <= a -> zero_or_normal x -> normal_ge false a y ->
  normal_ge false a (SF64add x y).
Proof.
  intros Ha [->|(b & Hb & Hx)] Hy.
  - destruct Hy as [->|(my & ey & -> & Hy)]; [by left|right].
    exists my, ey. done.
  - destruct Hx as [->|(mx & ex & -> & Hdx & Hex & _)];
      destruct Hy as [->|(my & ey & -> & Hdy & Hey & _)];
      try (left; reflexivity).
    apply SFadd_finite; auto.
Qed.

Lemma SFadd_zero_or_normal x y :
  zero_or_normal x -> zero_or_normal y -> zero_or_normal (SF64add x y).
Proof.
  intros Hx [->|(b & Hb & Hy)].
  - destruct Hx as [->|(a & Ha & Hx)]; [by left|right].
    exists a. split; [done|]. apply SFadd_normal_l; [done..|by left].
  - right. exists b. split; [done|]. by apply SFadd_normal_r.
Qed.

(** *** The primitive operations *)

Lemma half_to_one_big c : half_to_one c -> big 0 c.
Proof.
  intros (m & E & Hd). right. exists m, (-53). repeat split; [done|done|lia|lia].
Qed.

Lemma mul_big x y a b :
  -1021 <= a + b - 1 -> big a x -> big b y -> big (a + b - 1) (x * y)%float.
Proof. intros. unfold big. rewrite mul_spec. by apply SFmul_normal. Qed.

Lemma add_big_l x y a :
  -1021 <= a -> big a x -> nonneg y -> big a (x + y)%float.
Proof. intros. unfold big. rewrite add_spec. by apply SFadd_normal_l. Qed.

Lemma add_big_r x y a :
  -1021 <= a -> nonneg x -> big a y -> big a (x + y)%float.
Proof. intros. unfold big. rewrite add_spec. by apply SFadd_normal_r. Qed.

Lemma add_nonneg x y : nonneg x -> nonneg y -> nonneg (x + y)%float.
Proof. intros. unfold nonneg. rewrite add_spec. by apply SFadd_zero_or_normal. Qed.

Lemma big_nonneg t x : -1021 <= t -> big t x -> nonneg x.
Proof. intros Ht H. right. by exists t. Qed.

Lemma float_of_int_pos p : big (dig p) (Py.float_of_int (Zpos p)).
Proof.
  pose proof (dig_pos p).
  assert (N : normal_ge false (dig p) (binary_round prec emax false p 0))
    by (apply binary_round_normal; lia).
  unfold big, Py.float_of_int. cbn [binary_normalize].
  rewrite Prim2SF_SF2Prim; [done|].
  apply (normal_ge_valid false (dig p)); [lia|done].
Qed.

Lemma float_of_len_big n : (1 <= n)%nat -> big 1 (Py.float_of_len n).
Proof.
  intros Hn. unfold Py.float_of_len.
  destruct (Z.of_nat n) as [|p|p] eqn:E; [lia| |lia].
  pose proof (dig_pos p).
  apply (normal_ge_weaken false (dig p)); [lia|]. apply float_of_int_pos.
Qed.

Lemma float_of_len_big2 n : (2 <= n)%nat -> big 2 (Py.float_of_len n).
Proof.
  intros Hn. unfold Py.float_of_len.
  destruct (Z.of_nat n) as [|p|p] eqn:E; [lia| |lia].
  assert (1 + 1 <= dig p) by (apply dig_lower; lia).
  apply (normal_ge_weaken false (dig p)); [lia|]. apply float_of_int_pos.
Qed.

(** One term [count * weight] of the weighted sum. *)
Lemma term_nonneg n c : half_to_one c -> nonneg (Py.float_of_len n * c)%float.
Proof.
  intros Hc. destruct n as [|n].
  - left. rewrite mul_spec. destruct Hc as (m & -> & _). reflexivity.
  - apply (big_nonneg 0); [lia|].
    apply (mul_big _ _ 1 0); [lia| |by apply half_to_one_big].
    apply float_of_len_big. lia.
Qed.

Lemma term_big n c :
  (2 <= n)%nat -> half_to_one c -> big 1 (Py.float_of_len n * c)%float.
Proof.
  intros Hn Hc.
  apply (mul_big _ _ 2 0); [lia| |by apply half_to_one_big].
  by apply float_of_len_big2.
Qed.

(** The cap: [min(x, 1.0)] of a double that is at least [1.0] is [1.0]. *)
Lemma min_big x : big 1 x -> Py.min x 1 = 1%float.
Proof.
  intros H. unfold Py.min. rewrite ltb_spec.
  change (Prim2SF 1) with (S754_finite false 4503599627370496 (-52)).
  destruct H as [E|(m & e & E & Hd & He & _)]; rewrite E; [reflexivity|].
  unfold SFltb, SFcompare.
  destruct (Z.compare_spec (-52) e) as [<-|Hlt|Hgt]; [|reflexivity|lia].
  change (Pos.compare_cont Eq 4503599627370496 m)
    with (4503599627370496 ?= m)%positive.
  destruct (Pos.compare_spec 4503599627370496 m) as [<-|Hlt|Hgt]; [|reflexivity|].
  - apply Prim2SF_inj. rewrite E. reflexivity.
  - pose proof (dig_bounds m) as [Hl _]. rewrite Hd in Hl.
    change (2 ^ (53 - 1)) with 4503599627370496 in Hl.
    apply Pos2Z.pos_lt_pos in Hgt. clear -Hl Hgt. lia.
Qed.

(** [==] against a positive finite double, or against zero *)
Lemma eqb_finite_inv x c m e :
  Prim2SF x = S754_finite false m e -> (x =? c)%float = true ->
  Prim2SF c = S754_finite false m e.
Proof.
  intros Ex. rewrite FloatAxioms.eqb_spec, Ex. unfold SFeqb, SFcompare.
  destruct (Prim2SF c) as [s|s| |s m' e']; try discriminate;
    [destruct s; discriminate|].
  destruct s; [discriminate|].
  destruct (Z.compare_spec e e') as [<-|_|_]; try discriminate.
  change (Pos.compare_cont Eq m m') with (m ?= m')%positive.
  destruct (Pos.compare_spec m m') as [<-|_|_]; try discriminate. done.
Qed.

Lemma eqb_zero_inv x c :
  Prim2SF x = S754_zero false -> (x =? c)%float = true ->
  exists s, Prim2SF c = S754_zero s.
Proof.
  intros Ex. rewrite FloatAxioms.eqb_spec, Ex. unfold SFeqb, SFcompare.
  destruct (Prim2SF c) as [s|s| |s m' e']; try discriminate;
    [by exists s|destruct s; discriminate|destruct s; discriminate].
Qed.

End Binary64Facts.

(** ** The capped weighted sum takes five values *)

Section Score.
Import Binary64.

Lemma default_weights_binade :
  half_to_one (strong_signal default_weights) /\
  half_to_one (medium_signal default_weights) /\
  half_to_one (weak_signal default_weights).
Proof. repeat split; eexists; split; reflexivity. Qed.

Lemma raw_confidence_saturates s m w :
  2 <= s + m + w -> Py.min (raw_confidence default_weights s m w) 1 = 1%float.
Proof.
  intros H. destruct default_weights_binade as (Hs & Hm & Hw).
  unfold raw_confidence.
  set (cs := strong_signal default_weights) in *.
  set (cm := medium_signal default_weights) in *.
  set (cw := weak_signal default_weights) in *.
  pose proof (term_nonneg s cs Hs) as Ns.
  pose proof (term_nonneg m cm Hm) as Nm.
  pose proof (term_nonneg w cw Hw) as Nw.
  destruct (decide (2 <= s)) as [H2|Hs1].
  { apply min_big, add_big_l; [done| |done].
    apply add_big_l; [done| |done]. by apply term_big. }
  destruct (decide (2 <= m)) as [H2|Hm1].
  { apply min_big, add_big_l; [done| |done].
    apply add_big_r; [done|done|]. by apply term_big. }
  destruct (decide (2 <= w)) as [H2|Hw1].
  { apply min_big, add_big_r; [done| |by apply term_big].
    by apply add_nonneg. }
  clear Ns Nm Nw Hs Hm Hw. subst cs cm cw.
  destruct s as [|[|s]]; [| |lia]; destruct m as [|[|m]]; try lia;
    destruct w as [|[|w]]; try lia; vm_compute; reflexivity.
Qed.

Theorem capped_confidence s m w :
  Py.min (raw_confidence default_weights s m w) 1
  = value_of_rank (score_rank s m w).
Proof.
  unfold score_rank. destruct (Nat.leb_spec 2 (s + m + w)) as [H|H].
  - by apply raw_confidence_saturates.
  - destruct s as [|[|s]]; [| |lia]; destruct m as [|[|m]]; try lia;
      destruct w as [|[|w]]; try lia; vm_compute; reflexivity.
Qed.

End Score.

(** ** Strings and sets *)

Lemma ascii_lower_idempotent c : Py.ascii_lower (Py.ascii_lower c) = Py.ascii_lower c.
Proof. destruct c as [[] [] [] [] [] [] [] []]; reflexivity. Qed.

Lemma lower_idempotent s : Py.lower (Py.lower s) = Py.lower s.
Proof.
  induction s as [|c s IH]; [reflexivity|].
  cbn [Py.lower]. by rewrite ascii_lower_idempotent, IH.
Qed.

Lemma is_lower_spec s : is_lower s = true <-> Py.lower s = s.
Proof. apply String.eqb_eq. Qed.

Lemma map_lower_fixed l : forallb is_lower l = true -> map Py.lower l = l.
Proof.
  induction l as [|x l IH]; [done|]. cbn [forallb map].
  intros [Hx Hl]%andb_prop. apply is_lower_spec in Hx. by rewrite Hx, IH.
Qed.

Lemma contains_spec items x : Py.contains items x = true <-> x ∈ items.
Proof. unfold Py.contains. apply bool_decide_eq_true. Qed.

Lemma elem_of_matched_items tier items x :
  x ∈ matched_items tier items <-> x ∈ tier /\ Py.lower x ∈ items.
Proof.
  unfold matched_items. rewrite list_elem_of_filter, contains_spec. tauto.
Qed.

Lemma len_set_inter_zero xs ys :
  Py.len_set_inter xs ys = 0 <-> forall t, t ∈ xs -> t ∈ ys -> False.
Proof.
  unfold Py.len_set_inter. rewrite size_empty_iff. split.
  - intros H t Hx Hy. apply (not_elem_of_empty (C := gset string) t).
    rewrite <- H. by rewrite elem_of_intersection, !elem_of_list_to_set.
  - intros H. apply elem_of_equiv_empty. intros t.
    rewrite elem_of_intersection, !elem_of_list_to_set. intros [??]. eauto.
Qed.

Lemma len_set_inter_pos xs ys :
  0 < Py.len_set_inter xs ys <-> exists t, t ∈ xs /\ t ∈ ys.
Proof.
  split.
  - intros H.
    destruct (set_choose_L (list_to_set xs ∩ list_to_set ys : gset string))
      as [t Ht].
    + intros E. unfold Py.len_set_inter in H. rewrite E, size_empty in H. lia.
    + exists t. by rewrite elem_of_intersection, !elem_of_list_to_set in Ht.
  - intros (t & Hx & Hy).
    destruct (Py.len_set_inter xs ys) eqn:E; [|lia].
    destruct (proj1 (len_set_inter_zero xs ys) E t Hx Hy).
Qed.

Lemma len_set_inter_mono xs ys ys' :
  ys ⊆ ys' -> Py.len_set_inter xs ys <= Py.len_set_inter xs ys'.
Proof.
  intros H. apply subseteq_size. intros t.
  rewrite !elem_of_intersection, !elem_of_list_to_set. intros [??]. split; auto.
Qed.

Lemma len_set_inter_singleton xs y :
  Py.len_set_inter xs [y] = if bool_decide (y ∈ xs) then 1 else 0.
Proof.
  case_bool_decide as H.
  - unfold Py.len_set_inter.
    replace (list_to_set xs ∩ list_to_set [y] : gset string) with ({[y]} : gset string).
    { apply size_singleton. }
    apply set_eq. intros t.
    rewrite elem_of_intersection, !elem_of_list_to_set, elem_of_singleton,
      list_elem_of_singleton.
    split; [intros ->; done|tauto].
  - apply len_set_inter_zero. intros t Hx ->%list_elem_of_singleton. done.
Qed.

(** ** The signal flattener *)

Lemma elem_of_dep_items dep x :
  x ∈ dep_items dep <->
  x = Py.lower (dep_name dep) \/
  exists c, dep_category dep = Some c /\ x = Py.lower c.
Proof.
  unfold dep_items. destruct (dep_category dep) as [c|].
  - rewrite elem_of_cons, list_elem_of_singleton. split.
    + intros [->| ->]; [by left|right; by exists c].
    + intros [->|(c' & [= <-] & ->)]; [by left|by right].
  - rewrite list_elem_of_singleton. split; [by left|].
    by intros [->|(c' & [=] & _)].
Qed.

Lemma elem_of_architecture_items p x :
  x ∈ architecture_items p <->
  architecture p <> "" /\ architecture p <> "unknown" /\ x = architecture p.
Proof.
  unfold architecture_items.
  destruct (String.eqb_spec (architecture p) "unknown") as [E|E];
    destruct (architecture p) as [|c a] eqn:Ea; cbn [Py.truthy andb negb].
  - rewrite elem_of_nil. split; [done|]. by intros (? & _).
  - rewrite elem_of_nil. split; [done|]. by intros (_ & ? & _).
  - rewrite elem_of_nil. split; [done|]. by intros (? & _).
  - rewrite list_elem_of_singleton. split; [by intros ->|by intros (_ & _ & ->)].
Qed.

Lemma extract_detected_items_lower deps p :
  map Py.lower (_extract_detected_items deps p) = _extract_detected_items deps p.
Proof.
  unfold _extract_detected_items. rewrite map_map.
  apply map_ext. intros x. apply lower_idempotent.
Qed.

Lemma extract_detected_items_all_lower deps p :
  forallb is_lower (_extract_detected_items deps p) = true.
Proof.
  apply forallb_forall. intros x Hx.
  apply is_lower_spec. unfold _extract_detected_items in Hx.
  apply in_map_iff in Hx as (y & <- & _). apply lower_idempotent.
Qed.

(** C5 (as amended): the flattener returns exactly the lower-cased tokens of
    [flattened_token] -- each dependency's name and its category whenever it
    carries one (the label ["unknown"] included), every label of
    [frameworks], [project_types] and [key_patterns], and the architecture
    when it is neither empty nor ["unknown"] -- every token it returns is
    lower-case, and empty inputs give the empty list. *)
Theorem extract_detected_items_tokens :
  (forall deps p token,
     token ∈ _extract_detected_items deps p <-> flattened_token deps p token)
  /\ (forall deps p,
        forallb is_lower (_extract_detected_items deps p) = true)
  /\ _extract_detected_items [] no_patterns = []
  /\ _extract_detected_items []
       {| architecture := "unknown"; frameworks := []; project_types := [];
          key_patterns := [] |} = [].
Proof.
  split; [|split; [|split; reflexivity]].
  - intros deps p token. unfold _extract_detected_items, flattened_token.
    rewrite list_elem_of_In, in_map_iff. split.
    + intros (x & <- & Hx). rewrite !in_app_iff in Hx.
      destruct Hx as [Hx|[Hx|[Hx|[Hx|Hx]]]].
      * apply in_flat_map in Hx as (dep & Hdep & Hx). left. exists dep.
        rewrite list_elem_of_In. split; [done|].
        apply list_elem_of_In, elem_of_dep_items in Hx
          as [->|(c & Hc & ->)]; rewrite lower_idempotent; eauto.
      * right; left. exists x. rewrite !list_elem_of_In. auto.
      * right; left. exists x. rewrite !list_elem_of_In. auto.
      * right; left. exists x. rewrite !list_elem_of_In. auto.
      * right; right.
        apply list_elem_of_In, elem_of_architecture_items in Hx
          as (? & ? & ->). auto.
    + intros [(dep & Hdep & H)|[(l & Hl & ->)|(H1 & H2 & ->)]].
      * exists token. split.
        { destruct H as [->|(c & _ & ->)]; apply lower_idempotent. }
        rewrite in_app_iff. left. apply in_flat_map. exists dep.
        rewrite <- !list_elem_of_In. split; [done|].
        by apply elem_of_dep_items.
      * exists l. split; [done|]. rewrite !in_app_iff, <- !list_elem_of_In.
        tauto.
      * exists (architecture p). split; [done|].
        rewrite !in_app_iff, <- !list_elem_of_In. do 4 right.
        by apply elem_of_architecture_items.
  - apply extract_detected_items_all_lower.
Qed.

(** C5 (as stated) fails: a dependency that the analyzer could not classify
    carries the category ["unknown"], and the flattener emits that label. *)
Lemma extract_detected_items_unknown_category :
  let deps := [DependencyInfo_new "lodash" (Some "4.17.21") "production" "unknown"] in
  let p := {| architecture := "unknown"; frameworks := []; project_types := [];
              key_patterns := [] |} in
  _extract_detected_items deps p = ["lodash"; "unknown"]
  /\ "unknown" ∈ _extract_detected_items deps p
  /\ ~ described_token deps p "unknown".
Proof.
  cbv zeta. split; [reflexivity|]. split.
  - apply list_elem_of_In. cbn. auto.
  - intros [(dep & Hdep & H)|[(l & Hl & _)|(H & _)]].
    + apply list_elem_of_singleton in Hdep as ->. cbn in H.
      destruct H as [H|(c & [= <-] & Hc & _)]; [discriminate|done].
    + cbn in Hl. rewrite !elem_of_nil in Hl. tauto.
    + cbn in H. done.
Qed.

(** ** The confidence of one template *)

Lemma catalog_lowercase :
  forallb (fun entry => lowercase_triggers entry.2) _load_workflow_templates = true.
Proof. vm_compute. reflexivity. Qed.

Lemma catalog_template_lowercase name tpl :
  (name, tpl) ∈ workflow_templates __init__ -> lowercase_triggers tpl = true.
Proof.
  intros H. pose proof catalog_lowercase as Hall.
  rewrite forallb_forall in Hall.
  apply (Hall (name, tpl)). by apply list_elem_of_In.
Qed.

Lemma catalog_names_unique : NoDup (map fst _load_workflow_templates).
Proof. apply (bool_decide_unpack _). vm_compute. exact I. Qed.

Lemma score_rank_le_4 s m w : score_rank s m w <= 4.
Proof. unfold score_rank. destruct (Nat.leb_spec 2 (s + m + w)); lia. Qed.

Lemma score_rank_mono s m w s' m' w' :
  s <= s' -> m <= m' -> w <= w' -> score_rank s m w <= score_rank s' m' w'.
Proof.
  intros. unfold score_rank.
  destruct (Nat.leb_spec 2 (s + m + w)), (Nat.leb_spec 2 (s' + m' + w')); lia.
Qed.

Lemma score_rank_pos s m w : 1 <= score_rank s m w <-> 1 <= s + m + w.
Proof. unfold score_rank. destruct (Nat.leb_spec 2 (s + m + w)); lia. Qed.

(** On the five values the float comparisons are those of the ranks. *)
Lemma value_of_rank_leb i j :
  i <= 4 -> j <= 4 ->
  (value_of_rank i <=? value_of_rank j)%float = (i <=? j)%nat.
Proof.
  intros Hi Hj.
  do 5 (destruct i as [|i]; [do 5 (destruct j as [|j]; [reflexivity|]); lia|]).
  lia.
Qed.

Lemma value_of_rank_ltb i j :
  i <= 4 -> j <= 4 ->
  (value_of_rank i <? value_of_rank j)%float = (i <? j)%nat.
Proof.
  intros Hi Hj.
  do 5 (destruct i as [|i]; [do 5 (destruct j as [|j]; [reflexivity|]); lia|]).
  lia.
Qed.

Lemma value_of_rank_eqb i j :
  i <= 4 -> j <= 4 ->
  (value_of_rank i =? value_of_rank j)%float = (i =? j)%nat.
Proof.
  intros Hi Hj.
  do 5 (destruct i as [|i]; [do 5 (destruct j as [|j]; [reflexivity|]); lia|]).
  lia.
Qed.

Lemma value_of_rank_floor i :
  i <= 4 -> Py.ge (value_of_rank i) 0.3 = (1 <=? i)%nat.
Proof.
  intros Hi. do 5 (destruct i as [|i]; [reflexivity|]). lia.
Qed.

(** The confidence of a suggestion is the value of its rank. *)
Lemma confidence_value self name tpl items :
  confidence_weights self = default_weights ->
  confidence (_calculate_workflow_confidence self name tpl items)
  = value_of_rank
      (score_rank (strong_count tpl items) (medium_count tpl items)
         (weak_count tpl items)).
Proof.
  intros Hw. unfold _calculate_workflow_confidence. cbn [confidence].
  rewrite Hw. apply capped_confidence.
Qed.

Lemma confidence_mono self name tpl items items' :
  confidence_weights self = default_weights -> items ⊆ items' ->
  (confidence (_calculate_workflow_confidence self name tpl items)
   <=? confidence (_calculate_workflow_confidence self name tpl items'))%float
  = true.
Proof.
  intros Hw Hsub. rewrite !confidence_value by done.
  rewrite value_of_rank_leb by apply score_rank_le_4.
  apply Nat.leb_le, score_rank_mono; by apply len_set_inter_mono.
Qed.

Lemma ci_matches_lower tier signals :
  forallb is_lower tier = true -> forallb is_lower signals = true ->
  ci_matches tier signals = Py.len_set_inter tier signals.
Proof.
  intros Ht Hs. unfold ci_matches. by rewrite !map_lower_fixed.
Qed.

(** C1: for a template whose triggers are declared in lower case (as every
    template of the catalog is) and the flattened signals of any analysis,
    the confidence is [min(s*0.9 + m*0.7 + w*0.5, 1.0)], where [s], [m] and
    [w] are the sizes of the intersections of the strong, medium and weak
    trigger lists with the signals under case-insensitive equality of whole
    strings. *)
Theorem confidence_formula (name : string) (tpl : WorkflowTemplate)
    (deps : list DependencyInfo) (p : Patterns) :
  lowercase_triggers tpl = true ->
  let signals := _extract_detected_items deps p in
  confidence (_calculate_workflow_confidence __init__ name tpl signals)
  = Py.min
      (Py.float_of_len (ci_matches (strong (tpl_triggers tpl)) signals) * 0.9
       + Py.float_of_len (ci_matches (medium (tpl_triggers tpl)) signals) * 0.7
       + Py.float_of_len (ci_matches (weak (tpl_triggers tpl)) signals) * 0.5)
      1.0.
Proof.
  intros Hl signals. unfold lowercase_triggers in Hl.
  apply andb_prop in Hl as [[Hs Hm]%andb_prop Hw].
  assert (Hsig : forallb is_lower signals = true)
    by apply extract_detected_items_all_lower.
  rewrite !ci_matches_lower by done. reflexivity.
Qed.

Lemma confidence_formula_witness :
  let component_library :=
    template "frontend" "15-30 minutes"
      ["React/Vue/Angular"; "components folder"]
      ["react"; "vue"; "angular"; "components/"]
      ["jsx"; "tsx"; "vue"; "svelte"]
      ["src/"; "lib/"]
      "Create comprehensive component library with documentation and testing" in
  let deps := [DependencyInfo_new "React" None "production" "frontend"] in
  lowercase_triggers component_library = true
  /\ confidence
       (_calculate_workflow_confidence __init__ "component-library"
          component_library (_extract_detected_items deps no_patterns))
     = 0.9%float.
Proof.
  cbv zeta. split; [reflexivity|].
  rewrite (confidence_formula "component-library" _
             [DependencyInfo_new "React" None "production" "frontend"]
             no_patterns); [|reflexivity].
  vm_compute. reflexivity.
Defined.

(** Matching compares whole strings: a signal that merely contains a
    trigger, or is contained in one, does not count. *)
Example whole_strings_only :
  strong_count (template "" "" [] ["react"] [] [] "") ["reactive"; "preact"] = 0
  /\ strong_count (template "" "" [] ["react"] [] [] "") ["react"] = 1.
Proof. split; vm_compute; reflexivity. Qed.

(** The count compares a trigger as it is declared; a trigger declared
    with a capital would not be counted, which is why [confidence_formula]
    asks for triggers in lower case. *)
Example declared_case_is_compared :
  strong_count (template "" "" [] ["React"] [] [] "") ["react"] = 0
  /\ ci_matches ["React"] ["react"] = 1.
Proof. split; vm_compute; reflexivity. Qed.

(** C3: whatever the template and the detected items, the confidence lies
    in the closed interval [[0, 1]]. *)
Theorem confidence_in_unit_interval (name : string) (tpl : WorkflowTemplate)
    (items : list string) :
  let c := confidence (_calculate_workflow_confidence __init__ name tpl items) in
  (0 <=? c)%float = true /\ (c <=? 1)%float = true.
Proof.
  cbv zeta. rewrite confidence_value by reflexivity.
  set (r := score_rank _ _ _). pose proof (score_rank_le_4 _ _ _ : r <= 4) as Hr.
  change 0%float with (value_of_rank 0). change 1%float with (value_of_rank 4).
  rewrite !value_of_rank_leb by lia.
  split; apply Nat.leb_le; lia.
Qed.

(** C4: adding a token to the detected items never lowers the confidence of
    a template, wherever the token is added. *)
Theorem confidence_monotone (name : string) (tpl : WorkflowTemplate)
    (items : list string) (t : string) :
  let conf := fun l =>
    confidence (_calculate_workflow_confidence __init__ name tpl l) in
  (conf items <=? conf (items ++ [t])%list)%float = true
  /\ (conf items <=? conf (t :: items))%float = true.
Proof.
  cbv zeta. split; apply confidence_mono; try reflexivity.
  - intros x Hx. apply elem_of_app. by left.
  - intros x Hx. by apply list_elem_of_further.
Qed.

(** ** The reasoning string *)

Lemma matched_items_nil tier items :
  matched_items tier items = [] <->
  forall t, t ∈ tier -> Py.lower t ∈ items -> False.
Proof.
  split.
  - intros E t Ht Hi.
    assert (H : t ∈ matched_items tier items)
      by (apply (proj2 (elem_of_matched_items tier items t)); done).
    rewrite E in H. by apply elem_of_nil in H.
  - intros H. destruct (matched_items tier items) as [|x l] eqn:E; [done|].
    assert (Hx : x ∈ matched_items tier items) by (rewrite E; left).
    apply elem_of_matched_items in Hx as [??]. destruct (H x); done.
Qed.

Lemma clause_tier_clause label tier items :
  forallb is_lower tier = true ->
  clause label (Py.len_set_inter tier items) tier items
  = tier_clause label (matched_items tier items).
Proof.
  intros Hl. unfold clause, tier_clause.
  assert (Hfix : forall t, t ∈ tier -> Py.lower t = t).
  { intros t Ht. apply is_lower_spec.
    rewrite forallb_forall in Hl. by apply Hl, list_elem_of_In. }
  destruct (Nat.ltb_spec 0 (Py.len_set_inter tier items)) as [Hpos|Hz].
  - apply len_set_inter_pos in Hpos as (t & Ht & Hi).
    destruct (matched_items tier items) eqn:E; [|done].
    destruct (proj1 (matched_items_nil tier items) E t Ht).
    by rewrite (Hfix t Ht).
  - assert (E : matched_items tier items = []); [|by rewrite E].
    apply matched_items_nil. intros t Ht Hi.
    assert (0 < Py.len_set_inter tier items); [|lia].
    apply len_set_inter_pos. exists t. split; [done|]. by rewrite <- (Hfix t Ht).
Qed.

Lemma tier_clause_length label matched : length (tier_clause label matched) <= 1.
Proof. destruct matched; cbn; lia. Qed.

Lemma join_nonempty sep c label rest parts :
  Py.join sep ((String c label +:+ rest) :: parts) <> "".
Proof. unfold Py.join. cbn. by destruct parts. Qed.

Lemma reasoning_clauses_join trg items x parts :
  reasoning_clauses trg items = x :: parts -> Py.join " | " (x :: parts) <> "".
Proof.
  unfold reasoning_clauses, tier_clause. intros E.
  destruct (matched_items (strong trg) items);
    destruct (matched_items (medium trg) items);
    destruct (matched_items (weak trg) items);
    cbn [app] in E; try discriminate; injection E as <- <-;
    apply join_nonempty.
Qed.

(** C7: for a template whose triggers are declared in lower case, the
    reasoning is made of at most three clauses, one for each tier with a
    matched trigger, in the order strong, medium, weak, each listing the
    tier's matched triggers as declared and in declaration order; the
    clauses are joined by [" | "], and when no tier matched the reasoning
    is the fixed generic sentence.  It is never empty. *)
Theorem reasoning_clauses_joined (name : string) (tpl : WorkflowTemplate)
    (items : list string) :
  lowercase_triggers tpl = true ->
  let r := reasoning (_calculate_workflow_confidence __init__ name tpl items) in
  let parts := reasoning_clauses (tpl_triggers tpl) items in
  r = match parts with
      | [] => generic_reasoning
      | _ => Py.join " | " parts
      end
  /\ length parts <= 3
  /\ r <> "".
Proof.
  intros Hl r parts. unfold lowercase_triggers in Hl.
  apply andb_prop in Hl as [[Hs Hm]%andb_prop Hw].
  assert (Hr : r = match parts with
                   | [] => generic_reasoning
                   | _ => Py.join " | " parts
                   end).
  { unfold r, _calculate_workflow_confidence. cbn [reasoning].
    unfold _generate_reasoning. rewrite !clause_tier_clause by done.
    reflexivity. }
  split; [done|]. split.
  - unfold parts, reasoning_clauses. rewrite !length_app.
    pose proof (tier_clause_length "Strong indicators: "
                  (matched_items (strong (tpl_triggers tpl)) items)).
    pose proof (tier_clause_length "Supporting indicators: "
                  (matched_items (medium (tpl_triggers tpl)) items)).
    pose proof (tier_clause_length "Additional indicators: "
                  (matched_items (weak (tpl_triggers tpl)) items)).
    lia.
  - rewrite Hr. destruct parts as [|x l] eqn:E; [done|].
    by apply (reasoning_clauses_join (tpl_triggers tpl) items).
Qed.

Lemma reasoning_clauses_joined_witness :
  let full_stack :=
    template "documentation" "45-90 minutes"
      ["Frontend + Backend"; "API endpoints"]
      ["react"; "express"; "api/"; "components/"]
      ["frontend"; "backend"; "full-stack"]
      ["web"; "application"]
      "Create comprehensive documentation for full-stack application" in
  lowercase_triggers full_stack = true
  /\ reasoning
       (_calculate_workflow_confidence __init__ "full-stack-documentation"
          full_stack example_signals)
     = "Strong indicators: react, express | Supporting indicators: full-stack".
Proof.
  cbv zeta. split; [reflexivity|].
  destruct (reasoning_clauses_joined "full-stack-documentation"
              (template "documentation" "45-90 minutes"
                 ["Frontend + Backend"; "API endpoints"]
                 ["react"; "express"; "api/"; "components/"]
                 ["frontend"; "backend"; "full-stack"]
                 ["web"; "application"]
                 "Create comprehensive documentation for full-stack application")
              example_signals eq_refl) as [-> _].
  vm_compute. reflexivity.
Defined.

(** ** The example of the specification *)

(** C8: on the signals of the example run, the ["component-library"]
    template scores at least [0.9] and its reasoning contains ["react"]. *)
Theorem component_library_example :
  exists tpl,
    get_workflow_details __init__ "component-library" = Some tpl
    /\ let s := _calculate_workflow_confidence __init__ "component-library"
                  tpl example_signals in
       Py.ge (confidence s) 0.9 = true
       /\ confidence s = 0.9%float
       /\ reasoning s = "Strong indicators: react"
       /\ Py.has_substring "react" (reasoning s) = true
       /\ exists pre post, reasoning s = pre +:+ "react" +:+ post.
Proof.
  eexists. split; [vm_compute; reflexivity|]. cbv zeta.
  split; [vm_compute; reflexivity|].
  split; [vm_compute; reflexivity|].
  split; [vm_compute; reflexivity|].
  split; [vm_compute; reflexivity|].
  exists "Strong indicators: ", "". vm_compute. reflexivity.
Qed.

(** ** A trigger declared in several tiers *)

Lemma matched_items_singleton tier sig :
  matched_items tier [sig] = filter (fun x => Py.lower x = sig) tier.
Proof.
  unfold matched_items. apply list_filter_iff. intros x.
  by rewrite contains_spec, list_elem_of_singleton.
Qed.

(** C9: against a single signal, each tier that declares the signal counts
    one match, so a trigger declared in several tiers adds the weight of each
    of them, and the suggestion lists it once for each declaration.  For the
    signal ["optimization"] the ["performance-optimization"] template gets
    the raw sum [0.9 + 0.7 = 1.6], capped to [1.0], and lists the trigger
    twice. *)
Theorem trigger_in_several_tiers :
  (forall name tpl sig,
     let trg := tpl_triggers tpl in
     let s := _calculate_workflow_confidence __init__ name tpl [sig] in
     confidence s
     = Py.min
         (raw_confidence default_weights
            (Nat.b2n (bool_decide (sig ∈ strong trg)))
            (Nat.b2n (bool_decide (sig ∈ medium trg)))
            (Nat.b2n (bool_decide (sig ∈ weak trg)))) 1
     /\ triggers s
        = (filter (fun x => Py.lower x = sig) (strong trg)
           ++ filter (fun x => Py.lower x = sig) (medium trg)
           ++ filter (fun x => Py.lower x = sig) (weak trg))%list)
  /\ raw_confidence default_weights 1 1 0 = (0.9 + 0.7)%float
  /\ (0.9 + 0.7)%float = 1.6%float
  /\ exists tpl,
       get_workflow_details __init__ "performance-optimization" = Some tpl
       /\ let s := _calculate_workflow_confidence __init__
                     "performance-optimization" tpl ["optimization"] in
          raw_confidence default_weights
            (strong_count tpl ["optimization"])
            (medium_count tpl ["optimization"])
            (weak_count tpl ["optimization"]) = 1.6%float
          /\ confidence s = 1%float
          /\ triggers s = ["optimization"; "optimization"].
Proof.
  split; [|split; [|split]].
  - intros name tpl sig trg s. split.
    + unfold s, _calculate_workflow_confidence. cbn [confidence].
      rewrite !len_set_inter_singleton.
      by repeat case_bool_decide.
    + unfold s, _calculate_workflow_confidence. cbn [triggers flat_map].
      rewrite !matched_items_singleton, app_nil_r. reflexivity.
  - vm_compute. reflexivity.
  - vm_compute. reflexivity.
  - eexists. split; [vm_compute; reflexivity|]. cbv zeta.
    repeat split; vm_compute; reflexivity.
Qed.

(** ** Ranking *)

Lemma foldl_match_step self items acc l :
  foldl (match_step self items) acc l
  = (acc ++ filter above_floor
              (map (fun entry =>
                      _calculate_workflow_confidence self entry.1 entry.2 items)
                 l))%list.
Proof.
  revert acc. induction l as [|e l IH]; intros acc; cbn [foldl map].
  - by rewrite filter_nil, app_nil_r.
  - rewrite IH. unfold match_step. rewrite filter_cons.
    destruct (decide _) as [H|H]; unfold above_floor in H.
    + rewrite H. by rewrite <- app_assoc.
    + apply not_true_is_false in H. by rewrite H.
Qed.

Lemma emitted_filter self items :
  emitted self items = filter above_floor (scored self items).
Proof. unfold emitted. by rewrite foldl_match_step. Qed.

Lemma insert_desc_perm x l : insert_desc x l ≡ₚ x :: l.
Proof.
  induction l as [|y l IH]; cbn [insert_desc]; [done|].
  destruct (confidence x <? confidence y)%float; [|done].
  rewrite IH. apply Permutation_swap.
Qed.

Lemma sort_by_confidence_desc_perm l : sort_by_confidence_desc l ≡ₚ l.
Proof.
  induction l as [|x l IH]; cbn; [done|].
  fold (sort_by_confidence_desc l). by rewrite insert_desc_perm, IH.
Qed.

Lemma ranked_ltb_false a b :
  ranked a -> ranked b ->
  (confidence a <? confidence b)%float = false -> conf_ge a b.
Proof.
  intros (i & Hi & Ea) (j & Hj & Eb). unfold conf_ge. rewrite Ea, Eb.
  rewrite value_of_rank_ltb, value_of_rank_leb by done.
  intros H%Nat.ltb_ge. by apply Nat.leb_le.
Qed.

Lemma ranked_ltb_true a b :
  ranked a -> ranked b ->
  (confidence a <? confidence b)%float = true -> conf_ge b a.
Proof.
  intros (i & Hi & Ea) (j & Hj & Eb). unfold conf_ge. rewrite Ea, Eb.
  rewrite value_of_rank_ltb, value_of_rank_leb by done.
  intros H%Nat.ltb_lt. apply Nat.leb_le. lia.
Qed.

Lemma conf_ge_trans a b c :
  ranked a -> ranked b -> ranked c -> conf_ge a b -> conf_ge b c -> conf_ge a c.
Proof.
  intros (i & Hi & Ea) (j & Hj & Eb) (k & Hk & Ec). unfold conf_ge.
  rewrite Ea, Eb, Ec. rewrite !value_of_rank_leb by done.
  intros H1%Nat.leb_le H2%Nat.leb_le. apply Nat.leb_le. lia.
Qed.

Lemma value_of_rank_class i j c :
  i <= 4 -> j <= 4 ->
  (value_of_rank i =? c)%float = true -> (value_of_rank j =? c)%float = true ->
  i = j.
Proof.
  intros Hi Hj Ei Ej.
  assert (Hinv : forall k, k <= 4 ->
            (value_of_rank k =? c)%float = true ->
            match k with
            | 0 => exists s, Prim2SF c = S754_zero s
            | _ => Prim2SF c = Prim2SF (value_of_rank k)
            end).
  { intros k Hk E.
    do 5 (destruct k as [|k];
          [first [by apply eqb_zero_inv in E
                 |by eapply eqb_finite_inv in E; [|reflexivity]]|]).
    lia. }
  apply Hinv in Ei; [|done]. apply Hinv in Ej; [|done]. clear Hinv.
  do 5 (destruct i as [|i];
        [do 5 (destruct j as [|j];
               [try reflexivity; exfalso;
                repeat match goal with
                       | H : ex _ |- _ => destruct H as [? H]
                       end;
                rewrite Ei in Ej; discriminate Ej|]);
         lia|]).
  lia.
Qed.

Lemma ranked_ltb_classes a b c :
  ranked a -> ranked b ->
  (confidence a <? confidence b)%float = true ->
  has_confidence c a -> has_confidence c b -> False.
Proof.
  intros (i & Hi & Ea) (j & Hj & Eb). unfold has_confidence.
  rewrite Ea, Eb. rewrite value_of_rank_ltb by done. intros Hlt%Nat.ltb_lt.
  intros H1 H2. pose proof (value_of_rank_class i j c Hi Hj H1 H2). lia.
Qed.

Lemma insert_desc_sorted x l :
  ranked x -> Forall ranked l -> StronglySorted conf_ge l ->
  StronglySorted conf_ge (insert_desc x l).
Proof.
  intros Hx Hl Hs. induction Hs as [|y l Hs IH Hy]; cbn [insert_desc].
  - constructor; constructor.
  - apply Forall_cons in Hl as [Ry Rl].
    destruct (confidence x <? confidence y)%float eqn:E.
    + constructor; [by apply IH|].
      rewrite insert_desc_perm. constructor; [|done].
      by apply ranked_ltb_true.
    + constructor; [by constructor|].
      assert (Hxy : conf_ge x y) by by apply ranked_ltb_false.
      constructor; [done|].
      rewrite Forall_forall in Hy, Rl |- *. intros z Hz.
      apply (conf_ge_trans x y z); auto.
Qed.

Lemma sort_by_confidence_desc_sorted l :
  Forall ranked l -> StronglySorted conf_ge (sort_by_confidence_desc l).
Proof.
  induction l as [|x l IH]; intros Hl; cbn; [constructor|].
  apply Forall_cons in Hl as [Rx Rl]. fold (sort_by_confidence_desc l).
  apply insert_desc_sorted; [done| |by apply IH].
  by rewrite sort_by_confidence_desc_perm.
Qed.

Lemma insert_desc_stable c x l :
  ranked x -> Forall ranked l ->
  filter (has_confidence c) (insert_desc x l)
  = filter (has_confidence c) (x :: l).
Proof.
  intros Rx. induction l as [|y l IH]; intros Rl; cbn [insert_desc]; [done|].
  apply Forall_cons in Rl as [Ry Rl].
  destruct (confidence x <? confidence y)%float eqn:E; [|done].
  rewrite (filter_cons _ y), IH by done. rewrite !filter_cons.
  destruct (decide (has_confidence c x)) as [Hx|Hx];
    destruct (decide (has_confidence c y)) as [Hy|Hy]; try done.
  destruct (ranked_ltb_classes x y c Rx Ry E Hx Hy).
Qed.

Lemma sort_by_confidence_desc_stable c l :
  Forall ranked l ->
  filter (has_confidence c) (sort_by_confidence_desc l)
  = filter (has_confidence c) l.
Proof.
  induction l as [|x l IH]; intros Hl; cbn; [done|].
  apply Forall_cons in Hl as [Rx Rl]. fold (sort_by_confidence_desc l).
  rewrite insert_desc_stable; [|done|by rewrite sort_by_confidence_desc_perm].
  rewrite !filter_cons. by rewrite IH.
Qed.

Lemma calculated_ranked self name tpl items :
  confidence_weights self = default_weights ->
  ranked (_calculate_workflow_confidence self name tpl items).
Proof.
  intros Hw. eexists. split; [|by apply confidence_value].
  apply score_rank_le_4.
Qed.

Lemma emitted_ranked self items :
  confidence_weights self = default_weights -> Forall ranked (emitted self items).
Proof.
  intros Hw. rewrite emitted_filter. apply Forall_forall. intros s Hs.
  apply list_elem_of_filter in Hs as [_ Hs]. unfold scored in Hs.
  apply list_elem_of_In, in_map_iff in Hs as (e & <- & _).
  by apply calculated_ranked.
Qed.

Lemma elem_of_match_workflows self a s :
  s ∈ match_workflows self a <->
  above_floor s /\
  exists entry, entry ∈ workflow_templates self /\
    s = _calculate_workflow_confidence self entry.1 entry.2
          (_extract_detected_items (dependencies a) (patterns a)).
Proof.
  unfold match_workflows. rewrite sort_by_confidence_desc_perm, emitted_filter.
  rewrite list_elem_of_filter. unfold scored.
  rewrite (list_elem_of_In (map _ _)), in_map_iff.
  split; intros [H (e & H1 & H2)]; (split; [done|]); exists e.
  - by rewrite list_elem_of_In.
  - by rewrite <- list_elem_of_In.
Qed.

Lemma unique_key {V : Type} (d : list (string * V)) k v1 v2 :
  NoDup (map fst d) -> (k, v1) ∈ d -> (k, v2) ∈ d -> v1 = v2.
Proof.
  induction d as [|[k' v'] d IH]; cbn [map fst].
  - intros _ H. by apply elem_of_nil in H.
  - intros [Hk Hd]%NoDup_cons. rewrite !elem_of_cons.
    assert (Hno : forall v, (k', v) ∈ d -> False).
    { intros v Hv. apply Hk. apply list_elem_of_In, in_map_iff.
      exists (k', v). by rewrite <- list_elem_of_In. }
    intros [E1|H1] [E2|H2]; simplify_eq.
    + done.
    + destruct (Hno _ H2).
    + destruct (Hno _ H1).
    + by apply IH.
Qed.

Lemma above_floor_iff self name tpl items :
  confidence_weights self = default_weights ->
  above_floor (_calculate_workflow_confidence self name tpl items) <->
  some_trigger_matches tpl items.
Proof.
  intros Hw. unfold above_floor. rewrite confidence_value by done.
  rewrite value_of_rank_floor by apply score_rank_le_4.
  rewrite Nat.leb_le, score_rank_pos. unfold some_trigger_matches.
  unfold strong_count, medium_count, weak_count. split.
  - intros H.
    assert (Hor : 0 < Py.len_set_inter (strong (tpl_triggers tpl)) items
                  \/ 0 < Py.len_set_inter (medium (tpl_triggers tpl)) items
                  \/ 0 < Py.len_set_inter (weak (tpl_triggers tpl)) items) by lia.
    destruct Hor as [Hp|[Hp|Hp]]; apply len_set_inter_pos in Hp as (t & Ht & Hi);
      exists t; tauto.
  - intros (t & [Ht|[Ht|Ht]] & Hi).
    + assert (0 < Py.len_set_inter (strong (tpl_triggers tpl)) items); [|lia].
      apply len_set_inter_pos. eauto.
    + assert (0 < Py.len_set_inter (medium (tpl_triggers tpl)) items); [|lia].
      apply len_set_inter_pos. eauto.
    + assert (0 < Py.len_set_inter (weak (tpl_triggers tpl)) items); [|lia].
      apply len_set_inter_pos. eauto.
Qed.

(** The suggestion found in the output under the name of a template is the
    one computed for that template. *)
Lemma suggestion_of_name self a workflow_name tpl s :
  NoDup (map fst (workflow_templates self)) ->
  (workflow_name, tpl) ∈ workflow_templates self ->
  s ∈ match_workflows self a -> name s = workflow_name ->
  s = _calculate_workflow_confidence self workflow_name tpl
        (_extract_detected_items (dependencies a) (patterns a)).
Proof.
  intros Hnd Hin (_ & [n t] & He & ->)%elem_of_match_workflows. cbn.
  intros ->. by rewrite (unique_key _ _ _ _ Hnd He Hin).
Qed.

Lemma computed_in_output self a workflow_name tpl :
  (workflow_name, tpl) ∈ workflow_templates self ->
  let s := _calculate_workflow_confidence self workflow_name tpl
             (_extract_detected_items (dependencies a) (patterns a)) in
  s ∈ match_workflows self a <-> above_floor s.
Proof.
  intros Hin s. rewrite elem_of_match_workflows. split; [by intros [H _]|].
  intros H. split; [done|]. by exists (workflow_name, tpl).
Qed.

(** C2: a template of the catalog has a suggestion in the output of
    [match_workflows] exactly when the confidence computed for it is at
    least [0.3]; the suggestion under its name is then the computed one, and
    a template below the floor has none at all. *)
Theorem suggested_iff_above_floor (self : WorkflowMatcher)
    (a : AnalysisResults) (workflow_name : string) (tpl : WorkflowTemplate) :
  NoDup (map fst (workflow_templates self)) ->
  (workflow_name, tpl) ∈ workflow_templates self ->
  let items := _extract_detected_items (dependencies a) (patterns a) in
  let s := _calculate_workflow_confidence self workflow_name tpl items in
  ((exists s', s' ∈ match_workflows self a /\ name s' = workflow_name)
   <-> Py.ge (confidence s) 0.3 = true)
  /\ (s ∈ match_workflows self a <-> Py.ge (confidence s) 0.3 = true)
  /\ (forall s', s' ∈ match_workflows self a -> name s' = workflow_name ->
        s' = s).
Proof.
  intros Hnd Hin items s.
  pose proof (computed_in_output self a workflow_name tpl Hin) as Hs.
  cbv zeta in Hs. fold items in Hs. fold s in Hs. unfold above_floor in Hs.
  split; [|split; [done|]].
  - split.
    + intros (s' & Hs' & Hn). apply Hs.
      assert (s' = s) as <- by by apply suggestion_of_name.
      done.
    + intros H. exists s. split; [by apply Hs|done].
  - intros s' Hs' Hn. by apply suggestion_of_name.
Qed.

Lemma suggested_iff_above_floor_witness :
  NoDup (map fst (workflow_templates __init__))
  /\ ("docker-setup",
      template "deployment" "15-30 minutes"
        ["Application code"; "Configuration"]
        ["dockerfile"; "docker-compose"]
        ["container"; "deployment"]
        ["docker"; "containerization"]
        "Set up Docker containerization for application")
     ∈ workflow_templates __init__
  /\ forall s', s' ∈ match_workflows __init__ example_analysis ->
       name s' = "docker-setup" ->
       confidence s' = 0%float.
Proof.
  assert (Hin : ("docker-setup",
      template "deployment" "15-30 minutes"
        ["Application code"; "Configuration"]
        ["dockerfile"; "docker-compose"]
        ["container"; "deployment"]
        ["docker"; "containerization"]
        "Set up Docker containerization for application")
     ∈ workflow_templates __init__).
  { apply list_elem_of_In. cbn. do 12 right. left. reflexivity. }
  split; [exact catalog_names_unique|]. split; [exact Hin|].
  intros s' Hs' Hn.
  destruct (suggested_iff_above_floor __init__ example_analysis "docker-setup"
              _ catalog_names_unique Hin) as (_ & _ & Hu).
  rewrite (Hu s' Hs' Hn). vm_compute. reflexivity.
Defined.

(** C6: the output of [match_workflows] is sorted by descending confidence,
    and the sort is stable: the suggestions of any one confidence come in
    the order in which the catalog declares their templates. *)
Theorem suggestions_sorted_stable (self : WorkflowMatcher)
    (a : AnalysisResults) :
  confidence_weights self = default_weights ->
  let items := _extract_detected_items (dependencies a) (patterns a) in
  let in_catalog_order := filter above_floor (scored self items) in
  StronglySorted conf_ge (match_workflows self a)
  /\ (forall c,
        filter (has_confidence c) (match_workflows self a)
        = filter (has_confidence c) in_catalog_order)
  /\ match_workflows self a ≡ₚ in_catalog_order.
Proof.
  intros Hw items in_catalog_order. unfold match_workflows. fold items.
  pose proof (emitted_ranked self items Hw) as Hr.
  unfold in_catalog_order. rewrite <- emitted_filter.
  split; [by apply sort_by_confidence_desc_sorted|].
  split; [|apply sort_by_confidence_desc_perm].
  intros c. by apply sort_by_confidence_desc_stable.
Qed.

Lemma suggestions_sorted_stable_witness :
  confidence_weights __init__ = default_weights
  /\ StronglySorted conf_ge (match_workflows __init__ example_analysis)
  /\ map name
       (filter (has_confidence 1) (match_workflows __init__ example_analysis))
     = ["api-documentation"; "full-stack-documentation"; "test-coverage";
        "api-testing"].
Proof.
  split; [reflexivity|].
  destruct (suggestions_sorted_stable __init__ example_analysis eq_refl)
    as (Hsorted & Hstable & _).
  split; [exact Hsorted|].
  rewrite Hstable. vm_compute. reflexivity.
Defined.

(** C10: with the weights of [__init__] the floor [0.3] is the same as a
    non-empty match: a template of the catalog has a suggestion in the
    output exactly when one of its triggers is among the detected items, and
    every suggestion in the output has a confidence of at least [0.5]. *)
Theorem floor_is_any_match (self : WorkflowMatcher) (a : AnalysisResults) :
  confidence_weights self = default_weights ->
  NoDup (map fst (workflow_templates self)) ->
  let items := _extract_detected_items (dependencies a) (patterns a) in
  (forall workflow_name tpl,
     (workflow_name, tpl) ∈ workflow_templates self ->
     ((exists s, s ∈ match_workflows self a /\ name s = workflow_name)
      <-> some_trigger_matches tpl items))
  /\ (forall s, s ∈ match_workflows self a ->
        (0.5 <=? confidence s)%float = true
        /\ (confidence s <? 0.5)%float = false).
Proof.
  intros Hw Hnd items. subst items. split.
  - intros workflow_name tpl Hin.
    rewrite <- (above_floor_iff self workflow_name tpl _ Hw).
    rewrite <- (computed_in_output self a workflow_name tpl Hin).
    split.
    + intros (s & Hs & Hn).
      by rewrite <- (suggestion_of_name self a workflow_name tpl s Hnd Hin Hs Hn).
    + intros H. eexists. split; [exact H|done].
  - intros s (Hfloor & [n t] & _ & ->)%elem_of_match_workflows.
    cbn [fst snd] in *. unfold above_floor in Hfloor.
    rewrite confidence_value in Hfloor by done.
    rewrite confidence_value by done.
    set (r := score_rank _ _ _) in *.
    pose proof (score_rank_le_4 _ _ _ : r <= 4) as Hr.
    rewrite value_of_rank_floor in Hfloor by done.
    apply Nat.leb_le in Hfloor.
    change 0.5%float with (value_of_rank 1).
    rewrite value_of_rank_leb, value_of_rank_ltb by lia.
    split; [apply Nat.leb_le|apply Nat.ltb_ge]; lia.
Qed.

Lemma floor_is_any_match_witness :
  confidence_weights __init__ = default_weights
  /\ NoDup (map fst (workflow_templates __init__))
  /\ forall s, s ∈ match_workflows __init__ example_analysis ->
       (0.5 <=? confidence s)%float = true
       /\ (confidence s <? 0.5)%float = false.
Proof.
  split; [reflexivity|]. split; [exact catalog_names_unique|].
  exact (proj2 (floor_is_any_match __init__ example_analysis eq_refl
                  catalog_names_unique)).
Defined.

(** * Further properties of the code *)

(** ** Dictionaries *)

Lemma dict_contains_get {V : Type} (d : list (string * V)) k :
  Dict.contains d k = true <-> is_Some (Py.dict_get d k).
Proof.
  induction d as [|[k' v] d IH]; cbn.
  - split; [done|]. by intros [? ?].
  - destruct (String.eqb k' k); cbn; [|done]. split; [eauto|done].
Qed.

Lemma dict_get_app {V : Type} (d1 d2 : list (string * V)) k :
  Py.dict_get (d1 ++ d2) k =
  match Py.dict_get d1 k with
  | Some v => Some v
  | None => Py.dict_get d2 k
  end.
Proof.
  induction d1 as [|[k' v] d1 IH]; cbn; [done|].
  by destruct (String.eqb k' k).
Qed.

Lemma dict_get_alter {V : Type} (f : V -> V) (d : list (string * V)) k k' :
  Py.dict_get (Dict.alter f k d) k' =
  if String.eqb k k' then f <$> Py.dict_get d k' else Py.dict_get d k'.
Proof.
  induction d as [|[k0 v] d IH]; cbn.
  - by destruct (String.eqb k k').
  - destruct (String.eqb_spec k0 k) as [->|Hne]; cbn.
    + by destruct (String.eqb_spec k k').
    + destruct (String.eqb_spec k0 k') as [->|Hne'].
      * destruct (String.eqb_spec k k') as [->|_]; done.
      * apply IH.
Qed.

Lemma dict_get_upsert {V : Type} (init : V) f (d : list (string * V)) k k' :
  Py.dict_get (Dict.upsert init f d k) k' =
  if String.eqb k k' then Some (f (Dict.get_default d k init))
  else Py.dict_get d k'.
Proof.
  unfold Dict.upsert, Dict.get_default. rewrite dict_get_alter.
  destruct (String.eqb_spec k k') as [<-|Hne].
  - destruct (Dict.contains d k) eqn:E.
    + apply dict_contains_get in E as [v ->]. done.
    + assert (Py.dict_get d k = None) as Hn.
      { destruct (Py.dict_get d k) eqn:G; [|done].
        assert (Dict.contains d k = true) by (apply dict_contains_get; eauto).
        congruence. }
      rewrite dict_get_app, Hn. cbn. by rewrite String.eqb_refl.
  - destruct (Dict.contains d k); [done|].
    rewrite dict_get_app. destruct (Py.dict_get d k'); [done|].
    cbn. by destruct (String.eqb_spec k k').
Qed.

Lemma keys_alter {V : Type} (f : V -> V) k (d : list (string * V)) :
  map fst (Dict.alter f k d) = map fst d.
Proof.
  induction d as [|[k0 v] d IH]; cbn; [done|].
  destruct (String.eqb k0 k); cbn; [done|]. by rewrite IH.
Qed.

Lemma dict_contains_keys {V : Type} (d : list (string * V)) k :
  Dict.contains d k = true <-> k ∈ map fst d.
Proof.
  unfold Dict.contains. rewrite existsb_exists, list_elem_of_In, in_map_iff.
  split; intros ([k' v] & H1 & H2); exists (k', v); cbn in *.
  - apply String.eqb_eq in H2. done.
  - subst. split; [done|]. apply String.eqb_refl.
Qed.

Lemma keys_upsert_NoDup {V : Type} (init : V) f (d : list (string * V)) k :
  NoDup (map fst d) -> NoDup (map fst (Dict.upsert init f d k)).
Proof.
  intros Hnd. unfold Dict.upsert. rewrite keys_alter.
  destruct (Dict.contains d k) eqn:E; [done|].
  rewrite map_app. cbn. apply NoDup_app. split; [done|].
  split; [|apply NoDup_singleton].
  intros x Hx ->%list_elem_of_singleton.
  apply dict_contains_keys in Hx. congruence.
Qed.

(** What a grouping loop leaves under each key. *)
Lemma grouping_loop (items : list (string * string)) :
  forall d key,
    Py.dict_get
      (foldl (fun d item =>
                Dict.upsert [] (fun vs => (vs ++ [item.2])%list) d item.1)
         d items) key
    = match Py.dict_get d key, grouped_under key items with
      | None, [] => None
      | o, vs => Some (default [] o ++ vs)%list
      end.
Proof.
  induction items as [|[k v] items IH]; intros d key; cbn [foldl].
  - unfold grouped_under. cbn. destruct (Py.dict_get d key); [|done].
    by rewrite app_nil_r.
  - rewrite IH, dict_get_upsert. unfold grouped_under. rewrite filter_cons.
    cbn [fst snd]. unfold Dict.get_default.
    destruct (String.eqb_spec k key) as [->|Hne].
    + rewrite decide_True by done. cbn [map].
      destruct (Py.dict_get d key) as [vs|]; cbn.
      * by rewrite <- app_assoc.
      * done.
    + rewrite decide_False by done. done.
Qed.

Lemma grouping_loop_keys (items : list (string * string)) :
  forall d,
    NoDup (map fst d) ->
    NoDup (map fst
             (foldl (fun d item =>
                       Dict.upsert [] (fun vs => (vs ++ [item.2])%list)
                         d item.1)
                d items)).
Proof.
  induction items as [|[k v] items IH]; intros d Hd; cbn [foldl]; [done|].
  apply IH. by apply keys_upsert_NoDup.
Qed.

(** ** Comparison of doubles is transitive *)

Lemma SFleb_trans x y z :
  SFleb x y = true -> SFleb y z = true -> SFleb x z = true.
Proof.
  unfold SFleb, SFcompare.
  destruct x as [[]|[]| |[] mx ex], y as [[]|[]| |[] my ey];
    try discriminate; destruct z as [[]|[]| |[] mz ez];
    try discriminate; try reflexivity;
    change (Pos.compare_cont Eq ?a ?b) with (a ?= b)%positive;
    repeat match goal with
      | |- context [(?a ?= ?b)%Z] =>
          destruct (Z.compare_spec a b); try subst
      | |- context [(?a ?= ?b)%positive] =>
          destruct (Pos.compare_spec a b); try subst
      end;
    cbn; try discriminate; try reflexivity; intros; lia.
Qed.

Lemma leb_trans x y z :
  (x <=? y)%float = true -> (y <=? z)%float = true -> (x <=? z)%float = true.
Proof. rewrite !leb_spec. apply SFleb_trans. Qed.

(** ** [get_workflow_categories] and [get_workflow_details] *)

Lemma foldl_map {A B C : Type} (f : A -> B -> A) (g : C -> B) (l : list C) :
  forall a, foldl f a (map g l) = foldl (fun a x => f a (g x)) a l.
Proof. induction l as [|x l IH]; intros a; cbn; [done|]. apply IH. Qed.

Lemma get_workflow_categories_items self :
  get_workflow_categories self
  = foldl (fun d item =>
             Dict.upsert [] (fun vs => (vs ++ [item.2])%list) d item.1)
      [] (map (fun entry => (tpl_category entry.2, entry.1))
            (workflow_templates self)).
Proof. unfold get_workflow_categories. by rewrite foldl_map. Qed.

Lemma grouped_under_templates cat (l : list (string * WorkflowTemplate)) :
  grouped_under cat (map (fun entry => (tpl_category entry.2, entry.1)) l)
  = map fst (filter (fun entry => tpl_category entry.2 = cat) l).
Proof.
  unfold grouped_under. induction l as [|e l IH]; [done|].
  cbn [map]. rewrite !filter_cons. cbn [fst snd].
  destruct (decide (tpl_category e.2 = cat)); cbn [map]; by rewrite IH.
Qed.

Lemma workflow_categories_get self cat :
  Py.dict_get (get_workflow_categories self) cat
  = match map fst (filter (fun entry => tpl_category entry.2 = cat)
                     (workflow_templates self)) with
    | [] => None
    | names => Some names
    end.
Proof.
  rewrite get_workflow_categories_items, grouping_loop. cbn [Py.dict_get].
  rewrite grouped_under_templates. by destruct (map fst _).
Qed.

(** X1: in the dictionary of [get_workflow_categories] a category holds the
    names of the templates of that category, in catalog order, and a
    category without a template is no key; the keys are distinct. *)
Theorem workflow_categories_listing (self : WorkflowMatcher) (cat : string) :
  let names :=
    map fst (filter (fun entry => tpl_category entry.2 = cat)
               (workflow_templates self)) in
  Py.dict_get (get_workflow_categories self) cat
  = match names with
    | [] => None
    | _ => Some names
    end
  /\ NoDup (map fst (get_workflow_categories self)).
Proof.
  cbv zeta. split.
  - rewrite workflow_categories_get. by destruct (map fst _).
  - rewrite get_workflow_categories_items.
    apply grouping_loop_keys. constructor.
Qed.

Lemma alter_values_perm (v : string) k (d : list (string * list string)) :
  k ∈ map fst d ->
  concat (map snd (Dict.alter (fun vs => (vs ++ [v])%list) k d))
  ≡ₚ (concat (map snd d) ++ [v])%list.
Proof.
  induction d as [|[k0 vs] d IH]; cbn.
  - intros H. by apply elem_of_nil in H.
  - intros H. destruct (String.eqb_spec k0 k) as [->|Hne]; cbn.
    + rewrite <- !app_assoc. apply Permutation_app_head, Permutation_app_comm.
    + apply elem_of_cons in H as [->|H]; [done|].
      rewrite IH by done. by rewrite app_assoc.
Qed.

Lemma upsert_values_perm (v : string) k (d : list (string * list string)) :
  concat (map snd (Dict.upsert [] (fun vs => (vs ++ [v])%list) d k))
  ≡ₚ (concat (map snd d) ++ [v])%list.
Proof.
  unfold Dict.upsert. destruct (Dict.contains d k) eqn:E.
  - apply alter_values_perm. by apply dict_contains_keys.
  - rewrite alter_values_perm.
    + rewrite map_app, concat_app. cbn. by rewrite app_nil_r.
    + rewrite map_app. apply elem_of_app. right. cbn. left.
Qed.

Lemma grouping_loop_values (items : list (string * string)) :
  forall d,
    concat (map snd
              (foldl (fun d item =>
                        Dict.upsert [] (fun vs => (vs ++ [item.2])%list)
                          d item.1)
                 d items))
    ≡ₚ (concat (map snd d) ++ map snd items)%list.
Proof.
  induction items as [|[k v] items IH]; intros d; cbn [foldl map].
  - by rewrite app_nil_r.
  - rewrite IH, upsert_values_perm. cbn [snd]. by rewrite <- app_assoc.
Qed.

(** X2: [get_workflow_categories] files every workflow of the catalog under
    some category exactly once: its lists, taken together, are the names of
    the catalog up to order. *)
Theorem workflow_categories_partition (self : WorkflowMatcher) :
  concat (map snd (get_workflow_categories self))
  ≡ₚ map fst (workflow_templates self).
Proof.
  rewrite get_workflow_categories_items, grouping_loop_values. cbn.
  rewrite map_map. cbn. done.
Qed.

Lemma dict_get_elem_of {V : Type} (d : list (string * V)) k v :
  Py.dict_get d k = Some v -> (k, v) ∈ d.
Proof.
  induction d as [|[k' v'] d IH]; cbn; [done|].
  destruct (String.eqb_spec k' k) as [->|Hne].
  - intros [= ->]. left.
  - intros H. right. by apply IH.
Qed.

Lemma dict_get_unique {V : Type} (d : list (string * V)) k v :
  NoDup (map fst d) -> (k, v) ∈ d -> Py.dict_get d k = Some v.
Proof.
  intros Hnd Hin. destruct (Py.dict_get d k) as [v'|] eqn:E.
  - apply dict_get_elem_of in E. by rewrite (unique_key d k v v' Hnd Hin E).
  - assert (Dict.contains d k = true) as Hc.
    { apply dict_contains_keys, list_elem_of_In, in_map_iff.
      exists (k, v). by rewrite <- list_elem_of_In. }
    apply dict_contains_get in Hc as [? Hc]. congruence.
Qed.

(** X3: in a catalog with distinct names, [get_workflow_details] finds
    exactly the templates of the catalog: it returns a template for a name
    if and only if the catalog declares that template under that name, and
    [None] for a name the catalog does not have. *)
Theorem workflow_details_lookup (self : WorkflowMatcher)
    (workflow_name : string) :
  NoDup (map fst (workflow_templates self)) ->
  (forall tpl,
     get_workflow_details self workflow_name = Some tpl
     <-> (workflow_name, tpl) ∈ workflow_templates self)
  /\ (get_workflow_details self workflow_name = None
      <-> workflow_name ∉ map fst (workflow_templates self)).
Proof.
  intros Hnd. unfold get_workflow_details. split.
  - intros tpl. split; [apply dict_get_elem_of|by apply dict_get_unique].
  - rewrite <- dict_contains_keys, dict_contains_get.
    destruct (Py.dict_get _ _) as [tpl|].
    + split; [done|]. intros H. destruct H. eauto.
    + split; [|done]. by intros _ [? ?].
Qed.

Lemma workflow_details_lookup_witness :
  NoDup (map fst (workflow_templates __init__))
  /\ (get_workflow_details __init__ "no-such-workflow" = None
      <-> "no-such-workflow" ∉ map fst (workflow_templates __init__)).
Proof.
  split; [exact catalog_names_unique|].
  exact (proj2 (workflow_details_lookup __init__ "no-such-workflow"
                  catalog_names_unique)).
Defined.

(** ** What a suggestion carries *)

(** X4: every suggestion returned by [match_workflows] bears the name of a
    catalog template, which [get_workflow_details] finds, and carries that
    template's category, time estimate and prerequisites unchanged. *)
Theorem suggestion_metadata (self : WorkflowMatcher) (a : AnalysisResults)
    (s : WorkflowSuggestion) :
  NoDup (map fst (workflow_templates self)) ->
  s ∈ match_workflows self a ->
  exists tpl,
    get_workflow_details self (name s) = Some tpl
    /\ category s = tpl_category tpl
    /\ estimated_time s = tpl_estimated_time tpl
    /\ prerequisites s = tpl_prerequisites tpl.
Proof.
  intros Hnd (_ & [n tpl] & Hin & ->)%elem_of_match_workflows.
  exists tpl. cbn. split; [|done].
  by apply dict_get_unique.
Qed.

Lemma suggestion_metadata_witness :
  NoDup (map fst (workflow_templates __init__))
  /\ forall s, s ∈ match_workflows __init__ example_analysis ->
       exists tpl,
         get_workflow_details __init__ (name s) = Some tpl
         /\ category s = tpl_category tpl
         /\ estimated_time s = tpl_estimated_time tpl
         /\ prerequisites s = tpl_prerequisites tpl.
Proof.
  split; [exact catalog_names_unique|].
  intros s Hs.
  exact (suggestion_metadata __init__ example_analysis s
           catalog_names_unique Hs).
Defined.

(** X5: the matched triggers of a suggestion are exactly the declared
    triggers of the template whose lower-case form is a detected item; they
    come tier by tier (strong, medium, weak) in declaration order. *)
Theorem matched_triggers_listing (self : WorkflowMatcher)
    (workflow_name : string) (tpl : WorkflowTemplate) (items : list string) :
  let trg := tpl_triggers tpl in
  let s := _calculate_workflow_confidence self workflow_name tpl items in
  (forall t,
     t ∈ triggers s
     <-> (t ∈ strong trg \/ t ∈ medium trg \/ t ∈ weak trg)
         /\ Py.lower t ∈ items)
  /\ triggers s `sublist_of` (strong trg ++ medium trg ++ weak trg)%list
  /\ triggers s
     = filter (fun t => Py.lower t ∈ items)
         (strong trg ++ medium trg ++ weak trg)%list.
Proof.
  cbv zeta. unfold _calculate_workflow_confidence. cbn [triggers flat_map].
  rewrite app_nil_r.
  assert (E : forall tier,
            matched_items tier items
            = filter (fun t => Py.lower t ∈ items) tier).
  { intros tier. unfold matched_items. apply list_filter_iff.
    intros t. apply contains_spec. }
  rewrite !E, <- !filter_app. split; [|split; [apply sublist_filter|done]].
  intros t. rewrite list_elem_of_filter, !elem_of_app. tauto.
Qed.

Lemma clause_head label c rest n tier items x :
  label = String c rest -> clause label n tier items = [x] ->
  exists rest', x = String c rest'.
Proof.
  intros -> H. unfold clause in H. destruct (0 <? n)%nat; [|done].
  injection H as <-. cbn. eauto.
Qed.

Lemma join_head sep c rest parts :
  exists rest', Py.join sep (String c rest :: parts) = String c rest'.
Proof. unfold Py.join. cbn. destruct parts; cbn; eauto. Qed.

Lemma matched_items_of_count tier items :
  forallb is_lower tier = true ->
  matched_items tier items = [] <-> Py.len_set_inter tier items = 0.
Proof.
  intros Hl. rewrite matched_items_nil, len_set_inter_zero.
  assert (Hfix : forall t, t ∈ tier -> Py.lower t = t).
  { intros t Ht. apply is_lower_spec.
    rewrite forallb_forall in Hl. by apply Hl, list_elem_of_In. }
  split; intros H t Ht Hi; apply (H t Ht).
  - by rewrite (Hfix t Ht).
  - by rewrite <- (Hfix t Ht).
Qed.

Lemma reasoning_not_generic tpl items :
  lowercase_triggers tpl = true ->
  1 <= strong_count tpl items + medium_count tpl items + weak_count tpl items ->
  _generate_reasoning (strong_count tpl items) (medium_count tpl items)
    (weak_count tpl items) (tpl_triggers tpl) items <> generic_reasoning.
Proof.
  intros Hl Hpos. unfold _generate_reasoning, clause.
  destruct (Nat.ltb_spec 0 (strong_count tpl items));
    destruct (Nat.ltb_spec 0 (medium_count tpl items));
    destruct (Nat.ltb_spec 0 (weak_count tpl items));
    try lia; cbn [app];
    match goal with
    | |- Py.join ?sep (?x :: ?parts) <> _ =>
        let x' := eval lazy beta iota fix delta [String.append] in x in
        change x with x';
        match x' with
        | String ?c ?rest =>
            destruct (join_head sep c rest parts) as [rest' ->]
        end
    end; discriminate.
Qed.

(** X6: with the catalog of [__init__] the generic reasoning is never
    emitted: every suggestion returned by [match_workflows] lists at least
    one matched trigger, and its reasoning names indicators rather than
    being the generic sentence. *)
Theorem emitted_suggestion_is_explained (a : AnalysisResults)
    (s : WorkflowSuggestion) :
  s ∈ match_workflows __init__ a ->
  triggers s <> [] /\ reasoning s <> generic_reasoning.
Proof.
  intros (Hfloor & [n tpl] & Hin & ->)%elem_of_match_workflows.
  cbn [fst snd] in *. set (items := _extract_detected_items _ _) in *.
  pose proof (catalog_template_lowercase n tpl Hin) as Hl.
  unfold above_floor in Hfloor.
  rewrite confidence_value in Hfloor by reflexivity.
  rewrite value_of_rank_floor in Hfloor by apply score_rank_le_4.
  apply Nat.leb_le, score_rank_pos in Hfloor.
  split; [|by apply reasoning_not_generic].
  unfold _calculate_workflow_confidence. cbn [triggers flat_map].
  rewrite app_nil_r. intros E.
  apply app_eq_nil in E as [E1 [E2 E3]%app_eq_nil].
  unfold lowercase_triggers in Hl.
  apply andb_prop in Hl as [[Hs Hm]%andb_prop Hw].
  apply matched_items_of_count in E1, E2, E3; try done.
  unfold strong_count, medium_count, weak_count in Hfloor. lia.
Qed.

Lemma emitted_suggestion_is_explained_witness :
  let s :=
    _calculate_workflow_confidence __init__ "component-library"
      (template "frontend" "15-30 minutes"
         ["React/Vue/Angular"; "components folder"]
         ["react"; "vue"; "angular"; "components/"]
         ["jsx"; "tsx"; "vue"; "svelte"]
         ["src/"; "lib/"]
         "Create comprehensive component library with documentation and testing")
      (_extract_detected_items (dependencies example_analysis)
         (patterns example_analysis)) in
  s ∈ match_workflows __init__ example_analysis
  /\ triggers s <> [] /\ reasoning s <> generic_reasoning.
Proof.
  cbv zeta.
  match goal with |- ?s ∈ _ /\ _ =>
    assert (Hin : s ∈ match_workflows __init__ example_analysis)
  end.
  { apply computed_in_output; [|vm_compute; reflexivity].
    apply list_elem_of_In. cbn. left. reflexivity. }
  split; [exact Hin|].
  exact (emitted_suggestion_is_explained example_analysis _ Hin).
Defined.

(** X7: when nothing was detected, every template scores [0] and
    [match_workflows] returns no suggestion. *)
Theorem nothing_detected_nothing_suggested (self : WorkflowMatcher) :
  confidence_weights self = default_weights ->
  match_workflows self empty_analysis = []
  /\ forall workflow_name tpl,
       confidence
         (_calculate_workflow_confidence self workflow_name tpl []) = 0%float.
Proof.
  intros Hw.
  assert (Hzero : forall workflow_name tpl,
            confidence
              (_calculate_workflow_confidence self workflow_name tpl [])
            = 0%float).
  { intros n tpl. rewrite confidence_value by done.
    unfold strong_count, medium_count, weak_count.
    assert (Hz : forall tier, Py.len_set_inter tier [] = 0).
    { intros tier. apply len_set_inter_zero. intros t _ H.
      by apply elem_of_nil in H. }
    by rewrite !Hz. }
  split; [|done].
  destruct (match_workflows self empty_analysis) as [|s l] eqn:E; [done|].
  assert (Hs : s ∈ match_workflows self empty_analysis) by (rewrite E; left).
  apply elem_of_match_workflows in Hs as (Hfloor & [n tpl] & _ & ->).
  unfold above_floor in Hfloor. cbn in Hfloor.
  change (Py.min _ 1) with
    (confidence (_calculate_workflow_confidence self n tpl [])) in Hfloor.
  rewrite Hzero in Hfloor. discriminate.
Qed.

Lemma nothing_detected_nothing_suggested_witness :
  confidence_weights __init__ = default_weights
  /\ match_workflows __init__ empty_analysis = [].
Proof.
  split; [reflexivity|].
  exact (proj1 (nothing_detected_nothing_suggested __init__ eq_refl)).
Defined.

(** ** [filter_suggestions] *)

Lemma truthy_spec c : Py.truthy c = true <-> c <> "".
Proof. destruct c; cbn; split; done. Qed.


Lemma filter_all {A : Type} (P : A -> Prop) `{!forall x, Decision (P x)}
    (l : list A) :
  Forall P l -> filter P l = l.
Proof.
  induction 1 as [|x l Hx Hl IH]; [done|].
  rewrite filter_cons, decide_True by done. by rewrite IH.
Qed.

Lemma StronglySorted_filter {A : Type} (R : A -> A -> Prop) (P : A -> Prop)
    `{!forall x, Decision (P x)} (l : list A) :
  StronglySorted R l -> StronglySorted R (filter P l).
Proof.
  induction 1 as [|x l Hs IH Hx]; [constructor|].
  rewrite filter_cons. destruct (decide (P x)); [|done].
  constructor; [done|]. rewrite Forall_forall in Hx |- *.
  intros y Hy. apply list_elem_of_filter in Hy as [_ Hy]. by apply Hx.
Qed.

Lemma suggested_at_least_half self a s :
  confidence_weights self = default_weights ->
  s ∈ match_workflows self a -> (0.5 <=? confidence s)%float = true.
Proof.
  intros Hw (Hfloor & [n t] & _ & ->)%elem_of_match_workflows.
  cbn [fst snd] in *. unfold above_floor in Hfloor.
  rewrite confidence_value in Hfloor by done.
  rewrite confidence_value by done.
  set (r := score_rank _ _ _) in *.
  pose proof (score_rank_le_4 _ _ _ : r <= 4) as Hr.
  rewrite value_of_rank_floor in Hfloor by done.
  apply Nat.leb_le in Hfloor.
  change 0.5%float with (value_of_rank 1).
  rewrite value_of_rank_leb by lia. apply Nat.leb_le. lia.
Qed.

(** X9: with the weights of [__init__], filtering the output of
    [match_workflows] by a threshold of at most [0.5], without a category,
    removes nothing: every suggestion returned already has a confidence of
    at least [0.5]. *)
Theorem low_threshold_keeps_all (self : WorkflowMatcher) (a : AnalysisResults)
    (min_confidence : float) :
  confidence_weights self = default_weights ->
  (min_confidence <=? 0.5)%float = true ->
  filter_suggestions (match_workflows self a) None min_confidence
  = match_workflows self a.
Proof.
  intros Hw Hm. unfold filter_suggestions. cbv zeta.
  destruct (0 <? min_confidence)%float; [|done].
  apply filter_all, Forall_forall. intros s Hs. unfold Py.ge.
  apply (leb_trans _ 0.5); [done|].
  by apply (suggested_at_least_half self a).
Qed.

Lemma low_threshold_keeps_all_witness :
  confidence_weights __init__ = default_weights
  /\ (0.3 <=? 0.5)%float = true
  /\ filter_suggestions (match_workflows __init__ example_analysis) None 0.3
     = match_workflows __init__ example_analysis.
Proof.
  split; [reflexivity|]. split; [reflexivity|].
  exact (low_threshold_keeps_all __init__ example_analysis 0.3 eq_refl eq_refl).
Defined.

(** X10: with the weights of [__init__], whatever the filter, the filtered
    output of [match_workflows] is still in descending order of
    confidence. *)
Theorem filtered_suggestions_sorted (self : WorkflowMatcher)
    (a : AnalysisResults) (category_filter : option string)
    (min_confidence : float) :
  confidence_weights self = default_weights ->
  StronglySorted conf_ge
    (filter_suggestions (match_workflows self a) category_filter
       min_confidence).
Proof.
  intros Hw.
  assert (Hs : StronglySorted conf_ge (match_workflows self a)).
  { unfold match_workflows.
    apply sort_by_confidence_desc_sorted. by apply emitted_ranked. }
  unfold filter_suggestions. cbv zeta.
  destruct category_filter as [c|]; [destruct (Py.truthy c)|];
    destruct (0 <? min_confidence)%float;
    repeat apply StronglySorted_filter; done.
Qed.

Lemma filtered_suggestions_sorted_witness :
  confidence_weights __init__ = default_weights
  /\ StronglySorted conf_ge
       (filter_suggestions (match_workflows __init__ example_analysis)
          (Some "testing") 0.8).
Proof.
  split; [reflexivity|].
  exact (filtered_suggestions_sorted __init__ example_analysis
           (Some "testing") 0.8 eq_refl).
Defined.

(** X11: a suggestion that [filter_suggestions] keeps for a category is a
    workflow that [get_workflow_categories] lists under that category. *)
Theorem filtered_category_is_listed (self : WorkflowMatcher)
    (a : AnalysisResults) (c : string) (min_confidence : float)
    (s : WorkflowSuggestion) :
  c <> "" ->
  s ∈ filter_suggestions (match_workflows self a) (Some c) min_confidence ->
  name s ∈ Dict.get_default (get_workflow_categories self) c [].
Proof.
  intros Hc Hs.
  assert (Hin : s ∈ match_workflows self a /\ category s = c).
  { unfold filter_suggestions in Hs. cbv zeta in Hs.
    apply truthy_spec in Hc. rewrite Hc in Hs.
    destruct (0 <? min_confidence)%float;
      repeat apply list_elem_of_filter in Hs as [? Hs];
      try apply list_elem_of_filter in Hs as [? Hs]; done. }
  destruct Hin as [(_ & [n tpl] & He & ->)%elem_of_match_workflows Hcat].
  cbn in Hcat |- *. unfold Dict.get_default.
  rewrite workflow_categories_get.
  assert (Hn : n ∈ map fst (filter (fun entry => tpl_category entry.2 = c)
                             (workflow_templates self))).
  { apply list_elem_of_In, in_map_iff. exists (n, tpl). split; [done|].
    apply list_elem_of_In, list_elem_of_filter. done. }
  destruct (map fst _); [by apply elem_of_nil in Hn|done].
Qed.

Lemma filtered_category_is_listed_witness :
  let s :=
    _calculate_workflow_confidence __init__ "frontend-testing"
      (template "testing" "20-40 minutes"
         ["Frontend framework"; "Test files"]
         ["jest"; "vitest"; "cypress"; "playwright"]
         ["tests/"; "__tests__"; "spec/"]
         ["test"; "spec"]
         "Set up comprehensive frontend testing suite")
      (_extract_detected_items (dependencies example_analysis)
         (patterns example_analysis)) in
  "testing" <> ""
  /\ s ∈ filter_suggestions (match_workflows __init__ example_analysis)
           (Some "testing") 0.8
  /\ name s ∈ Dict.get_default (get_workflow_categories __init__) "testing" [].
Proof.
  cbv zeta.
  match goal with |- _ /\ ?s ∈ _ /\ _ =>
    assert (Hin : s ∈ match_workflows __init__ example_analysis)
  end.
  { apply computed_in_output; [|vm_compute; reflexivity].
    apply list_elem_of_In. cbn. do 2 right. left. reflexivity. }
  match goal with |- _ /\ ?s ∈ ?l /\ _ => assert (Hf : s ∈ l) end.
  { unfold filter_suggestions. cbv zeta.
    change (Py.truthy "testing") with true.
    change (0 <? 0.8)%float with true. cbv iota.
    apply list_elem_of_filter. split; [vm_compute; reflexivity|].
    apply list_elem_of_filter. split; [reflexivity|exact Hin]. }
  split; [discriminate|]. split; [exact Hf|].
  exact (filtered_category_is_listed __init__ example_analysis "testing" 0.8 _
           ltac:(discriminate) Hf).
Defined.

(** ** Sorting strings *)

Lemma string_compare_lt_trans a : forall b c,
  String.compare a b = Lt -> String.compare b c = Lt ->
  String.compare a c = Lt.
Proof.
  induction a as [|x a IH]; intros [|y b] [|z c]; cbn; try done.
  unfold Ascii.compare.
  destruct (N.compare_spec (N_of_ascii x) (N_of_ascii y)) as [Exy|Hxy|Hxy];
    destruct (N.compare_spec (N_of_ascii y) (N_of_ascii z)) as [Eyz|Hyz|Hyz];
    try done.
  - rewrite Exy, Eyz, N.compare_refl. apply IH.
  - intros _ _. rewrite Exy. by apply N.compare_lt_iff in Hyz as ->.
  - intros _ _. rewrite <- Eyz. by apply N.compare_lt_iff in Hxy as ->.
  - intros _ _.
    assert (N_of_ascii x < N_of_ascii z)%N as ->%N.compare_lt_iff by lia.
    done.
Qed.

Lemma string_compare_refl a : String.compare a a = Eq.
Proof.
  induction a as [|x a IH]; cbn; [done|].
  unfold Ascii.compare. by rewrite N.compare_refl.
Qed.

Lemma string_le_trans a b c : string_le a b -> string_le b c -> string_le a c.
Proof.
  unfold string_le, String.leb.
  destruct (String.compare a b) eqn:Eab; [| |done].
  - apply String.compare_eq_iff in Eab as ->. done.
  - intros _. destruct (String.compare b c) eqn:Ebc; [| |done]; intros _.
    + apply String.compare_eq_iff in Ebc as <-. by rewrite Eab.
    + by rewrite (string_compare_lt_trans a b c).
Qed.

Lemma string_ltb_le a b : String.ltb a b = true -> string_le a b.
Proof.
  unfold String.ltb, string_le, String.leb.
  destruct (String.compare a b); intros H; first [done|discriminate H].
Qed.

Lemma string_nltb_le a b : String.ltb a b = false -> string_le b a.
Proof.
  unfold String.ltb, string_le, String.leb.
  rewrite (String.compare_antisym b a).
  destruct (String.compare a b); intros H; first [done|discriminate H].
Qed.

Lemma insert_string_perm x l : insert_string x l ≡ₚ x :: l.
Proof.
  induction l as [|y l IH]; cbn [insert_string]; [done|].
  destruct (String.ltb x y); [done|]. rewrite IH. apply Permutation_swap.
Qed.

Lemma sort_strings_perm l : sort_strings l ≡ₚ l.
Proof.
  induction l as [|x l IH]; cbn; [done|].
  fold (sort_strings l). by rewrite insert_string_perm, IH.
Qed.

Lemma insert_string_sorted x l :
  StronglySorted string_le l -> StronglySorted string_le (insert_string x l).
Proof.
  induction 1 as [|y l Hs IH Hy]; cbn [insert_string].
  - constructor; constructor.
  - destruct (String.ltb x y) eqn:E.
    + apply string_ltb_le in E. constructor; [by constructor|].
      constructor; [done|]. rewrite Forall_forall in Hy |- *.
      intros z Hz. apply (string_le_trans x y z); auto.
    + apply string_nltb_le in E. constructor; [done|].
      rewrite insert_string_perm. by constructor.
Qed.

Lemma sort_strings_sorted l : StronglySorted string_le (sort_strings l).
Proof.
  induction l as [|x l IH]; cbn; [constructor|].
  by apply insert_string_sorted.
Qed.

(** ** The dependency analyzer *)

Lemma default_mapping_categories :
  forallb (fun item =>
             Py.contains
               ["frontend"; "backend"; "testing"; "build"; "database";
                "documentation"]
               (map_category item.2))
    (framework_mappings DependencyAnalyzer__init__) = true.
Proof. vm_compute. reflexivity. Qed.

(** X12: [_create_dependency_info] keeps the name as given and always sets
    a category, one of the six labels of the table or ["unknown"]; the
    category depends on the name only up to the case of its letters. *)
Theorem created_dependency_category (name version dep_type : string) :
  let dep :=
    _create_dependency_info DependencyAnalyzer__init__ name version dep_type in
  dep_name dep = name
  /\ (exists c,
        dep_category dep = Some c
        /\ c ∈ ["frontend"; "backend"; "testing"; "build"; "database";
                "documentation"; "unknown"])
  /\ forall name' version' dep_type',
       Py.lower name' = Py.lower name ->
       dep_category
         (_create_dependency_info DependencyAnalyzer__init__ name' version'
            dep_type')
       = dep_category dep.
Proof.
  cbv zeta. split; [done|]. split.
  - eexists. split; [reflexivity|]. unfold mapped_category.
    change ["frontend"; "backend"; "testing"; "build"; "database";
            "documentation"; "unknown"]
      with (["frontend"; "backend"; "testing"; "build"; "database";
             "documentation"] ++ ["unknown"])%list.
    apply elem_of_app.
    destruct (Py.dict_get _ _) as [m|] eqn:E.
    + apply dict_get_elem_of, list_elem_of_In in E.
      pose proof default_mapping_categories as H.
      rewrite forallb_forall in H. pose proof (H _ E) as Hc.
      cbn [snd] in Hc. apply contains_spec in Hc. by left.
    + right. left.
  - intros name' version' dep_type' E. cbn. unfold mapped_category. by rewrite E.
Qed.

(** X13: a dependency whose name the table does not know is created with the
    category ["unknown"], and the flattener then reports ["unknown"] among
    the detected items. *)
Theorem unmapped_dependency_is_unknown (self : DependencyAnalyzer)
    (name version dep_type : string) (before after : list DependencyInfo)
    (p : Patterns) :
  Py.dict_get (framework_mappings self) (Py.lower name) = None ->
  let dep := _create_dependency_info self name version dep_type in
  dep_category dep = Some "unknown"
  /\ "unknown" ∈ _extract_detected_items (before ++ dep :: after) p.
Proof.
  intros Hnone dep.
  assert (Hc : dep_category dep = Some "unknown").
  { cbn. unfold mapped_category. by rewrite Hnone. }
  split; [done|].
  unfold _extract_detected_items. apply list_elem_of_In, in_map_iff.
  exists "unknown". split; [done|].
  rewrite in_app_iff. left. apply in_flat_map. exists dep. split.
  - apply in_app_iff. right. by left.
  - apply list_elem_of_In, elem_of_dep_items. right. by exists "unknown".
Qed.

Lemma unmapped_dependency_is_unknown_witness :
  Py.dict_get (framework_mappings DependencyAnalyzer__init__)
    (Py.lower "Lodash") = None
  /\ "unknown"
     ∈ _extract_detected_items
         ([] ++ _create_dependency_info DependencyAnalyzer__init__ "Lodash"
                  "^4.17.21" "production" :: [])
         no_patterns.
Proof.
  split; [reflexivity|].
  exact (proj2 (unmapped_dependency_is_unknown DependencyAnalyzer__init__
                  "Lodash" "^4.17.21" "production" [] [] no_patterns
                  eq_refl)).
Defined.

(** *** The first loop of [get_framework_summary] *)

Lemma summary_loop_get self deps : forall acc c,
  Py.dict_get (foldl (summary_step self) acc deps).2 c
  = match Py.dict_get acc.2 c,
          filter (fun dep => mapped_category self (dep_name dep) = c) deps with
    | None, [] => None
    | o, ds => Some (filed self ds (default empty_category o))
    end.
Proof.
  induction deps as [|dep deps IH]; intros acc c; cbn [foldl].
  - cbn. by destruct (Py.dict_get acc.2 c).
  - rewrite IH. unfold summary_step. cbn [snd].
    rewrite dict_get_upsert, filter_cons. unfold Dict.get_default.
    destruct (String.eqb_spec (mapped_category self (dep_name dep)) c)
      as [->|Hne].
    + rewrite decide_True by done.
      destruct (Py.dict_get acc.2 _) as [cs|]; done.
    + rewrite decide_False by done. done.
Qed.

Lemma filed_dependencies self deps : forall cs,
  cs_dependencies (filed self deps cs)
  = (cs_dependencies cs ++ map dep_name deps)%list.
Proof.
  induction deps as [|dep deps IH]; intros cs; cbn.
  - by rewrite app_nil_r.
  - unfold filed in IH. rewrite IH. cbn. by rewrite <- app_assoc.
Qed.

Lemma dict_get_map_values {V W : Type} (g : V -> W) (d : list (string * V)) k :
  Py.dict_get (map (fun item => (item.1, g item.2)) d) k
  = g <$> Py.dict_get d k.
Proof.
  induction d as [|[k' v] d IH]; cbn; [done|].
  by destruct (String.eqb k' k).
Qed.

(** X14: in the summary a category holds, as its [dependencies], the names
    of the dependencies that the table files under it, in their order; a
    category without a dependency is no key, and [total_dependencies] is the
    number of dependencies. *)
Theorem summary_files_by_category (self : DependencyAnalyzer)
    (deps : list DependencyInfo) (c : string) :
  let summary := get_framework_summary self deps in
  cs_dependencies <$> Py.dict_get (fs_categories summary) c
  = match names_in_category self c deps with
    | [] => None
    | names => Some names
    end
  /\ fs_total_dependencies summary = length deps.
Proof.
  cbv zeta. split; [|done]. unfold get_framework_summary. cbn [fs_categories].
  rewrite dict_get_map_values, summary_loop_get. cbn [snd Py.dict_get].
  unfold names_in_category. destruct (filter _ deps) as [|d ds]; [done|].
  cbn [fmap option_fmap option_map default sort_category cs_dependencies map].
  rewrite filed_dependencies. done.
Qed.

Lemma alter_measure_perm {V : Type} (g : V -> list string) (f : V -> V)
    (l : list string) k (d : list (string * V)) :
  (forall v, g (f v) ≡ₚ (g v ++ l)%list) -> k ∈ map fst d ->
  concat (map (fun item => g item.2) (Dict.alter f k d))
  ≡ₚ (concat (map (fun item => g item.2) d) ++ l)%list.
Proof.
  intros Hg. induction d as [|[k0 v] d IH]; cbn.
  - intros H. by apply elem_of_nil in H.
  - intros H. destruct (String.eqb_spec k0 k) as [->|Hne]; cbn.
    + rewrite Hg, <- !app_assoc.
      apply Permutation_app_head, Permutation_app_comm.
    + apply elem_of_cons in H as [->|H]; [done|].
      rewrite IH by done. by rewrite app_assoc.
Qed.

Lemma upsert_measure_perm {V : Type} (g : V -> list string) (init : V)
    (f : V -> V) (l : list string) k (d : list (string * V)) :
  g init = [] -> (forall v, g (f v) ≡ₚ (g v ++ l)%list) ->
  concat (map (fun item => g item.2) (Dict.upsert init f d k))
  ≡ₚ (concat (map (fun item => g item.2) d) ++ l)%list.
Proof.
  intros Hi Hg. unfold Dict.upsert. destruct (Dict.contains d k) eqn:E.
  - apply alter_measure_perm; [done|]. by apply dict_contains_keys.
  - rewrite alter_measure_perm; [|done|].
    + rewrite map_app, concat_app. cbn. by rewrite Hi, !app_nil_r.
    + rewrite map_app. apply elem_of_app. right. cbn. left.
Qed.

Lemma summary_loop_measure self (g : CategorySummary -> list string)
    (h : DependencyInfo -> list string) deps :
  g empty_category = [] ->
  (forall dep cs,
     g (file_dependency (dep_name dep) (mapped_type self (dep_name dep)) cs)
     ≡ₚ (g cs ++ h dep)%list) ->
  forall acc,
    concat (map (fun item => g item.2) (foldl (summary_step self) acc deps).2)
    ≡ₚ (concat (map (fun item => g item.2) acc.2) ++ flat_map h deps)%list.
Proof.
  intros Hi Hg. induction deps as [|dep deps IH]; intros acc; cbn [foldl flat_map].
  - by rewrite app_nil_r.
  - rewrite IH. unfold summary_step. cbn [snd].
    rewrite (upsert_measure_perm g _ _ (h dep)); [|done|apply Hg].
    by rewrite <- app_assoc.
Qed.

Lemma summary_loop_keys self deps : forall acc,
  NoDup (map fst acc.2) ->
  NoDup (map fst (foldl (summary_step self) acc deps).2).
Proof.
  induction deps as [|dep deps IH]; intros acc Hnd; cbn [foldl]; [done|].
  apply IH. unfold summary_step. cbn [snd]. by apply keys_upsert_NoDup.
Qed.

Lemma flat_map_singleton {A B : Type} (f : A -> B) (l : list A) :
  flat_map (fun x => [f x]) l = map f l.
Proof. induction l as [|x l IH]; cbn; [done|]. by rewrite IH. Qed.

(** X15: the summary files every dependency under exactly one category:
    the [dependencies] lists of its categories, taken together, are the
    names of the dependencies up to order, and no category occurs twice. *)
Theorem summary_partitions_dependencies (self : DependencyAnalyzer)
    (deps : list DependencyInfo) :
  let summary := get_framework_summary self deps in
  concat (map (fun item => cs_dependencies item.2) (fs_categories summary))
  ≡ₚ map dep_name deps
  /\ NoDup (map fst (fs_categories summary)).
Proof.
  cbv zeta. unfold get_framework_summary. cbn [fs_categories].
  rewrite !map_map. cbn [fst snd sort_category cs_dependencies]. split.
  - rewrite (summary_loop_measure self cs_dependencies
               (fun dep => [dep_name dep])); [|done|done].
    cbn. by rewrite flat_map_singleton.
  - apply summary_loop_keys. constructor.
Qed.

Lemma summary_loop_frameworks self deps : forall acc,
  NoDup acc.1 ->
  NoDup (foldl (summary_step self) acc deps).1
  /\ forall x,
       x ∈ (foldl (summary_step self) acc deps).1
       <-> x ∈ acc.1
           \/ exists dep, dep ∈ deps /\ dep_name dep = x
                /\ mapped_type self (dep_name dep) = "framework".
Proof.
  induction deps as [|dep deps IH]; intros acc Hnd; cbn [foldl].
  - split; [done|]. intros x. split; [by left|].
    intros [H|(dep & H & _)]; [done|]. by apply elem_of_nil in H.
  - destruct (IH (summary_step self acc dep)) as [IH1 IH2].
    { unfold summary_step. cbn [fst].
      destruct (String.eqb _ "framework" && _) eqn:E; [|done].
      apply andb_prop in E as [_ E]. apply negb_true_iff in E.
      apply NoDup_app. split; [done|]. split; [|apply NoDup_singleton].
      intros x Hx ->%list_elem_of_singleton.
      apply contains_spec in Hx. congruence. }
    split; [done|]. intros x. rewrite IH2. unfold summary_step. cbn [fst].
    setoid_rewrite elem_of_cons.
    destruct (String.eqb_spec (mapped_type self (dep_name dep)) "framework")
      as [Ef|Ef]; cbn [andb].
    + destruct (Py.contains acc.1 (dep_name dep)) eqn:Ec; cbn [negb].
      * apply contains_spec in Ec. split.
        -- intros [H|(d & Hd & Hx & Ht)]; [by left|]. right. eauto.
        -- intros [H|(d & [->|Hd] & Hx & Ht)]; [by left| |right; eauto].
           left. by rewrite <- Hx.
      * rewrite elem_of_app, list_elem_of_singleton. split.
        -- intros [[H| ->]|(d & Hd & Hx & Ht)]; [by left| |right; eauto].
           right. exists dep. auto.
        -- intros [H|(d & [->|Hd] & Hx & Ht)];
             [by left; left|by left; right|right; eauto].
    + split.
      * intros [H|(d & Hd & Hx & Ht)]; [by left|]. right. eauto.
      * intros [H|(d & [->|Hd] & Hx & Ht)]; [by left|done|right; eauto].
Qed.

(** X16: the [frameworks] list of the summary names every dependency that
    the table types as a framework, each of them once. *)
Theorem summary_frameworks (self : DependencyAnalyzer)
    (deps : list DependencyInfo) :
  let summary := get_framework_summary self deps in
  NoDup (fs_frameworks summary)
  /\ forall x,
       x ∈ fs_frameworks summary
       <-> exists dep, dep ∈ deps /\ dep_name dep = x
             /\ mapped_type self (dep_name dep) = "framework".
Proof.
  cbv zeta. unfold get_framework_summary. cbn [fs_frameworks].
  destruct (summary_loop_frameworks self deps ([], [])) as [H1 H2];
    [constructor|].
  split; [done|]. intros x. rewrite H2. cbn [fst]. split; [|by right].
  intros [H|H]; [by apply elem_of_nil in H|done].
Qed.

Lemma technologies_of_sorted (d : list (string * CategorySummary)) :
  flat_map (fun item => (cs_frameworks item.2 ++ cs_tools item.2)%list)
    (map (fun item => (item.1, sort_category item.2)) d)
  ≡ₚ concat (map (fun item => (cs_frameworks item.2 ++ cs_tools item.2)%list) d).
Proof.
  induction d as [|[k cs] d IH]; cbn; [done|].
  by rewrite IH, !sort_strings_perm.
Qed.

Lemma file_dependency_technologies self dep cs :
  (cs_frameworks
     (file_dependency (dep_name dep) (mapped_type self (dep_name dep)) cs)
   ++ cs_tools
        (file_dependency (dep_name dep) (mapped_type self (dep_name dep)) cs))%list
  ≡ₚ ((cs_frameworks cs ++ cs_tools cs) ++ technology_name self dep)%list.
Proof.
  unfold file_dependency, technology_name, is_technology. cbn.
  destruct (String.eqb_spec (mapped_type self (dep_name dep)) "framework")
    as [Ef|Ef].
  - rewrite decide_True by by left.
    rewrite <- !app_assoc. apply Permutation_app_head, Permutation_app_comm.
  - destruct (String.eqb_spec (mapped_type self (dep_name dep)) "tool")
      as [Et|Et].
    + rewrite decide_True by by right. by rewrite app_assoc.
    + rewrite decide_False by tauto. by rewrite app_nil_r.
Qed.

Lemma flat_map_technology_name self deps :
  flat_map (technology_name self) deps
  = map dep_name (filter (is_technology self) deps).
Proof.
  induction deps as [|dep deps IH]; [done|].
  cbn [flat_map]. rewrite filter_cons, IH. unfold technology_name.
  by destruct (decide (is_technology self dep)).
Qed.

(** X17: [key_technologies] holds the names of the dependencies that the
    table types as a framework or as a tool, as often as they occur, and
    nothing else. *)
Theorem summary_key_technologies (self : DependencyAnalyzer)
    (deps : list DependencyInfo) :
  fs_key_technologies (get_framework_summary self deps)
  ≡ₚ map dep_name (filter (is_technology self) deps).
Proof.
  unfold get_framework_summary. cbn [fs_key_technologies].
  rewrite technologies_of_sorted.
  rewrite (summary_loop_measure self
             (fun cs => (cs_frameworks cs ++ cs_tools cs)%list)
             (technology_name self)); [|done|].
  - cbn. by rewrite flat_map_technology_name.
  - intros dep cs. apply file_dependency_technologies.
Qed.

Lemma filed_frameworks self deps : forall cs,
  cs_frameworks (filed self deps cs)
  = (cs_frameworks cs
     ++ map dep_name
          (filter (fun dep => mapped_type self (dep_name dep) = "framework")
             deps))%list.
Proof.
  induction deps as [|dep deps IH]; intros cs.
  - cbn. by rewrite app_nil_r.
  - change (filed self (dep :: deps) cs)
      with (filed self deps
              (file_dependency (dep_name dep)
                 (mapped_type self (dep_name dep)) cs)).
    rewrite IH, filter_cons. cbn [cs_frameworks file_dependency].
    destruct (String.eqb_spec (mapped_type self (dep_name dep)) "framework").
    + rewrite decide_True by done. cbn [map]. by rewrite <- app_assoc.
    + by rewrite decide_False by done.
Qed.

Lemma filed_tools self deps : forall cs,
  cs_tools (filed self deps cs)
  = (cs_tools cs
     ++ map dep_name
          (filter (fun dep => mapped_type self (dep_name dep) = "tool")
             deps))%list.
Proof.
  induction deps as [|dep deps IH]; intros cs.
  - cbn. by rewrite app_nil_r.
  - change (filed self (dep :: deps) cs)
      with (filed self deps
              (file_dependency (dep_name dep)
                 (mapped_type self (dep_name dep)) cs)).
    rewrite IH, filter_cons. cbn [cs_tools file_dependency].
    destruct (String.eqb_spec (mapped_type self (dep_name dep)) "framework")
      as [Ef|Ef].
    + rewrite decide_False by (rewrite Ef; discriminate). done.
    + destruct (String.eqb_spec (mapped_type self (dep_name dep)) "tool").
      * rewrite decide_True by done. cbn [map]. by rewrite <- app_assoc.
      * by rewrite decide_False by done.
Qed.

(** X18: within a category of the summary, [frameworks] and [tools] are
    the names of the dependencies of that category that the table types as
    a framework and as a tool, sorted in ascending order. *)
Theorem summary_category_sorted (self : DependencyAnalyzer)
    (deps : list DependencyInfo) (c : string) :
  match Py.dict_get (fs_categories (get_framework_summary self deps)) c with
  | Some cs =>
      cs_frameworks cs = sort_strings (names_of_type self c "framework" deps)
      /\ cs_tools cs = sort_strings (names_of_type self c "tool" deps)
      /\ StronglySorted string_le (cs_frameworks cs)
      /\ StronglySorted string_le (cs_tools cs)
  | None => names_in_category self c deps = []
  end.
Proof.
  unfold get_framework_summary. cbn [fs_categories].
  rewrite dict_get_map_values, summary_loop_get. cbn [snd Py.dict_get].
  unfold names_in_category, names_of_type.
  destruct (filter _ deps) as [|d ds] eqn:E; [done|].
  cbn [fmap option_fmap option_map default sort_category cs_frameworks
       cs_tools].
  rewrite filed_frameworks, filed_tools. cbn [cs_frameworks cs_tools
    empty_category app].
  repeat split; apply sort_strings_sorted.
Qed.

(** X19: what [_create_dependency_info] and [get_framework_summary] say of a
    dependency agrees: the summary files a created dependency under the very
    category it was created with. *)
Theorem summary_agrees_with_creation (self : DependencyAnalyzer)
    (name version dep_type : string) (before after : list DependencyInfo) :
  let dep := _create_dependency_info self name version dep_type in
  let summary := get_framework_summary self (before ++ dep :: after) in
  exists c cs,
    dep_category dep = Some c
    /\ Py.dict_get (fs_categories summary) c = Some cs
    /\ name ∈ cs_dependencies cs.
Proof.
  cbv zeta. exists (mapped_category self name).
  unfold get_framework_summary. cbn [fs_categories].
  rewrite dict_get_map_values, summary_loop_get. cbn [snd Py.dict_get].
  rewrite filter_app, filter_cons.
  rewrite decide_True by done.
  destruct (filter _ before ++ _ :: filter _ after)%list as [|d ds] eqn:E.
  { by destruct (filter _ before). }
  eexists. split; [reflexivity|]. split; [reflexivity|].
  cbn [sort_category cs_dependencies default]. rewrite filed_dependencies.
  cbn [cs_dependencies empty_category app]. rewrite <- E, map_app.
  apply elem_of_app. right. cbn. left.
Qed.

(** ** The structure analyzer *)

Lemma group_by_category_get items c :
  Py.dict_get (group_by_category items) c
  = match grouped_under c items with
    | [] => None
    | names => Some names
    end.
Proof.
  unfold group_by_category. rewrite grouping_loop. cbn [Py.dict_get].
  by destruct (grouped_under c items).
Qed.

Lemma elem_of_grouped_under c items x :
  x ∈ grouped_under c items <-> (c, x) ∈ items.
Proof.
  unfold grouped_under. rewrite list_elem_of_In, in_map_iff. split.
  - intros ([k v] & <- & H). rewrite <- list_elem_of_In in H.
    apply list_elem_of_filter in H as [E H]. cbn in E. by subst.
  - intros H. exists (c, x). split; [done|].
    rewrite <- list_elem_of_In. by apply list_elem_of_filter.
Qed.

Lemma group_by_category_default items c :
  Dict.get_default (group_by_category items) c [] = grouped_under c items.
Proof.
  unfold Dict.get_default. rewrite group_by_category_get.
  by destruct (grouped_under c items).
Qed.

Lemma group_by_category_contains items c :
  Dict.contains (group_by_category items) c = true
  <-> exists x, (c, x) ∈ items.
Proof.
  rewrite dict_contains_get, group_by_category_get.
  destruct (grouped_under c items) as [|x l] eqn:E; split.
  - by intros [? ?].
  - intros [x H]. apply elem_of_grouped_under in H. rewrite E in H.
    by apply elem_of_nil in H.
  - intros _. exists x. apply elem_of_grouped_under. rewrite E. left.
  - eauto.
Qed.

Lemma has_folder_category folders c :
  Dict.contains
    (group_by_category
       (map (fun folder => (folder_category folder, folder_name folder))
          folders)) c = true
  <-> exists folder, folder ∈ folders /\ folder_category folder = c.
Proof.
  rewrite group_by_category_contains. split.
  - intros [x H]. apply list_elem_of_In, in_map_iff in H as (f & [= <- <-] & H).
    exists f. by rewrite list_elem_of_In.
  - intros (f & H & <-). exists (folder_name f).
    apply list_elem_of_In, in_map_iff. exists f. by rewrite <- list_elem_of_In.
Qed.

Lemma folder_named_in_category folders c n :
  Py.contains
    (Dict.get_default
       (group_by_category
          (map (fun folder => (folder_category folder, folder_name folder))
             folders)) c []) n = true
  <-> exists folder, folder ∈ folders /\ folder_category folder = c
        /\ folder_name folder = n.
Proof.
  rewrite contains_spec, group_by_category_default, elem_of_grouped_under.
  rewrite list_elem_of_In, in_map_iff. split.
  - intros (f & [= <- <-] & H). exists f. by rewrite list_elem_of_In.
  - intros (f & H & <- & <-). exists f. by rewrite <- list_elem_of_In.
Qed.

Lemma file_named_in_category files c n :
  Py.contains
    (Dict.get_default
       (group_by_category
          (map (fun file => (file_category file, file_name file)) files))
       c []) n = true
  <-> exists file, file ∈ files /\ file_category file = c
        /\ file_name file = n.
Proof.
  rewrite contains_spec, group_by_category_default, elem_of_grouped_under.
  rewrite list_elem_of_In, in_map_iff. split.
  - intros (f & [= <- <-] & H). exists f. by rewrite list_elem_of_In.
  - intros (f & H & <- & <-). exists f. by rewrite <- list_elem_of_In.
Qed.

Lemma elem_of_label_if b label x :
  x ∈ label_if b label <-> b = true /\ x = label.
Proof.
  destruct b; cbn.
  - rewrite list_elem_of_singleton. tauto.
  - rewrite elem_of_nil. split; [done|]. by intros [? _].
Qed.

(** X20: [_detect_patterns] names the architecture after the categories of
    the folders: ["full-stack"] when some folder is frontend and some folder
    is backend, ["frontend"] or ["backend"] when only one of the two kinds
    occurs, and ["unknown"] when neither does. *)
Theorem architecture_by_folder_categories (folders : list FolderInfo)
    (files : list FileInfo) :
  let has := fun c =>
    exists folder, folder ∈ folders /\ folder_category folder = c in
  let arch := architecture (_detect_patterns folders files) in
  (arch = "full-stack" <-> has "frontend" /\ has "backend")
  /\ (arch = "frontend" <-> has "frontend" /\ ~ has "backend")
  /\ (arch = "backend" <-> ~ has "frontend" /\ has "backend")
  /\ (arch = "unknown" <-> ~ has "frontend" /\ ~ has "backend").
Proof.
  cbv zeta. unfold _detect_patterns. cbn [architecture].
  pose proof (has_folder_category folders "frontend") as Hf.
  pose proof (has_folder_category folders "backend") as Hb.
  destruct (Dict.contains _ "frontend"), (Dict.contains _ "backend");
    cbn [andb]; rewrite <- Hf, <- Hb;
    repeat split; try done; try tauto; try (intros [? ?]; done);
    intros [H1 H2]; try done; try (by destruct H1); by destruct H2.
Qed.

Lemma key_folder_categories :
  forallb (fun item =>
             negb (Py.contains ["tests"; "__tests__"; "docs"; "migrations";
                                ".github"] (key_category item.2)))
    (key_folders StructureAnalyzer__init__) = true.
Proof. vm_compute. reflexivity. Qed.

Lemma categorize_folder_never_a_name dir_name :
  categorize_folder StructureAnalyzer__init__ dir_name
  ∉ ["tests"; "__tests__"; "docs"; "migrations"; ".github"].
Proof.
  unfold categorize_folder.
  destruct (Py.dict_get _ _) as [entry|] eqn:E.
  - apply dict_get_elem_of, list_elem_of_In in E.
    pose proof key_folder_categories as H. rewrite forallb_forall in H.
    pose proof (H _ E) as Hc. cbn [snd] in Hc.
    apply negb_true_iff in Hc. intros Hin. apply contains_spec in Hin.
    congruence.
  - intros Hin. apply contains_spec in Hin. vm_compute in Hin. discriminate.
Qed.

Lemma categorized_has_no_name folders c :
  folders_categorized StructureAnalyzer__init__ folders ->
  c ∈ ["tests"; "__tests__"; "docs"; "migrations"; ".github"] ->
  Dict.contains
    (group_by_category
       (map (fun folder => (folder_category folder, folder_name folder))
          folders)) c = false.
Proof.
  intros Hcat Hc. apply not_true_is_false. intros H.
  apply has_folder_category in H as (f & Hf & <-).
  unfold folders_categorized in Hcat. rewrite Forall_forall in Hcat.
  rewrite (Hcat f Hf) in Hc.
  by apply categorize_folder_never_a_name in Hc.
Qed.

(** X21: on folders categorized as [_analyze_folders] categorizes them,
    [_detect_patterns] finds no project type and never reports
    ["test-driven"]: these tests look for folder names among the category
    keys.  It reports ["component-based"] exactly when a folder is named
    ["components"], and ["api-driven"] exactly when one is named ["api"]. *)
Theorem categorized_folders_patterns (folders : list FolderInfo)
    (files : list FileInfo) :
  folders_categorized StructureAnalyzer__init__ folders ->
  let p := _detect_patterns folders files in
  project_types p = []
  /\ ("test-driven" ∉ frameworks p)
  /\ ("component-based" ∈ frameworks p
      <-> exists folder, folder ∈ folders /\ folder_name folder = "components")
  /\ ("api-driven" ∈ frameworks p
      <-> exists folder, folder ∈ folders /\ folder_name folder = "api").
Proof.
  intros Hcat p.
  assert (Hno : forall c,
            c ∈ ["tests"; "__tests__"; "docs"; "migrations"; ".github"] ->
            Dict.contains
              (group_by_category
                 (map (fun folder =>
                         (folder_category folder, folder_name folder))
                    folders)) c = false)
    by (intros c; by apply categorized_has_no_name).
  assert (Hname : forall folder n c,
            folder ∈ folders -> folder_name folder = n ->
            categorize_folder StructureAnalyzer__init__ n = c ->
            folder_category folder = c).
  { intros f n c Hf <- <-. unfold folders_categorized in Hcat.
    rewrite Forall_forall in Hcat. by apply Hcat. }
  unfold p, _detect_patterns. cbn [project_types frameworks].
  rewrite !Hno by (apply list_elem_of_In; cbn; tauto). cbn [orb label_if app].
  rewrite !app_nil_r.
  split; [done|]. split.
  - rewrite elem_of_app, !elem_of_label_if. intros [[_ [=]]|[_ [=]]].
  - split.
    + rewrite elem_of_app, !elem_of_label_if, !folder_named_in_category. split.
      * intros [[(f & Hf & _ & Hn) _]|[_ [=]]]. eauto.
      * intros (f & Hf & Hn). left. split; [|done]. exists f.
        split; [done|]. split; [|done]. by apply (Hname f "components").
    + rewrite elem_of_app, !elem_of_label_if, !folder_named_in_category. split.
      * intros [[_ [=]]|[(f & Hf & _ & Hn) _]]. eauto.
      * intros (f & Hf & Hn). right. split; [|done]. exists f.
        split; [done|]. split; [|done]. by apply (Hname f "api").
Qed.

Lemma categorized_folders_patterns_witness :
  let folders :=
    [ {| folder_name := "Components"; folder_path := "./Components";
         folder_file_count := 3; folder_subfolder_count := 0;
         folder_category := "frontend" |};
      {| folder_name := "tests"; folder_path := "./tests";
         folder_file_count := 2; folder_subfolder_count := 0;
         folder_category := "testing" |};
      {| folder_name := "docs"; folder_path := "./docs";
         folder_file_count := 1; folder_subfolder_count := 0;
         folder_category := "documentation" |} ] in
  folders_categorized StructureAnalyzer__init__ folders
  /\ _detect_patterns folders []
     = {| architecture := "frontend"; frameworks := []; project_types := [];
          key_patterns := [] |}
  /\ project_types (_detect_patterns folders []) = [].
Proof.
  cbv zeta.
  match goal with |- ?H /\ _ => assert (Hc : H) end.
  { repeat constructor. }
  split; [exact Hc|]. split; [vm_compute; reflexivity|].
  exact (proj1 (categorized_folders_patterns _ [] Hc)).
Defined.

Lemma manifest_category n :
  n ∈ ["package.json"; "requirements.txt"; "Cargo.toml"; "go.mod"] ->
  forall extension,
    categorize_file StructureAnalyzer__init__ n extension = "configuration".
Proof.
  rewrite !elem_of_cons, elem_of_nil.
  intros [->|[->|[->|[->|[]]]]] extension; reflexivity.
Qed.

(** X22: on files categorized as [_analyze_files] categorizes them, a key
    pattern is reported exactly when the project has the manifest file of
    that name: ["nodejs-project"] for [package.json], ["python-project"] for
    [requirements.txt], ["rust-project"] for [Cargo.toml] and
    ["go-project"] for [go.mod]. *)
Theorem categorized_files_key_patterns (folders : list FolderInfo)
    (files : list FileInfo) :
  files_categorized StructureAnalyzer__init__ files ->
  let p := _detect_patterns folders files in
  let has := fun n => exists file, file ∈ files /\ file_name file = n in
  ("nodejs-project" ∈ key_patterns p <-> has "package.json")
  /\ ("python-project" ∈ key_patterns p <-> has "requirements.txt")
  /\ ("rust-project" ∈ key_patterns p <-> has "Cargo.toml")
  /\ ("go-project" ∈ key_patterns p <-> has "go.mod").
Proof.
  intros Hcat p has.
  assert (Hiff : forall n,
            n ∈ ["package.json"; "requirements.txt"; "Cargo.toml"; "go.mod"] ->
            Py.contains
              (Dict.get_default
                 (group_by_category
                    (map (fun file => (file_category file, file_name file))
                       files)) "configuration" []) n = true
            <-> has n).
  { intros n Hn. rewrite file_named_in_category. unfold has. split.
    - intros (f & Hf & _ & E). eauto.
    - intros (f & Hf & E). exists f. split; [done|]. split; [|done].
      unfold files_categorized in Hcat. rewrite Forall_forall in Hcat.
      rewrite (Hcat f Hf), E. by apply manifest_category. }
  unfold p, _detect_patterns. cbn [key_patterns].
  rewrite !elem_of_app, !elem_of_label_if.
  rewrite !Hiff by (apply list_elem_of_In; cbn; tauto).
  repeat split; try (intros H; tauto);
    intros [[H [=]]|[[H [=]]|[[H [=]]|[H [=]]]]]; done.
Qed.

Lemma categorized_files_key_patterns_witness :
  let files :=
    [ {| file_name := "package.json"; file_path := "./package.json";
         file_size := 120; file_extension := ".json";
         file_category := "configuration" |};
      {| file_name := "main.py"; file_path := "./main.py";
         file_size := 40; file_extension := ".py";
         file_category := "backend" |} ] in
  files_categorized StructureAnalyzer__init__ files
  /\ ("nodejs-project" ∈ key_patterns (_detect_patterns [] files)
      <-> exists file, file ∈ files /\ file_name file = "package.json").
Proof.
  cbv zeta.
  match goal with |- ?H /\ _ => assert (Hc : H) end.
  { repeat constructor. }
  split; [exact Hc|].
  exact (proj1 (categorized_files_key_patterns [] _ Hc)).
Defined.

(** ** The counting loops of [_create_summary] *)

Lemma counting_loop (categories : list string) :
  forall d c,
    Py.dict_get
      (foldl (fun d category => Dict.upsert 0 S d category) d categories) c
    = match Py.dict_get d c, length (filter (eq c) categories) with
      | None, 0 => None
      | o, n => Some (default 0 o + n)
      end.
Proof.
  induction categories as [|k categories IH]; intros d c; cbn [foldl].
  - cbn. destruct (Py.dict_get d c); [|done]. f_equal. lia.
  - rewrite IH, dict_get_upsert, filter_cons. unfold Dict.get_default.
    destruct (String.eqb_spec k c) as [->|Hne].
    + rewrite decide_True by done. cbn [length default].
      destruct (Py.dict_get d c) as [m|]; cbn; f_equal; lia.
    + rewrite decide_False by done. done.
Qed.

Lemma count_by_category_default categories c :
  Dict.get_default (count_by_category categories) c 0
  = length (filter (eq c) categories).
Proof.
  unfold Dict.get_default, count_by_category. rewrite counting_loop.
  cbn [Py.dict_get default]. by destruct (length _).
Qed.

Lemma sum_list_snoc (l : list nat) n : sum_list (l ++ [n]) = sum_list l + n.
Proof. induction l as [|m l IH]; cbn; [lia|]. rewrite IH. lia. Qed.

Lemma alter_sum k (d : list (string * nat)) :
  k ∈ map fst d ->
  sum_list (map snd (Dict.alter S k d)) = S (sum_list (map snd d)).
Proof.
  induction d as [|[k0 v] d IH]; cbn.
  - intros H. by apply elem_of_nil in H.
  - intros H. destruct (String.eqb_spec k0 k) as [->|Hne]; cbn; [done|].
    apply elem_of_cons in H as [->|H]; [done|]. rewrite IH by done. lia.
Qed.

Lemma counting_loop_sum (categories : list string) :
  forall d,
    sum_list
      (map snd
         (foldl (fun d category => Dict.upsert 0 S d category) d categories))
    = sum_list (map snd d) + length categories.
Proof.
  induction categories as [|k categories IH]; intros d; cbn [foldl length].
  - lia.
  - rewrite IH. unfold Dict.upsert. destruct (Dict.contains d k) eqn:E.
    + rewrite alter_sum by (by apply dict_contains_keys). lia.
    + rewrite alter_sum.
      * rewrite map_app. cbn [map snd]. rewrite sum_list_snoc. lia.
      * rewrite map_app. apply elem_of_app. right. cbn. left.
Qed.

Lemma counting_loop_keys (categories : list string) :
  forall d : list (string * nat),
    NoDup (map fst d) ->
    NoDup (map fst
             (foldl (fun d category => Dict.upsert 0 S d category)
                d categories)).
Proof.
  induction categories as [|k categories IH]; intros d Hd; cbn [foldl];
    [done|].
  apply IH. by apply keys_upsert_NoDup.
Qed.

Lemma count_by_category_of {A : Type} (f : A -> string) (l : list A) c :
  Dict.get_default (count_by_category (map f l)) c 0
  = length (filter (fun x => f x = c) l).
Proof.
  rewrite count_by_category_default.
  induction l as [|x l IH]; [done|].
  cbn [map]. rewrite !filter_cons.
  destruct (decide (c = f x)) as [->|Hne].
  - rewrite decide_True by done. cbn [length]. by rewrite IH.
  - rewrite decide_False by done. done.
Qed.

(** X23: in the summary of [_create_summary] the count of a category is the
    number of folders, or of files, of that category (the [get] with
    default [0] of a category that has none); the categories are listed
    once each and their counts add up to [total_folders] and to
    [total_files]. *)
Theorem summary_category_counts (folders : list FolderInfo)
    (files : list FileInfo) (p : Patterns) :
  let summary := _create_summary folders files p in
  (forall c,
     Dict.get_default (folder_categories summary) c 0
     = length (filter (fun folder => folder_category folder = c) folders)
     /\ Dict.get_default (file_categories summary) c 0
        = length (filter (fun file => file_category file = c) files))
  /\ NoDup (map fst (folder_categories summary))
  /\ NoDup (map fst (file_categories summary))
  /\ sum_list (map snd (folder_categories summary)) = total_folders summary
  /\ sum_list (map snd (file_categories summary)) = total_files summary.
Proof.
  cbv zeta. unfold _create_summary.
  cbn [folder_categories file_categories total_folders total_files].
  split; [|split; [|split; [|split]]].
  - intros c. split; apply count_by_category_of.
  - apply counting_loop_keys. constructor.
  - apply counting_loop_keys. constructor.
  - unfold count_by_category. rewrite counting_loop_sum. cbn.
    by rewrite length_map.
  - unfold count_by_category. rewrite counting_loop_sum. cbn.
    by rewrite length_map.
Qed.

(** ** The suggestions depend on the tokens as a set *)

Lemma len_set_inter_agree xs items items' :
  (forall t, t ∈ xs -> (t ∈ items <-> t ∈ items')) ->
  Py.len_set_inter xs items = Py.len_set_inter xs items'.
Proof.
  intros H. unfold Py.len_set_inter. f_equal. apply set_eq. intros t.
  rewrite !elem_of_intersection, !elem_of_list_to_set.
  split; intros [Hx Hi]; (split; [done|]); by apply (H t Hx).
Qed.

Lemma matched_items_agree tier items items' :
  (forall t, t ∈ tier -> (Py.lower t ∈ items <-> Py.lower t ∈ items')) ->
  matched_items tier items = matched_items tier items'.
Proof.
  unfold matched_items. induction tier as [|t tier IH]; intros H; [done|].
  rewrite !filter_cons, IH by (intros; apply H; by right).
  assert (Py.contains items (Py.lower t) = Py.contains items' (Py.lower t))
    as ->; [|done].
  apply eq_true_iff_eq. rewrite !contains_spec. apply H. left.
Qed.

Lemma calculate_agree self workflow_name tpl items items' :
  (forall t, t ∈ all_triggers tpl ->
     (t ∈ items <-> t ∈ items')
     /\ (Py.lower t ∈ items <-> Py.lower t ∈ items')) ->
  _calculate_workflow_confidence self workflow_name tpl items
  = _calculate_workflow_confidence self workflow_name tpl items'.
Proof.
  unfold all_triggers. intros H.
  assert (Hs : forall t, t ∈ strong (tpl_triggers tpl) ->
            (t ∈ items <-> t ∈ items')
            /\ (Py.lower t ∈ items <-> Py.lower t ∈ items'))
    by (intros t Ht; apply H; rewrite !elem_of_app; tauto).
  assert (Hm : forall t, t ∈ medium (tpl_triggers tpl) ->
            (t ∈ items <-> t ∈ items')
            /\ (Py.lower t ∈ items <-> Py.lower t ∈ items'))
    by (intros t Ht; apply H; rewrite !elem_of_app; tauto).
  assert (Hw : forall t, t ∈ weak (tpl_triggers tpl) ->
            (t ∈ items <-> t ∈ items')
            /\ (Py.lower t ∈ items <-> Py.lower t ∈ items'))
    by (intros t Ht; apply H; rewrite !elem_of_app; tauto).
  unfold _calculate_workflow_confidence, _generate_reasoning, clause.
  cbn [flat_map].
  rewrite (len_set_inter_agree (strong _) items items')
    by (intros t Ht; apply (Hs t Ht)).
  rewrite (len_set_inter_agree (medium _) items items')
    by (intros t Ht; apply (Hm t Ht)).
  rewrite (len_set_inter_agree (weak _) items items')
    by (intros t Ht; apply (Hw t Ht)).
  rewrite (matched_items_agree (strong _) items items')
    by (intros t Ht; apply (Hs t Ht)).
  rewrite (matched_items_agree (medium _) items items')
    by (intros t Ht; apply (Hm t Ht)).
  rewrite (matched_items_agree (weak _) items items')
    by (intros t Ht; apply (Hw t Ht)).
  reflexivity.
Qed.

Lemma match_workflows_agree self a a' :
  (forall entry t,
     entry ∈ workflow_templates self -> t ∈ all_triggers entry.2 ->
     let items := _extract_detected_items (dependencies a) (patterns a) in
     let items' := _extract_detected_items (dependencies a') (patterns a') in
     (t ∈ items <-> t ∈ items')
     /\ (Py.lower t ∈ items <-> Py.lower t ∈ items')) ->
  match_workflows self a = match_workflows self a'.
Proof.
  intros H. unfold match_workflows. rewrite !emitted_filter. unfold scored.
  do 2 f_equal. apply map_ext_in. intros entry He.
  apply calculate_agree. intros t Ht. apply (H entry t); [|done].
  by apply list_elem_of_In.
Qed.

(** X24: the suggestions depend on the detected tokens as a set: two
    analyses that flatten to lists with the same members -- the same
    dependencies in another order, or listed twice -- get the same list of
    suggestions, with the same confidences, reasonings and matched
    triggers. *)
Theorem suggestions_depend_on_token_set (self : WorkflowMatcher)
    (a a' : AnalysisResults) :
  (forall token,
     token ∈ _extract_detected_items (dependencies a) (patterns a)
     <-> token ∈ _extract_detected_items (dependencies a') (patterns a')) ->
  match_workflows self a = match_workflows self a'.
Proof.
  intros H. unfold match_workflows. rewrite !emitted_filter. unfold scored.
  do 2 f_equal. apply map_ext_in. intros [n tpl] _. cbn [fst snd].
  apply calculate_agree. intros t _. split; apply H.
Qed.

Lemma suggestions_depend_on_token_set_witness :
  let react := DependencyInfo_new "react" None "production" "frontend" in
  let express := DependencyInfo_new "Express" None "production" "backend" in
  let a := {| dependencies := [react; express]; patterns := no_patterns |} in
  let a' := {| dependencies := [express; react; express];
               patterns := no_patterns |} in
  _extract_detected_items (dependencies a) (patterns a)
  = ["react"; "frontend"; "express"; "backend"]
  /\ _extract_detected_items (dependencies a') (patterns a')
     = ["express"; "backend"; "react"; "frontend"; "express"; "backend"]
  /\ match_workflows __init__ a = match_workflows __init__ a'.
Proof.
  cbv zeta. split; [reflexivity|]. split; [reflexivity|].
  apply suggestions_depend_on_token_set. intros token.
  change (token ∈ ["react"; "frontend"; "express"; "backend"]
          <-> token ∈ ["express"; "backend"; "react"; "frontend"; "express";
                       "backend"]).
  rewrite !elem_of_cons, !elem_of_nil. tauto.
Defined.

(** ** The structure analyzer before the matcher *)

Lemma pattern_labels_lower y : y ∈ pattern_labels -> Py.lower y = y.
Proof.
  unfold pattern_labels. rewrite !elem_of_cons, elem_of_nil.
  intros H. repeat (destruct H as [->|H]; [reflexivity|]). done.
Qed.

Lemma detected_labels folders files y :
  let p := _detect_patterns folders files in
  y ∈ (frameworks p ++ project_types p ++ key_patterns p)%list ->
  y ∈ pattern_labels.
Proof.
  cbv zeta. unfold _detect_patterns.
  cbn [frameworks project_types key_patterns].
  rewrite !elem_of_app, !elem_of_label_if. unfold pattern_labels.
  rewrite !elem_of_cons. intros H.
  decompose [or and] H; subst; repeat first [left; reflexivity | right].
Qed.

Lemma catalog_ignores_pattern_labels :
  forallb (fun entry =>
             forallb (fun t =>
                        negb (Py.contains pattern_labels t)
                        && negb (Py.contains pattern_labels (Py.lower t)))
               (all_triggers entry.2))
    (workflow_templates __init__) = true.
Proof. vm_compute. reflexivity. Qed.

Lemma architecture_only_items deps folders files x :
  x ∉ pattern_labels ->
  let p := _detect_patterns folders files in
  x ∈ _extract_detected_items deps p
  <-> x ∈ _extract_detected_items deps (architecture_only p).
Proof.
  intros Hx p.
  pose proof (detected_labels folders files) as Hlab. cbv zeta in Hlab.
  fold p in Hlab. clearbody p.
  unfold _extract_detected_items.
  change (architecture_items (architecture_only p))
    with (architecture_items p).
  cbn [architecture_only frameworks project_types key_patterns app].
  rewrite !map_app, !elem_of_app.
  assert (Hno : forall l,
            (forall y, y ∈ l ->
               y ∈ (frameworks p ++ project_types p ++ key_patterns p)%list) ->
            x ∈ map Py.lower l -> False).
  { intros l Hl Hin. apply list_elem_of_In, in_map_iff in Hin as (y & <- & Hy).
    apply list_elem_of_In, Hl, Hlab in Hy.
    apply Hx. by rewrite pattern_labels_lower. }
  split; [|tauto].
  intros [H|[H|[H|[H|H]]]]; [tauto| | | |tauto]; exfalso;
    eapply Hno; try exact H; intros y Hy; rewrite !elem_of_app; tauto.
Qed.

Lemma architecture_only_agree deps folders files entry t :
  entry ∈ workflow_templates __init__ -> t ∈ all_triggers entry.2 ->
  let p := _detect_patterns folders files in
  (t ∈ _extract_detected_items deps p
   <-> t ∈ _extract_detected_items deps (architecture_only p))
  /\ (Py.lower t ∈ _extract_detected_items deps p
      <-> Py.lower t ∈ _extract_detected_items deps (architecture_only p)).
Proof.
  intros He Ht p. pose proof catalog_ignores_pattern_labels as H.
  rewrite forallb_forall in H. apply list_elem_of_In in He.
  pose proof (H _ He) as Hall. rewrite forallb_forall in Hall.
  apply list_elem_of_In in Ht.
  pose proof (Hall _ Ht) as [H1 H2]%andb_prop.
  apply negb_true_iff in H1, H2.
  split; apply architecture_only_items; intros Hin;
    apply contains_spec in Hin; congruence.
Qed.

(** X25: no trigger of the catalog of [__init__] is one of the labels that
    [_detect_patterns] puts into [frameworks], [project_types] and
    [key_patterns]: when the matcher is given the patterns of
    [_detect_patterns], these labels change nothing, and the suggestions
    are those of the same dependencies with the architecture alone. *)
Theorem detected_labels_match_nothing (deps : list DependencyInfo)
    (folders : list FolderInfo) (files : list FileInfo) :
  let p := _detect_patterns folders files in
  match_workflows __init__ {| dependencies := deps; patterns := p |}
  = match_workflows __init__
      {| dependencies := deps; patterns := architecture_only p |}.
Proof.
  cbv zeta. apply match_workflows_agree. intros entry t He Ht.
  cbn [dependencies patterns].
  exact (architecture_only_agree deps folders files entry t He Ht).
Qed.

(** X26: for a project of which only the structure is known, the matcher
    with the catalog of [__init__] decides by the architecture that
    [_detect_patterns] found: nothing for ["unknown"];
    ["full-stack-documentation"] at [0.7] and, after it,
    ["api-documentation"] at [0.5] for ["backend"];
    ["full-stack-documentation"] at [0.7] alone for ["frontend"] and
    ["full-stack"]. *)
Theorem structure_only_suggestions (folders : list FolderInfo)
    (files : list FileInfo) :
  let p := _detect_patterns folders files in
  map (fun s => (name s, confidence s))
    (match_workflows __init__ {| dependencies := []; patterns := p |})
  = if String.eqb (architecture p) "unknown" then []
    else if String.eqb (architecture p) "backend"
    then [("full-stack-documentation", 0.7%float);
          ("api-documentation", 0.5%float)]
    else [("full-stack-documentation", 0.7%float)].
Proof.
  cbv zeta.
  rewrite (match_workflows_agree __init__
             {| dependencies := []; patterns := _detect_patterns folders files |}
             {| dependencies := [];
                patterns := architecture_only (_detect_patterns folders files) |})
    by (intros entry t He Ht; cbn [dependencies patterns];
        exact (architecture_only_agree [] folders files entry t He Ht)).
  unfold architecture_only, _detect_patterns. cbn [architecture].
  destruct (Dict.contains _ "frontend"), (Dict.contains _ "backend");
    vm_compute; reflexivity.
Qed.

(** ** The recommendations of the structure analyzer *)

Lemma categorized_no_project_types folders files :
  folders_categorized StructureAnalyzer__init__ folders ->
  let p := _detect_patterns folders files in
  project_types p = []
  /\ Py.contains (frameworks p) "test-driven" = false.
Proof.
  intros Hcat p.
  assert (Hno : forall c,
            c ∈ ["tests"; "__tests__"; "docs"; "migrations"; ".github"] ->
            Dict.contains
              (group_by_category
                 (map (fun folder =>
                         (folder_category folder, folder_name folder))
                    folders)) c = false)
    by (intros c; by apply categorized_has_no_name).
  unfold p, _detect_patterns. cbn [project_types frameworks].
  rewrite !Hno by (apply list_elem_of_In; cbn; tauto). cbn [orb label_if app].
  split; [done|]. apply not_true_is_false. rewrite contains_spec.
  rewrite app_nil_r, elem_of_app, !elem_of_label_if.
  intros [[_ [=]]|[_ [=]]].
Qed.

Lemma elem_of_if_list (b : bool) (l : list string) x :
  x ∈ (if b then l else []) -> x ∈ l.
Proof. destruct b; [done|]. intros H. by apply elem_of_nil in H. Qed.

Lemma collected_recommendations_architecture p x :
  Py.contains
    ["storybook-setup"; "component-testing"; "openapi-spec"; "api-testing";
     "test-coverage"; "ci-testing"; "documentation-generation";
     "knowledge-base"; "database-migration"; "data-validation";
     "deployment-pipeline"; "automation-workflow"] x = false ->
  x ∈ collected_recommendations p
  <-> x ∈ (if String.eqb (architecture p) "full-stack"
           then ["full-stack-documentation"; "api-documentation";
                 "component-library"]
           else if String.eqb (architecture p) "frontend"
           then ["component-library"; "frontend-testing"]
           else if String.eqb (architecture p) "backend"
           then ["api-documentation"; "database-schema"]
           else []).
Proof.
  intros Hx. unfold collected_recommendations. rewrite elem_of_app.
  split; [|tauto]. intros [H|H]; [done|exfalso].
  rewrite !elem_of_app in H.
  decompose [or] H; clear H;
    match goal with
    | H : x ∈ _ |- _ =>
        apply elem_of_if_list in H; rewrite !elem_of_cons, elem_of_nil in H;
        decompose [or] H; try contradiction; subst; vm_compute in Hx;
        discriminate
    end.
Qed.

(** X27: the recommendations that [_generate_recommendations] draws from
    the architecture of [_detect_patterns], by the folders of the project:
    ["component-library"] when some folder is frontend,
    ["api-documentation"] when some folder is backend,
    ["full-stack-documentation"] when both kinds occur,
    ["frontend-testing"] and ["database-schema"] when only one of them
    does.  No other branch of the function adds one of these names. *)
Theorem recommendations_by_folders (folders : list FolderInfo)
    (files : list FileInfo) :
  let has := fun c => exists folder, folder ∈ folders /\ folder_category folder = c in
  let r := _generate_recommendations (_detect_patterns folders files) in
  ("component-library" ∈ r <-> has "frontend")
  /\ ("api-documentation" ∈ r <-> has "backend")
  /\ ("full-stack-documentation" ∈ r <-> has "frontend" /\ has "backend")
  /\ ("frontend-testing" ∈ r <-> has "frontend" /\ ~ has "backend")
  /\ ("database-schema" ∈ r <-> ~ has "frontend" /\ has "backend").
Proof.
  cbv zeta. unfold _generate_recommendations.
  rewrite !elem_of_list_to_set.
  rewrite !collected_recommendations_architecture by (vm_compute; reflexivity).
  rewrite <- !(has_folder_category folders), <- !contains_spec.
  unfold _detect_patterns. cbn [architecture].
  destruct (Dict.contains _ "frontend"), (Dict.contains _ "backend");
    vm_compute; intuition congruence.
Qed.

(** X28: on folders categorized as [_analyze_folders] categorizes them, the
    recommendations of [_generate_recommendations] for the patterns of
    [_detect_patterns] are among nine names: the recommendations for
    test-driven, documentation-heavy, database-driven and ci-cd-enabled
    projects are never made. *)
Theorem categorized_recommendations (folders : list FolderInfo)
    (files : list FileInfo) (x : string) :
  folders_categorized StructureAnalyzer__init__ folders ->
  x ∈ _generate_recommendations (_detect_patterns folders files) ->
  x ∈ ["full-stack-documentation"; "api-documentation"; "component-library";
       "frontend-testing"; "database-schema"; "storybook-setup";
       "component-testing"; "openapi-spec"; "api-testing"].
Proof.
  intros Hcat.
  destruct (categorized_no_project_types folders files Hcat) as [Hpt Htd].
  unfold _generate_recommendations. rewrite elem_of_list_to_set.
  unfold collected_recommendations. rewrite Hpt, Htd.
  change (Py.contains [] "documentation-heavy") with false.
  change (Py.contains [] "database-driven") with false.
  change (Py.contains [] "ci-cd-enabled") with false.
  cbn iota. rewrite !app_nil_r, !elem_of_app. intros H.
  assert (Harch : forall (b : bool) (l1 l2 : list string),
            x ∈ (if b then l1 else l2) -> x ∈ l1 \/ x ∈ l2)
    by (intros [] ? ?; tauto).
  destruct H as [H|[H|H]].
  - apply Harch in H as [H|H]; [|apply Harch in H as [H|H];
                                  [|apply Harch in H as [H|H]]];
      rewrite !elem_of_cons, ?elem_of_nil in *; tauto.
  - apply elem_of_if_list in H. rewrite !elem_of_cons, ?elem_of_nil in *.
    tauto.
  - apply elem_of_if_list in H. rewrite !elem_of_cons, ?elem_of_nil in *.
    tauto.
Qed.

Lemma categorized_recommendations_witness :
  let folder := fun n c =>
    {| folder_name := n; folder_path := "./" +:+ n; folder_file_count := 1;
       folder_subfolder_count := 0; folder_category := c |} in
  let folders :=
    [ folder "components" "frontend"; folder "tests" "testing";
      folder "docs" "documentation"; folder ".github" "deployment" ] in
  folders_categorized StructureAnalyzer__init__ folders
  /\ "storybook-setup"
       ∈ _generate_recommendations (_detect_patterns folders [])
  /\ "storybook-setup"
       ∈ ["full-stack-documentation"; "api-documentation";
          "component-library"; "frontend-testing"; "database-schema";
          "storybook-setup"; "component-testing"; "openapi-spec";
          "api-testing"].
Proof.
  cbv zeta.
  match goal with |- ?H /\ ?G /\ _ => assert (Hc : H); [|assert (Hr : G)] end.
  - repeat constructor.
  - apply elem_of_list_to_set, contains_spec. vm_compute. reflexivity.
  - split; [exact Hc|]. split; [exact Hr|].
    exact (categorized_recommendations _ [] _ Hc Hr).
Defined.
